(** * Stripe copy: production -> test

    A shallow embedding of the synchroniser found in [main.py] and [src/]:
    the ID mapper ([src/mapper.py]), the guarded API wrapper
    ([src/stripe_client.py]), the template-method copier
    ([src/copiers/base.py]) with its four variants, and the part of [main]
    that selects and runs the copiers.

    Python objects are dynamically typed, so entities are embedded as
    dynamic values; exceptions are an explicit result type, and the mutable
    objects shared by all copiers (the mapper, the remote account, the
    logger's warning channel) are threaded as one state. *)

From Stdlib Require Import ZArith Ascii.
From stdpp Require Import gmap strings list fin_maps pretty.

Local Open Scope string_scope.
Local Open Scope Z_scope.

Set Warnings "-register-all".

(** ** Python values *)

(** [VObj] is a [StripeObject]: a mapping whose keys can also be read as
    attributes.  [VDict] is a plain [dict]: keys are not attributes.
    [VDec n] stands for the float [n / 10000] (Stripe percentages carry at
    most four decimals). *)
Inductive value : Type :=
| VNone
| VBool (b : bool)
| VInt (n : Z)
| VDec (n : Z)
| VStr (s : string)
| VList (xs : list value)
| VDict (kvs : list (string * value))
| VObj (kvs : list (string * value)).

Abbreviation dict := (list (string * value)).

(** [d.get(k)] / [k in d] on an insertion-ordered dictionary. *)
Fixpoint dict_get (k : string) (d : dict) : option value :=
  match d with
  | [] => None
  | (k', v) :: d' => if String.eqb k k' then Some v else dict_get k d'
  end.

(** [d[k] = v]: overwrite in place, or append a new key. *)
Fixpoint dict_set (k : string) (v : value) (d : dict) : dict :=
  match d with
  | [] => [(k, v)]
  | (k', v') :: d' =>
      if String.eqb k k' then (k, v) :: d' else (k', v') :: dict_set k v d'
  end.

(** [{**a, **b}]: the entries of [b] are written over [a], left to right. *)
Definition dict_update (a b : dict) : dict :=
  fold_left (fun acc kv => dict_set kv.1 kv.2 acc) b a.

(** [bool(v)]. *)
Definition truthy (v : value) : bool :=
  match v with
  | VNone => false
  | VBool b => b
  | VInt n => negb (n =? 0)
  | VDec n => negb (n =? 0)
  | VStr s => negb (String.eqb s "")
  | VList xs => match xs with [] => false | _ => true end
  | VDict kvs => match kvs with [] => false | _ => true end
  | VObj kvs => match kvs with [] => false | _ => true end
  end.

(** Numbers in units of 1/10000 ([bool] is a subtype of [int]). *)
Definition num_of (v : value) : option Z :=
  match v with
  | VBool b => Some (if b then 10000 else 0)
  | VInt n => Some (n * 10000)
  | VDec n => Some n
  | _ => None
  end.

(** [a == b].  Numbers compare by value, containers element-wise, mappings
    key-wise whatever the order of insertion. *)
Fixpoint py_eq (a b : value) {struct a} : bool :=
  match a, b with
  | VNone, VNone => true
  | VStr s, VStr t => String.eqb s t
  | VList xs, VList ys =>
      (fix go (xs ys : list value) {struct xs} : bool :=
         match xs, ys with
         | [], [] => true
         | x :: xs', y :: ys' => py_eq x y && go xs' ys'
         | _, _ => false
         end) xs ys
  | (VDict xs | VObj xs), (VDict ys | VObj ys) =>
      Nat.eqb (length xs) (length ys)
      && (fix all (l : dict) {struct l} : bool :=
            match l with
            | [] => true
            | (k, v) :: l' =>
                match dict_get k ys with
                | Some v' => py_eq v v'
                | None => false
                end && all l'
            end) xs
  | _, _ =>
      match num_of a, num_of b with
      | Some x, Some y => x =? y
      | _, _ => false
      end
  end.

(** [str(v)] as used inside f-strings.  Containers never reach an f-string
    in the code modelled here with a content that matters; they print as a
    fixed marker. *)
Definition py_str (v : value) : string :=
  match v with
  | VNone => "None"
  | VBool b => if b then "True" else "False"
  | VInt n => pretty n
  | VDec n => pretty (n / 10000) +:+ "." +:+ pretty (Z.abs n mod 10000)
  | VStr s => s
  | VList _ => "[...]"
  | VDict _ | VObj _ => "{...}"
  end.

(** ** Exceptions *)

(** The exception classes the code can meet.  All of them derive from
    [Exception], so every [except Exception] clause catches each of them. *)
Inductive exn : Type :=
| AttributeError (attr : string)
| TypeError (msg : string)
| ValueError (msg : string)
| KeyError (key : string)
| StripeClientError (msg : string).

Inductive result (A : Type) : Type :=
| Ok (a : A)
| Raise (e : exn).
Arguments Ok {A} a.
Arguments Raise {A} e.

#[global] Instance result_ret : MRet result := fun A a => Ok a.
#[global] Instance result_bind : MBind result := fun A B f r =>
  match r with
  | Ok a => f a
  | Raise e => Raise e
  end.

(** ** Attribute and item access *)

(** [hasattr(v, a)]: only a [StripeObject] exposes its keys as attributes. *)
Definition hasattr (v : value) (a : string) : bool :=
  match v with
  | VObj kvs => match dict_get a kvs with Some _ => true | None => false end
  | _ => false
  end.

(** [v.a] *)
Definition getattr (v : value) (a : string) : result value :=
  match v with
  | VObj kvs =>
      match dict_get a kvs with
      | Some x => Ok x
      | None => Raise (AttributeError a)
      end
  | _ => Raise (AttributeError a)
  end.

(** [getattr(v, a, dflt)] *)
Definition getattr_or (v : value) (a : string) (dflt : value) : value :=
  match getattr v a with
  | Ok x => x
  | Raise _ => dflt
  end.

(** [hasattr(v, a) and v.a] used as a condition. *)
Definition has_truthy (v : value) (a : string) : bool :=
  match getattr v a with
  | Ok x => truthy x
  | Raise _ => false
  end.

(** [hasattr(v, a) and v.a is not None] *)
Definition has_not_none (v : value) (a : string) : bool :=
  match getattr v a with
  | Ok VNone => false
  | Ok _ => true
  | Raise _ => false
  end.

(** [v.get(k)] on a mapping; any other value has no [get] method. *)
Definition method_get (v : value) (k : string) : result value :=
  match v with
  | VDict kvs | VObj kvs => Ok (default VNone (dict_get k kvs))
  | _ => Raise (AttributeError "get")
  end.

(** [dict(v)].  The argument is always a metadata mapping in the API; other
    values are rejected. *)
Definition py_dict (v : value) : result dict :=
  match v with
  | VDict kvs | VObj kvs => Ok kvs
  | _ => Raise (TypeError "cannot convert dictionary update sequence")
  end.

(** The values a [for] loop (or [list(v)]) draws from [v]. *)
Definition py_iter (v : value) : result (list value) :=
  match v with
  | VList xs => Ok xs
  | VDict kvs | VObj kvs => Ok (map (fun kv => VStr kv.1) kvs)
  | VStr s => Ok (map (fun c => VStr (String c "")) (String.list_ascii_of_string s))
  | _ => Raise (TypeError "object is not iterable")
  end.

(** ** [src/mapper.py]: the ID mapper *)

Record IDMapper : Type := mkIDMapper {
  mappings : gmap string (gmap string string);
  stats : gmap string (gmap string Z);
}.

Definition zero_stats : gmap string Z :=
  {[ "created" := 0; "updated" := 0; "errors" := 0 ]}.

(** [IDMapper.__init__] *)
Definition IDMapper_init : IDMapper :=
  {| mappings := {[ "tax_rates" := ∅; "products" := ∅;
                    "prices" := ∅; "coupons" := ∅ ]};
     stats := {[ "tax_rates" := zero_stats; "products" := zero_stats;
                 "prices" := zero_stats; "coupons" := zero_stats ]} |}.

Definition add_mapping (resource_type prod_id test_id : string)
    (m : IDMapper) : result IDMapper :=
  match mappings m !! resource_type with
  | None => Raise (ValueError ("Unknown resource type: " +:+ resource_type))
  | Some tbl =>
      Ok {| mappings := <[resource_type := <[prod_id := test_id]> tbl]> (mappings m);
            stats := stats m |}
  end.

(** [get_test_id].  The key is whatever the caller read from an entity: a
    string is looked up, another hashable value is no key of the table,
    and an unhashable one makes [dict.get] raise. *)
Definition get_test_id (resource_type : string) (prod_id : value)
    (m : IDMapper) : result (option string) :=
  match prod_id with
  | VStr s => Ok (default ∅ (mappings m !! resource_type) !! s)
  | VList _ | VDict _ | VObj _ => Raise (TypeError "unhashable type")
  | _ => Ok None
  end.

(** An optional string seen as a condition: [None] and [""] are false. *)
Definition nonempty (o : option string) : option string :=
  match o with
  | Some (String _ _ as t) => Some t
  | _ => None
  end.

Definition increment_stat (resource_type stat_type : string)
    (m : IDMapper) : IDMapper :=
  match stats m !! resource_type with
  | Some st =>
      match st !! stat_type with
      | Some n =>
          {| mappings := mappings m;
             stats := <[resource_type := <[stat_type := n + 1]> st]> (stats m) |}
      | None => m
      end
  | None => m
  end.


(** ** The hooks of a copier *)

(** A hook that may log warnings before it returns or raises. *)
Definition logged (A : Type) : Type := list string * result A.

#[global] Instance logged_ret : MRet logged := fun A a => ([], Ok a).
#[global] Instance logged_bind : MBind logged := fun A B f c =>
  match c with
  | (l, Ok a) => let (l', r) := f a in ((l ++ l')%list, r)
  | (l, Raise e) => (l, Raise e)
  end.

(** [self.logger.warning(msg)] inside a hook. *)
Definition warn (msg : string) : logged unit := ([msg], Ok tt).

(** A hook step that logs nothing. *)
Definition quiet {A} (r : result A) : logged A := ([], r).

(** What a subclass of [BaseCopier] provides.  The hooks read the mapper
    ([self.mapper]) and the entities they are given; of the shared state
    they write at most the warning channel. *)
Record Copier : Type := mkCopier {
  resource_name : string;
  can_update : bool;
  get_create_params : IDMapper -> value -> logged dict;
  get_update_params : value -> result dict;
  find_existing : IDMapper -> value -> list value -> result value;
}.

(** Identifiers are strings (the mapper is declared over [str]); an [id]
    of another type is outside what the API returns and is rejected. *)
Definition str_id (v : value) : result string :=
  x ← getattr v "id";
  match x with
  | VStr s => Ok s
  | _ => Raise (TypeError "id is not a str")
  end.

(** [d[k] = v] where [d] is itself a value. *)
Definition setitem (d : value) (k : string) (v : value) : result value :=
  match d with
  | VDict kvs => Ok (VDict (dict_set k v kvs))
  | VObj kvs => Ok (VObj (dict_set k v kvs))
  | _ => Raise (TypeError "object does not support item assignment")
  end.

(** ** Idioms shared by the four copiers *)

(** [if hasattr(e, a) and e.a: params[a] = e.a] *)
Definition copy_truthy (e : value) (a : string) (params : dict) : dict :=
  if has_truthy e a then dict_set a (getattr_or e a VNone) params else params.

(** [if hasattr(e, a): params[a] = e.a] *)
Definition copy_present (e : value) (a : string) (params : dict) : dict :=
  match getattr e a with
  | Ok x => dict_set a x params
  | Raise _ => params
  end.

(** [if hasattr(e, a) and e.a is not None: params[a] = e.a] *)
Definition copy_not_none (e : value) (a : string) (params : dict) : dict :=
  if has_not_none e a then dict_set a (getattr_or e a VNone) params else params.

(** [if hasattr(e, "metadata") and e.metadata:
       params["metadata"] = dict(e.metadata)] *)
Definition copy_metadata (e : value) (params : dict) : result dict :=
  if has_truthy e "metadata" then
    metadata ← py_dict (getattr_or e "metadata" VNone);
    Ok (dict_set "metadata" (VDict metadata) params)
  else Ok params.

(** The same, followed by [params["metadata"]["prod_id"] = e.id]: the
    closing block of every [get_update_params]. *)
Definition tagged_metadata (e : value) (params : dict) : result dict :=
  if has_truthy e "metadata" then
    metadata ← py_dict (getattr_or e "metadata" VNone);
    prod_id ← getattr e "id";
    Ok (dict_set "metadata" (VDict (dict_set "prod_id" prod_id metadata)) params)
  else Ok params.

(** [for x in xs: if p(x): return x], falling through when nothing hits. *)
Fixpoint find_first (p : value -> result bool) (xs : list value)
    : result (option value) :=
  match xs with
  | [] => Ok None
  | x :: rest =>
      hit ← p x;
      if hit : bool then Ok (Some x) else find_first p rest
  end.

(** Strategy 1 of every [find_existing]:
    [metadata = getattr(test_entity, "metadata", {})] then
    [metadata and metadata.get("prod_id") == prod_entity.id]. *)
Definition tagged_with (prod_entity test_entity : value) : result bool :=
  let metadata := getattr_or test_entity "metadata" (VDict []) in
  if truthy metadata then
    tag ← method_get metadata "prod_id";
    prod_id ← getattr prod_entity "id";
    Ok (py_eq tag prod_id)
  else Ok false.

(** The guard of the name strategies: the candidate carries no [prod_id],
    or carries this very one. *)
Definition not_claimed_by_other (prod_entity test_entity : value) : result bool :=
  let metadata := getattr_or test_entity "metadata" (VDict []) in
  existing_prod_id ←
    (if truthy metadata then method_get metadata "prod_id" else Ok VNone);
  if negb (truthy existing_prod_id) then Ok true
  else
    prod_id ← getattr prod_entity "id";
    Ok (py_eq existing_prod_id prod_id).

(** Strategies tried in order; the first hit is returned, [None] if none. *)
Fixpoint first_strategy (strategies : list (result (option value)))
    : result value :=
  match strategies with
  | [] => Ok VNone
  | s :: rest =>
      found ← s;
      match found with
      | Some test_entity => Ok test_entity
      | None => first_strategy rest
      end
  end.

(** ** [src/copiers/tax_rates.py] *)

Module TaxRate.

Definition get_create_params (m : IDMapper) (prod_entity : value) : logged dict :=
  quiet (
    display_name ← getattr prod_entity "display_name";
    inclusive ← getattr prod_entity "inclusive";
    percentage ← getattr prod_entity "percentage";
    let params := [("display_name", display_name); ("inclusive", inclusive);
                   ("percentage", percentage)] in
    let params := copy_truthy prod_entity "description" params in
    let params := copy_truthy prod_entity "jurisdiction" params in
    let params := copy_truthy prod_entity "country" params in
    let params := copy_truthy prod_entity "state" params in
    copy_metadata prod_entity params).

Definition get_update_params (prod_entity : value) : result dict :=
  let params := copy_present prod_entity "description" [] in
  let params := copy_present prod_entity "display_name" params in
  tagged_metadata prod_entity params.

(** [a - b] on numbers. *)
Definition py_sub (a b : value) : result Z :=
  match num_of a, num_of b with
  | Some x, Some y => Ok (x - y)
  | _, _ => Raise (TypeError "unsupported operand type(s) for -")
  end.

(** Strategy 2: the three comparisons are all evaluated, then combined. *)
Definition same_characteristics (prod_entity test_entity : value) : result bool :=
  test_name ← getattr test_entity "display_name";
  prod_name ← getattr prod_entity "display_name";
  let same_name := py_eq test_name prod_name in
  test_percentage ← getattr test_entity "percentage";
  prod_percentage ← getattr prod_entity "percentage";
  difference ← py_sub test_percentage prod_percentage;
  let same_percentage := Z.abs difference <? 100 in
  let prod_jurisdiction := getattr_or prod_entity "jurisdiction" VNone in
  let test_jurisdiction := getattr_or test_entity "jurisdiction" VNone in
  let same_jurisdiction := py_eq prod_jurisdiction test_jurisdiction in
  Ok (same_name && same_percentage && same_jurisdiction).

Definition find_existing (m : IDMapper) (prod_entity : value)
    (test_entities : list value) : result value :=
  first_strategy
    [ find_first (tagged_with prod_entity) test_entities;
      find_first (same_characteristics prod_entity) test_entities ].

End TaxRate.

Definition TaxRateCopier : Copier :=
  {| resource_name := "tax_rates";
     can_update := true;
     get_create_params := TaxRate.get_create_params;
     get_update_params := TaxRate.get_update_params;
     find_existing := TaxRate.find_existing |}.

(** ** [src/copiers/products.py] *)

Module Product.

(** [[{"name": f.name} for f in prod_entity.features]] *)
Definition feature_names (features : value) : result value :=
  fs ← py_iter features;
  items ← mapM (fun f => name ← getattr f "name"; Ok (VDict [("name", name)])) fs;
  Ok (VList items).

(** [params["images"] = list(prod_entity.images)] when there are images. *)
Definition copy_images (prod_entity : value) (params : dict) : result dict :=
  if has_truthy prod_entity "images" then
    images ← py_iter (getattr_or prod_entity "images" VNone);
    Ok (dict_set "images" (VList images) params)
  else Ok params.

Definition copy_features (prod_entity : value) (params : dict) : result dict :=
  if has_truthy prod_entity "features" then
    features ← feature_names (getattr_or prod_entity "features" VNone);
    Ok (dict_set "features" features params)
  else Ok params.

(** [tax_code] is a string or an object exposing an [id]. *)
Definition copy_tax_code (prod_entity : value) (params : dict) : dict :=
  if has_truthy prod_entity "tax_code" then
    let tax_code := getattr_or prod_entity "tax_code" VNone in
    match tax_code with
    | VStr _ => dict_set "tax_code" tax_code params
    | _ =>
        if hasattr tax_code "id"
        then dict_set "tax_code" (getattr_or tax_code "id" VNone) params
        else params
    end
  else params.

Definition get_create_params (m : IDMapper) (prod_entity : value) : logged dict :=
  quiet (
    name ← getattr prod_entity "name";
    let params := [("name", name)] in
    let params := copy_truthy prod_entity "description" params in
    let params := copy_present prod_entity "active" params in
    params ← copy_images prod_entity params;
    let params := copy_truthy prod_entity "statement_descriptor" params in
    let params := copy_truthy prod_entity "unit_label" params in
    let params := copy_truthy prod_entity "url" params in
    let params := copy_present prod_entity "shippable" params in
    params ← copy_features prod_entity params;
    let params := copy_tax_code prod_entity params in
    copy_metadata prod_entity params).

Definition get_update_params (prod_entity : value) : result dict :=
  let params := copy_present prod_entity "name" [] in
  let params := copy_present prod_entity "description" params in
  let params := copy_present prod_entity "active" params in
  params ← copy_images prod_entity params;
  let params := copy_present prod_entity "statement_descriptor" params in
  let params := copy_present prod_entity "unit_label" params in
  let params := copy_present prod_entity "url" params in
  let params := copy_present prod_entity "shippable" params in
  params ← copy_features prod_entity params;
  tagged_metadata prod_entity params.

(** Strategy 2: exact name, unless the candidate belongs to another id. *)
Definition same_name (prod_entity test_entity : value) : result bool :=
  test_name ← getattr test_entity "name";
  prod_name ← getattr prod_entity "name";
  if py_eq test_name prod_name
  then not_claimed_by_other prod_entity test_entity
  else Ok false.

Definition find_existing (m : IDMapper) (prod_entity : value)
    (test_entities : list value) : result value :=
  first_strategy
    [ find_first (tagged_with prod_entity) test_entities;
      find_first (same_name prod_entity) test_entities ].

End Product.

Definition ProductCopier : Copier :=
  {| resource_name := "products";
     can_update := true;
     get_create_params := Product.get_create_params;
     get_update_params := Product.get_update_params;
     find_existing := Product.find_existing |}.

(** ** [src/copiers/prices.py] *)

Module Price.

(** [prod_entity.product], replaced by its [id] when it is an expanded
    object. *)
Definition product_ref (entity : value) : result value :=
  product ← getattr entity "product";
  if hasattr product "id" then getattr product "id" else Ok product.

(** The [recurring] block of the creation parameters. *)
Definition recurring_params (recurring : value) : result dict :=
  interval ← getattr recurring "interval";
  let block := [("interval", interval)] in
  let block := copy_present recurring "interval_count" block in
  let block := copy_present recurring "usage_type" block in
  let block := copy_present recurring "trial_period_days" block in
  Ok block.

Definition copy_recurring (prod_entity : value) (params : dict) : result dict :=
  if has_truthy prod_entity "recurring" then
    block ← recurring_params (getattr_or prod_entity "recurring" VNone);
    Ok (dict_set "recurring" (VDict block) params)
  else Ok params.

Definition tier_dict (tier : value) : value :=
  let up_to :=
    if has_truthy tier "up_to" then getattr_or tier "up_to" VNone
    else VStr "inf" in
  let d := [("up_to", up_to)] in
  let d := copy_not_none tier "unit_amount" d in
  let d := copy_not_none tier "flat_amount" d in
  VDict d.

Definition copy_tiers (prod_entity : value) (params : dict) : result dict :=
  if has_truthy prod_entity "tiers" then
    tiers ← py_iter (getattr_or prod_entity "tiers" VNone);
    let params := dict_set "tiers" (VList (map tier_dict tiers)) params in
    Ok (copy_present prod_entity "tiers_mode" params)
  else Ok params.

Definition copy_transform_quantity (prod_entity : value) (params : dict)
    : result dict :=
  if has_truthy prod_entity "transform_quantity" then
    let tq := getattr_or prod_entity "transform_quantity" VNone in
    divide_by ← getattr tq "divide_by";
    round ← getattr tq "round";
    Ok (dict_set "transform_quantity"
          (VDict [("divide_by", divide_by); ("round", round)]) params)
  else Ok params.

(** Exactly one of the two amount parameters, the decimal one first. *)
Definition copy_amount (prod_entity : value) (params : dict) : dict :=
  if has_truthy prod_entity "unit_amount_decimal" then
    dict_set "unit_amount_decimal"
      (getattr_or prod_entity "unit_amount_decimal" VNone) params
  else copy_not_none prod_entity "unit_amount" params.

Definition get_create_params (m : IDMapper) (prod_entity : value) : logged dict :=
  quiet (
    currency ← getattr prod_entity "currency";
    let params := [("currency", currency)] in
    (* Associate with test product (via mapper) *)
    prod_product_id ← product_ref prod_entity;
    test_product_id ← get_test_id "products" prod_product_id m;
    match nonempty test_product_id with
    | None =>
        Raise (ValueError ("Cannot find test product for "
                           +:+ py_str prod_product_id +:+ ". "
                           +:+ "Make sure to copy products before prices."))
    | Some test_product_id =>
        let params := dict_set "product" (VStr test_product_id) params in
        let params := copy_amount prod_entity params in
        params ← copy_recurring prod_entity params;
        let params := copy_present prod_entity "billing_scheme" params in
        params ← copy_tiers prod_entity params;
        params ← copy_transform_quantity prod_entity params;
        let params := copy_present prod_entity "active" params in
        let params := copy_truthy prod_entity "nickname" params in
        let params := copy_truthy prod_entity "lookup_key" params in
        let params := copy_present prod_entity "tax_behavior" params in
        copy_metadata prod_entity params
    end).

Definition get_update_params (prod_entity : value) : result dict :=
  let params := copy_present prod_entity "active" [] in
  let params := copy_present prod_entity "nickname" params in
  tagged_metadata prod_entity params.

(** Strategy 2, inside [if hasattr(prod_entity, "lookup_key") and ...]. *)
Definition same_lookup_key (prod_entity test_entity : value) : result bool :=
  if hasattr test_entity "lookup_key" then
    test_key ← getattr test_entity "lookup_key";
    prod_key ← getattr prod_entity "lookup_key";
    Ok (py_eq test_key prod_key)
  else Ok false.

(** The recurrence part of strategy 3, entered when both sides recur:
    [true] when the candidate must be skipped. *)
Definition recurrence_differs (prod_recurring test_recurring : value)
    : result bool :=
  prod_interval ← getattr prod_recurring "interval";
  test_interval ← getattr test_recurring "interval";
  if negb (py_eq prod_interval test_interval) then Ok true
  else if hasattr prod_recurring "interval_count" then
    prod_count ← getattr prod_recurring "interval_count";
    test_count ← getattr test_recurring "interval_count";
    Ok (negb (py_eq prod_count test_count))
  else Ok false.

(** One turn of the loop of strategy 3: [false] stands for [continue],
    [true] for [return test_entity]. *)
Definition same_characteristics (prod_entity : value) (test_product_id : string)
    (test_entity : value) : result bool :=
  (* Same product *)
  test_prod ← product_ref test_entity;
  if negb (py_eq test_prod (VStr test_product_id)) then Ok false else
  (* Same currency and amount *)
  test_currency ← getattr test_entity "currency";
  prod_currency ← getattr prod_entity "currency";
  if negb (py_eq test_currency prod_currency) then Ok false else
  amount_differs ←
    (if has_not_none prod_entity "unit_amount" then
       test_amount ← getattr test_entity "unit_amount";
       prod_amount ← getattr prod_entity "unit_amount";
       Ok (negb (py_eq test_amount prod_amount))
     else Ok false);
  if amount_differs : bool then Ok false else
  (* Same recurrence *)
  let prod_recurring := getattr_or prod_entity "recurring" VNone in
  let test_recurring := getattr_or test_entity "recurring" VNone in
  if negb (eqb (truthy prod_recurring) (truthy test_recurring)) then Ok false else
  differs ←
    (if truthy prod_recurring && truthy test_recurring
     then recurrence_differs prod_recurring test_recurring
     else Ok false);
  Ok (negb differs).

(** Strategy 3 as a whole: no product mapping, no candidate. *)
Definition by_characteristics (m : IDMapper) (prod_entity : value)
    (test_entities : list value) : result (option value) :=
  prod_product_id ← product_ref prod_entity;
  test_product_id ← get_test_id "products" prod_product_id m;
  match nonempty test_product_id with
  | None => Ok None
  | Some test_product_id =>
      find_first (same_characteristics prod_entity test_product_id) test_entities
  end.

Definition find_existing (m : IDMapper) (prod_entity : value)
    (test_entities : list value) : result value :=
  first_strategy
    [ find_first (tagged_with prod_entity) test_entities;
      (if has_truthy prod_entity "lookup_key"
       then find_first (same_lookup_key prod_entity) test_entities
       else Ok None);
      by_characteristics m prod_entity test_entities ].

End Price.

Definition PriceCopier : Copier :=
  {| resource_name := "prices";
     can_update := false;
     get_create_params := Price.get_create_params;
     get_update_params := Price.get_update_params;
     find_existing := Price.find_existing |}.

(** ** [src/copiers/coupons.py] *)

Module Coupon.

(** [f"test_{prod_entity.id}"] *)
Definition test_prefixed (id : value) : string := "test_" +:+ py_str id.

(** Percentage or fixed amount, the percentage checked first. *)
Definition copy_discount (prod_entity : value) (params : dict) : dict :=
  if has_not_none prod_entity "percent_off" then
    dict_set "percent_off" (getattr_or prod_entity "percent_off" VNone) params
  else if has_not_none prod_entity "amount_off" then
    let params :=
      dict_set "amount_off" (getattr_or prod_entity "amount_off" VNone) params in
    copy_present prod_entity "currency" params
  else params.

(** The loop over [applies_to.products]: a product with a mapping gives
    its test id, any other one a warning. *)
Fixpoint map_product_ids (m : IDMapper) (products : list value)
    : logged (list value) :=
  match products with
  | [] => mret []
  | prod_product_id :: rest =>
      test_id ← quiet (get_test_id "products" prod_product_id m);
      match nonempty test_id with
      | Some test_id =>
          test_product_ids ← map_product_ids m rest;
          mret (VStr test_id :: test_product_ids)
      | None =>
          warn ("Product " +:+ py_str prod_product_id
                +:+ " not found in mapping");;
          map_product_ids m rest
      end
  end.

Definition copy_applies_to (m : IDMapper) (prod_entity : value) (params : dict)
    : logged dict :=
  if has_truthy prod_entity "applies_to" then
    let applies_to := getattr_or prod_entity "applies_to" VNone in
    if has_truthy applies_to "products" then
      products ← quiet (py_iter (getattr_or applies_to "products" VNone));
      test_product_ids ← map_product_ids m products;
      match test_product_ids with
      | [] => mret params
      | _ =>
          mret (dict_set "applies_to"
                  (VDict [("products", VList test_product_ids)]) params)
      end
    else mret params
  else mret params.

Definition get_create_params (m : IDMapper) (prod_entity : value) : logged dict :=
  let params : dict :=
    if has_truthy prod_entity "id"
    then [("id", VStr (test_prefixed (getattr_or prod_entity "id" VNone)))]
    else [] in
  let params := copy_discount prod_entity params in
  let params := copy_present prod_entity "duration" params in
  let params := copy_truthy prod_entity "duration_in_months" params in
  let params := copy_truthy prod_entity "name" params in
  let params := copy_truthy prod_entity "max_redemptions" params in
  let params := copy_truthy prod_entity "redeem_by" params in
  params ← copy_applies_to m prod_entity params;
  quiet (copy_metadata prod_entity params).

Definition get_update_params (prod_entity : value) : result dict :=
  let params := copy_present prod_entity "name" [] in
  tagged_metadata prod_entity params.

(** Strategy 2: the candidate's id is the prefixed production id. *)
Definition has_expected_id (expected_test_id : string) (test_entity : value)
    : result bool :=
  test_id ← getattr test_entity "id";
  Ok (py_eq test_id (VStr expected_test_id)).

(** Strategy 3, inside [if hasattr(prod_entity, "name") and ...]. *)
Definition same_name (prod_entity test_entity : value) : result bool :=
  if hasattr test_entity "name" then
    test_name ← getattr test_entity "name";
    prod_name ← getattr prod_entity "name";
    if py_eq test_name prod_name
    then not_claimed_by_other prod_entity test_entity
    else Ok false
  else Ok false.

Definition find_existing (m : IDMapper) (prod_entity : value)
    (test_entities : list value) : result value :=
  first_strategy
    [ find_first (tagged_with prod_entity) test_entities;
      (prod_id ← getattr prod_entity "id";
       find_first (has_expected_id (test_prefixed prod_id)) test_entities);
      (if has_truthy prod_entity "name"
       then find_first (same_name prod_entity) test_entities
       else Ok None) ].

End Coupon.

Definition CouponCopier : Copier :=
  {| resource_name := "coupons";
     can_update := true;
     get_create_params := Coupon.get_create_params;
     get_update_params := Coupon.get_update_params;
     find_existing := Coupon.find_existing |}.

(** [copiers_map] of [main], in the order the dictionary is written. *)
Definition copiers_map : list (string * Copier) :=
  [ ("tax_rates", TaxRateCopier); ("products", ProductCopier);
    ("prices", PriceCopier); ("coupons", CouponCopier) ].

(** ** The [stripe] package and the state of a run *)

Inductive Environment : Type := PRODUCTION | TEST.

#[global] Instance Environment_eq_dec : EqDecision Environment.
Proof. solve_decision. Defined.

(** The remote service behind the [stripe] package is not part of the
    repository.  It is kept abstract: a state of the two accounts and, per
    resource name, the three calls the wrapper makes, each selecting the
    account by API key.  [inl msg] is a raised [stripe.error.StripeError].
    [stripe_list] returns the whole listing: the page loop of [list_all]
    ([limit], [starting_after], [has_more]) is folded into it, so that a
    listing is taken to return.  The loop itself is [list_pages] below. *)
Class StripeAPI : Type := {
  remote : Type;
  stripe_list : string -> string -> dict -> remote -> remote * (string + list value);
  stripe_create : string -> string -> dict -> remote -> remote * (string + value);
  stripe_modify :
    string -> value -> string -> dict -> remote -> remote * (string + value);
}.

(** What reached the remote service, in order. *)
Inductive api_call : Type :=
| ApiList (resource api_key : string) (params : dict)
| ApiCreate (resource api_key : string) (params : dict)
| ApiModify (resource : string) (resource_id : value) (api_key : string)
    (params : dict).

Section Run.
Context `{api : StripeAPI}.

(** The objects every copier shares: the mapper, the remote accounts, the
    trace of API calls, and the logger's warning lines (the other log
    levels only print). *)
Record World : Type := mkWorld {
  mapper : IDMapper;
  account : remote;
  calls : list api_call;
  warnings : list string;
}.

(** A computation may change the shared state and may raise; what it
    changed before raising stays changed. *)
Definition M (A : Type) : Type := World -> World * result A.

#[global] Instance M_ret : MRet M := fun A a w => (w, Ok a).
#[global] Instance M_bind : MBind M := fun A B f c w =>
  match c w with
  | (w', Ok a) => f a w'
  | (w', Raise e) => (w', Raise e)
  end.

Definition raise {A} (e : exn) : M A := fun w => (w, Raise e).

Definition lift {A} (r : result A) : M A := fun w => (w, r).

(** [try: c except Exception as e: h e] *)
Definition try_except {A} (c : M A) (h : exn -> M A) : M A := fun w =>
  match c w with
  | (w', Ok a) => (w', Ok a)
  | (w', Raise e) => h e w'
  end.

Definition get_mapper : M IDMapper := fun w => (w, Ok (mapper w)).

Definition set_mapper (m : IDMapper) : M unit := fun w =>
  (mkWorld m (account w) (calls w) (warnings w), Ok tt).

Definition log_warning (msg : string) : M unit := fun w =>
  (mkWorld (mapper w) (account w) (calls w) (warnings w ++ [msg]), Ok tt).

(** One request to the remote service, entered in the trace. *)
Definition request {A} (c : api_call)
    (f : remote -> remote * (string + A)) : M (string + A) := fun w =>
  let (r, out) := f (account w) in
  (mkWorld (mapper w) r (calls w ++ [c]) (warnings w), Ok out).

(** ** [src/stripe_client.py]: the guarded wrapper *)

Record StripeClient : Type := mkStripeClient {
  prod_key : string;
  test_key : string;
  dry_run : bool;
}.

Definition _get_client (self : StripeClient) (env : Environment) : string :=
  if decide (env = PRODUCTION) then prod_key self else test_key self.

(** The keys of every [resource_map]. *)
Definition resource_map : list string :=
  ["products"; "prices"; "coupons"; "tax_rates"].

Definition list_all (self : StripeClient) (resource : string)
    (env : Environment) (params : dict) : M (list value) :=
  let api_key := _get_client self env in
  if bool_decide (resource ∈ resource_map) then
    let list_params := dict_update params [("limit", VInt 100)] in
    r ← request (ApiList resource api_key list_params)
          (stripe_list resource api_key list_params);
    match r with
    | inr all_items => mret all_items
    | inl e =>
        raise (StripeClientError ("Error listing " +:+ resource +:+ ": " +:+ e))
    end
  else raise (StripeClientError ("Unknown resource: " +:+ resource)).

Definition create (self : StripeClient) (resource : string)
    (env : Environment) (params : dict) : M value :=
  if decide (env = PRODUCTION) then
    raise (StripeClientError
             ("FORBIDDEN: Attempt to write in PRODUCTION. "
              +:+ "Only read access is allowed in production."))
  else if dry_run self then
    mret (VDict (dict_update
                   [("id", VStr ("dry_run_" +:+ resource +:+ "_id"))] params))
  else
    let api_key := _get_client self env in
    if bool_decide (resource ∈ resource_map) then
      r ← request (ApiCreate resource api_key params)
            (stripe_create resource api_key params);
      match r with
      | inr result => mret result
      | inl e =>
          raise (StripeClientError
                   ("Error creating " +:+ resource +:+ ": " +:+ e))
      end
    else raise (StripeClientError ("Unknown resource: " +:+ resource)).

Definition update (self : StripeClient) (resource : string)
    (resource_id : value) (env : Environment) (params : dict) : M value :=
  if decide (env = PRODUCTION) then
    raise (StripeClientError "FORBIDDEN: Attempt to modify in PRODUCTION")
  else if dry_run self then
    mret (VDict (dict_update [("id", resource_id)] params))
  else
    let api_key := _get_client self env in
    if bool_decide (resource ∈ resource_map) then
      r ← request (ApiModify resource resource_id api_key params)
            (stripe_modify resource resource_id api_key params);
      match r with
      | inr result => mret result
      | inl e =>
          raise (StripeClientError
                   ("Error updating " +:+ resource +:+ ": " +:+ e))
      end
    else raise (StripeClientError ("Unknown resource: " +:+ resource)).

(** ** [src/copiers/base.py]: the template method *)

Definition run_logged {A} (c : logged A) : M A := fun w =>
  (mkWorld (mapper w) (account w) (calls w) (warnings w ++ c.1), c.2).

Variable client : StripeClient.

Definition list_from_prod (self : Copier) (filters : dict) : M (list value) :=
  list_all client (resource_name self) PRODUCTION filters.

Definition list_from_test (self : Copier) (filters : dict) : M (list value) :=
  list_all client (resource_name self) TEST filters.

(** [self.mapper.add_mapping(...)] and [self.mapper.increment_stat(...)] on
    the shared mapper. *)
Definition mapper_add_mapping (resource_type : string)
    (prod_entity test_entity : value) : M unit :=
  prod_id ← lift (str_id prod_entity);
  test_id ← lift (str_id test_entity);
  m ← get_mapper;
  m' ← lift (add_mapping resource_type prod_id test_id m);
  set_mapper m'.

Definition mapper_increment_stat (resource_type stat_type : string) : M unit :=
  m ← get_mapper;
  set_mapper (increment_stat resource_type stat_type m).

Definition create_in_test (self : Copier) (prod_entity : value) : M value :=
  m ← get_mapper;
  params ← run_logged (get_create_params self m prod_entity);
  (* Add metadata to trace origin *)
  let params :=
    match dict_get "metadata" params with
    | Some _ => params
    | None => dict_set "metadata" (VDict []) params
    end in
  prod_id ← lift (getattr prod_entity "id");
  metadata ← lift (setitem (default VNone (dict_get "metadata" params))
                     "prod_id" prod_id);
  let params := dict_set "metadata" metadata params in
  test_entity ← create client (resource_name self) TEST params;
  (* Record mapping *)
  mapper_add_mapping (resource_name self) prod_entity test_entity;;
  mapper_increment_stat (resource_name self) "created";;
  mret test_entity.

Definition update_in_test (self : Copier) (test_entity prod_entity : value)
    : M value :=
  if negb (can_update self) then
    log_warning (resource_name self +:+ " cannot be updated. "
                 +:+ "Consider archiving and recreating.");;
    mret test_entity
  else
    params ← lift (get_update_params self prod_entity);
    resource_id ← lift (getattr test_entity "id");
    updated ← update client (resource_name self) resource_id TEST params;
    (* Update mapping *)
    mapper_add_mapping (resource_name self) prod_entity test_entity;;
    mapper_increment_stat (resource_name self) "updated";;
    mret updated.

(** The two [logger.debug] lines format [prod_entity.id] and [existing.id]
    before anything is written, so these reads come first. *)
Definition copy_one (self : Copier) (prod_entity : value)
    (test_entities : list value) : M (value * string) :=
  m ← get_mapper;
  existing ← lift (find_existing self m prod_entity test_entities);
  if truthy existing then
    _ ← lift (getattr prod_entity "id");
    _ ← lift (getattr existing "id");
    result ← update_in_test self existing prod_entity;
    mret (result, "updated")
  else
    _ ← lift (getattr prod_entity "id");
    result ← create_in_test self prod_entity;
    mret (result, "created").

(** The body of the [for] loop of [copy]: the handler formats
    [prod_entity.id] for its error line, then counts the error. *)
Definition copy_step (self : Copier) (test_entities : list value)
    (prod_entity : value) : M unit :=
  try_except
    (copy_one self prod_entity test_entities;; mret tt)
    (fun e =>
       _ ← lift (getattr prod_entity "id");
       mapper_increment_stat (resource_name self) "errors").

Fixpoint copy_loop (self : Copier) (prod_entities test_entities : list value)
    : M unit :=
  match prod_entities with
  | [] => mret tt
  | prod_entity :: rest =>
      copy_step self test_entities prod_entity;;
      copy_loop self rest test_entities
  end.

(** [d[k]] on a counter record. *)
Definition stat_item (st : gmap string Z) (k : string) : M Z :=
  match st !! k with
  | Some n => mret n
  | None => raise (KeyError k)
  end.

(** [copy].  The outer [except Exception] logs and re-raises, so it is the
    identity on results. *)
Definition copy (self : Copier) (filters : dict) : M (gmap string Z) :=
  prod_entities ← list_from_prod self filters;
  test_entities ← list_from_test self [];
  match prod_entities with
  | [] => mret zero_stats
  | _ =>
      copy_loop self prod_entities test_entities;;
      m ← get_mapper;
      match stats m !! resource_name self with
      | None => raise (KeyError (resource_name self))
      | Some stats =>
          stat_item stats "created";;
          stat_item stats "updated";;
          stat_item stats "errors";;
          mret stats
      end
  end.

End Run.

(** ** [main.py]: choosing and running the copiers *)

(** [s.split(",")] and [s.strip()].  A string is the UTF-8 encoding of the
    Python [str]: the comma, an ASCII character, is found at the same
    places in both, and the whitespace that [strip] removes is recognised
    by the bytes of its encoding. *)
Fixpoint split_on (sep : Ascii.ascii) (s : string) : list string :=
  match s with
  | "" => [""]
  | String c rest =>
      if Ascii.eqb c sep then "" :: split_on sep rest
      else
        match split_on sep rest with
        | piece :: pieces => String c piece :: pieces
        | [] => [String c ""]
        end
  end.

(** The ASCII characters for which [str.isspace] holds. *)
Definition is_space (c : Ascii.ascii) : bool :=
  let n := Ascii.nat_of_ascii c in
  ((9 <=? n) && (n <=? 13) || (28 <=? n) && (n <=? 32))%nat.

(** The other characters for which [str.isspace] holds, by the bytes of
    their encoding: U+0085 and U+00A0 (two bytes); U+1680, U+2000 to
    U+200A, U+2028, U+2029, U+202F, U+205F and U+3000 (three bytes). *)
Definition is_space2 (a b : Ascii.ascii) : bool :=
  let a := Ascii.nat_of_ascii a in
  let b := Ascii.nat_of_ascii b in
  ((a =? 194) && ((b =? 133) || (b =? 160)))%nat.

Definition is_space3 (a b c : Ascii.ascii) : bool :=
  let a := Ascii.nat_of_ascii a in
  let b := Ascii.nat_of_ascii b in
  let c := Ascii.nat_of_ascii c in
  ((a =? 225) && (b =? 154) && (c =? 128)
   || (a =? 226) && (b =? 128)
      && ((128 <=? c) && (c <=? 138) || (c =? 168) || (c =? 169) || (c =? 175))
   || (a =? 226) && (b =? 129) && (c =? 159)
   || (a =? 227) && (b =? 128) && (c =? 128))%nat.

Fixpoint lstrip (s : string) : string :=
  match s with
  | "" => ""
  | String a rest =>
      if is_space a then lstrip rest
      else
        match rest with
        | "" => s
        | String b rest2 =>
            if is_space2 a b then lstrip rest2
            else
              match rest2 with
              | "" => s
              | String c rest3 =>
                  if is_space3 a b c then lstrip rest3 else s
              end
        end
  end.

(** Nothing is kept of a string made of whitespace only; otherwise the
    first byte stays and the rest is stripped on the right. *)
Fixpoint rstrip (s : string) : string :=
  match s with
  | "" => ""
  | String c rest =>
      match lstrip s with
      | "" => ""
      | _ => String c (rstrip rest)
      end
  end.

Definition strip (s : string) : string := rstrip (lstrip s).

(** [copiers_map[name]] / [name in copiers_map] *)
Fixpoint copier_named (name : string) (table : list (string * Copier))
    : option Copier :=
  match table with
  | [] => None
  | (k, c) :: rest => if String.eqb name k then Some c else copier_named name rest
  end.

(** The loop that fills [entities_to_copy]: requested names are kept in the
    order they were given, unknown ones are dropped with a warning. *)
Fixpoint select_entities (requested_entities : list string)
    : logged (list string) :=
  match requested_entities with
  | [] => mret []
  | entity :: rest =>
      match copier_named entity copiers_map with
      | Some _ =>
          entities_to_copy ← select_entities rest;
          mret (entity :: entities_to_copy)
      | None =>
          warn ("Unknown entity ignored: " +:+ entity);;
          select_entities rest
      end
  end.

Definition entities_to_copy (entities : string) : logged (list string) :=
  select_entities (map strip (split_on ","%char entities)).

(** [get_summary]: every counter of every resource type is added to the
    total of its name. *)
Definition add_stats (resource_stats summary : gmap string Z)
    : result (gmap string Z) :=
  map_fold
    (fun key n acc =>
       summary ← acc;
       match summary !! key with
       | Some total => Ok (<[key := total + n]> summary)
       | None => Raise (KeyError key)
       end)
    (Ok summary) resource_stats.

Definition get_summary (m : IDMapper) : result (gmap string Z) :=
  map_fold (fun _ resource_stats acc => summary ← acc;
                                        add_stats resource_stats summary)
           (Ok zero_stats) (stats m).

(** The command line, as far as the run depends on it. *)
Record Args : Type := mkArgs {
  args_dry_run : bool;
  args_entities : string;
  args_yes : bool;
}.

Section Main.
Context `{api : StripeAPI}.

(** [for entity_name in entities_to_copy: ... copier.copy()] with its
    handler, which only logs. *)
Fixpoint copy_entities (client : StripeClient) (names : list string) : M unit :=
  match names with
  | [] => mret tt
  | entity_name :: rest =>
      match copier_named entity_name copiers_map with
      | None => raise (KeyError entity_name)
      | Some copier =>
          try_except (copy client copier [];; mret tt) (fun e => mret tt);;
          copy_entities client rest
      end
  end.

(** [main] once the configuration is loaded: [prod] and [test] are the two
    keys, [confirmed] the answer to the confirmation prompt.  The mapper is
    new in every run; writing the mapping file is left out.  The result is
    the exit code. *)
Definition main_body (client : StripeClient) (args : Args) (confirmed : bool)
    : M Z :=
  names ← run_logged (entities_to_copy (args_entities args));
  match names with
  | [] => mret 1
  | _ =>
      if negb (args_dry_run args) && negb (args_yes args) && negb confirmed
      then mret 0
      else
        copy_entities client names;;
        m ← get_mapper;
        summary ← lift (get_summary m);
        errors ← stat_item summary "errors";
        if 0 <? errors
        then log_warning "Some entities could not be copied";; mret 1
        else mret 0
  end.

(** The outer [except Exception] of [main] turns any failure into exit
    code 1. *)
Definition main (prod test : string) (args : Args) (confirmed : bool)
    (r : remote) : World * Z :=
  let client := mkStripeClient prod test (args_dry_run args) in
  match main_body client args confirmed (mkWorld IDMapper_init r [] []) with
  | (w, Ok code) => (w, code)
  | (w, Raise _) => (w, 1)
  end.

End Main.

(** ** An in-memory pair of accounts

    A small instance of the remote service, on which scenarios can be run:
    each account holds, per resource name, the list of its records in the
    order they were created.  Creating stores the parameters as an object
    under the given [id] or a fresh one; modifying overwrites the given
    attributes, metadata being merged key by key. *)

Module Mem.

Record accounts : Type := mkAccounts {
  live : gmap string (list value);
  sandbox : gmap string (list value);
  serial : nat;
}.

Definition live_key : string := "sk_live".
Definition sandbox_key : string := "sk_test".

(** What the API hands back is made of objects, not of plain dicts. *)
Fixpoint as_object (v : value) : value :=
  match v with
  | VList xs => VList (map as_object xs)
  | VDict kvs | VObj kvs =>
      VObj (map (fun kv => let '(k, x) := kv in (k, as_object x)) kvs)
  | _ => v
  end.

Definition records (api_key resource : string) (st : accounts) : list value :=
  default [] ((if String.eqb api_key live_key then live st else sandbox st)
                !! resource).

Definition store (api_key resource : string) (rs : list value) (st : accounts)
    : accounts :=
  if String.eqb api_key live_key
  then mkAccounts (<[resource := rs]> (live st)) (sandbox st) (serial st)
  else mkAccounts (live st) (<[resource := rs]> (sandbox st)) (serial st).

Definition list_records (resource api_key : string) (params : dict)
    (st : accounts) : accounts * (string + list value) :=
  (st, inr (records api_key resource st)).

Definition create_record (resource api_key : string) (params : dict)
    (st : accounts) : accounts * (string + value) :=
  let id :=
    match dict_get "id" params with
    | Some id => id
    | None => VStr (resource +:+ "_" +:+ pretty (serial st))
    end in
  let record := as_object (VObj (dict_update [("id", id)] params)) in
  let st' := store api_key resource (records api_key resource st ++ [record]) st in
  (mkAccounts (live st') (sandbox st') (S (serial st)), inr record).

(** One attribute written on a record. *)
Definition write_attr (record : dict) (kv : string * value) : dict :=
  let '(k, v) := kv in
  match dict_get k record, as_object v with
  | Some (VObj old), VObj new =>
      if String.eqb k "metadata" then dict_set k (VObj (dict_update old new)) record
      else dict_set k (VObj new) record
  | _, v' => dict_set k v' record
  end.

Fixpoint modify_in (rs : list value) (resource_id : value) (params : dict)
    : option (list value * value) :=
  match rs with
  | [] => None
  | r :: rest =>
      match r with
      | VObj kvs =>
          if py_eq (default VNone (dict_get "id" kvs)) resource_id then
            let r' := VObj (fold_left write_attr params kvs) in
            Some (r' :: rest, r')
          else
            match modify_in rest resource_id params with
            | Some (rest', r') => Some (r :: rest', r')
            | None => None
            end
      | _ =>
          match modify_in rest resource_id params with
          | Some (rest', r') => Some (r :: rest', r')
          | None => None
          end
      end
  end.

Definition modify_record (resource : string) (resource_id : value)
    (api_key : string) (params : dict) (st : accounts)
    : accounts * (string + value) :=
  match modify_in (records api_key resource st) resource_id params with
  | Some (rs, r) => (store api_key resource rs st, inr r)
  | None => (st, inl ("No such " +:+ resource +:+ ": " +:+ py_str resource_id))
  end.

Definition api : StripeAPI :=
  {| remote := accounts;
     stripe_list := list_records;
     stripe_create := create_record;
     stripe_modify := modify_record |}.

(** Accounts holding [prod] in production and [test] in test. *)
Definition holding (prod test : list (string * list value)) : accounts :=
  mkAccounts (list_to_map prod) (list_to_map test) 0.

Definition client (dry : bool) : StripeClient :=
  mkStripeClient live_key sandbox_key dry.

End Mem.

(** * Specification vocabulary *)

(** The three counters of a resource type, when its record is complete. *)
Definition counters (m : IDMapper) (resource_type : string) : option (Z * Z * Z) :=
  st ← stats m !! resource_type;
  created ← st !! "created";
  updated ← st !! "updated";
  errors ← st !! "errors";
  Some (created, updated, errors).

(** The four copiers of the program. *)
Definition copiers : list Copier :=
  [TaxRateCopier; ProductCopier; PriceCopier; CouponCopier].

(** The test id a production product id resolves to: an entry of the
    products table that is not the empty string. *)
Definition resolve (m : IDMapper) (pid : string) : option string :=
  nonempty (default ∅ (mappings m !! "products") !! pid).

(** The warning logged for a product id that does not resolve. *)
Definition unresolved_warning (pid : string) : string :=
  "Product " +:+ pid +:+ " not found in mapping".

(** [e.a] is there and is [None]. *)
Definition attr_is_none (e : value) (a : string) : bool :=
  match getattr e a with
  | Ok VNone => true
  | _ => false
  end.

(** A price on which every attribute that strategy 3 reads is present
    (possibly [None]); its recurring block, when it has one, carries its
    interval and interval count. *)
Definition complete_price (e : value) : bool :=
  let recurring := getattr_or e "recurring" VNone in
  hasattr e "product" && hasattr e "currency" && hasattr e "unit_amount"
  && (if truthy recurring
      then hasattr recurring "interval" && hasattr recurring "interval_count"
      else true).

(** The test price has [None] where strategy 3 compares it with a value of
    the production price. *)
Definition null_where_compared (prod_entity test_entity : value) : bool :=
  let prod_recurring := getattr_or prod_entity "recurring" VNone in
  let test_recurring := getattr_or test_entity "recurring" VNone in
  attr_is_none test_entity "product"
  || attr_is_none test_entity "currency" && has_not_none prod_entity "currency"
  || attr_is_none test_entity "unit_amount"
     && has_not_none prod_entity "unit_amount"
  || negb (truthy test_recurring) && truthy prod_recurring
  || truthy test_recurring && truthy prod_recurring
     && (attr_is_none test_recurring "interval"
         && has_not_none prod_recurring "interval"
         || attr_is_none test_recurring "interval_count"
            && has_not_none prod_recurring "interval_count").

(** A record tagged with production id [id] in its metadata: what strategy 1
    of every [find_existing] looks for. *)
Definition tagged (id : string) (test_entity : value) : bool :=
  match getattr_or test_entity "metadata" (VDict []) with
  | (VDict kvs | VObj kvs) as metadata =>
      truthy metadata && py_eq (default VNone (dict_get "prod_id" kvs)) (VStr id)
  | _ => false
  end.

(** A record whose metadata, when it has any, is a mapping. *)
Definition metadata_is_mapping (entity : value) : bool :=
  match getattr_or entity "metadata" (VDict []) with
  | VDict _ | VObj _ => true
  | other => negb (truthy other)
  end.

(** What one record does to the counters, by the outcome of the search:
    a match is counted as updated when the kind can be updated and not at
    all otherwise, no match is counted as created. *)
Definition counted (self : Copier) (existing : value) (m : IDMapper) : IDMapper :=
  if truthy existing then
    if can_update self
    then increment_stat (resource_name self) "updated" m
    else m
  else increment_stat (resource_name self) "created" m.

Section Effects.
Context `{api : StripeAPI}.

(** [c], run from [w], ends in a state and a result satisfying [Q]. *)
Definition wp {A} (c : M A) (Q : World -> result A -> Prop) (w : World) : Prop :=
  Q (c w).1 (c w).2.

(** [c] only moves the state along [R]. *)
Definition keeps {A} (R : relation World) (c : M A) : Prop :=
  forall w, R w (c w).1.

Definition same_mapper : relation World := fun w w' => mapper w' = mapper w.

Definition same_stats : relation World := fun w w' =>
  stats (mapper w') = stats (mapper w).

(** The counters of the kind are there and at least what they were. *)
Definition grown (name : string) (c u e : Z) (w : World) : Prop :=
  exists c' u' e',
    counters (mapper w) name = Some (c', u', e') /\ c <= c' /\ u <= u' /\ e <= e'.

End Effects.

(** * Scenarios *)

Module Scenario.

(** A world on the in-memory accounts, with the mapper of a new run. *)
Definition world (r : Mem.accounts) : @World Mem.api :=
  @mkWorld Mem.api IDMapper_init r [] [].

(** One run of the program on the in-memory accounts, confirmed at once. *)
Definition run (entities : string) (dry : bool) (r : Mem.accounts)
    : @World Mem.api * Z :=
  main (api := Mem.api) Mem.live_key Mem.sandbox_key
    (mkArgs dry entities true) true r.

(** The product of the specification's example, alone in production. *)
Definition widget : value :=
  VObj [("id", VStr "prod_A"); ("name", VStr "Widget")].

Definition widget_accounts : Mem.accounts :=
  Mem.holding [("products", [widget])] [].

(** What the test account holds once the widget has been copied. *)
Definition widget_copy : value :=
  VObj [("id", VStr "products_0"); ("name", VStr "Widget");
        ("metadata", VObj [("prod_id", VStr "prod_A")])].

(** The test account once the widget has been created in it. *)
Definition widget_copied : Mem.accounts :=
  (Mem.create_record "products" Mem.sandbox_key
     [("name", VStr "Widget"); ("metadata", VDict [("prod_id", VStr "prod_A")])]
     widget_accounts).1.

(** Two production products of one name, and a test product of that name
    that nothing has tagged yet. *)
Definition gadget_a : value :=
  VObj [("id", VStr "prod_A"); ("name", VStr "Gadget");
        ("metadata", VObj [("tier", VStr "gold")])].

Definition gadget_b : value :=
  VObj [("id", VStr "prod_B"); ("name", VStr "Gadget");
        ("metadata", VObj [("tier", VStr "gold")])].

Definition gadget_t : value :=
  VObj [("id", VStr "prod_T"); ("name", VStr "Gadget")].

Definition gadget_accounts : Mem.accounts :=
  Mem.holding [("products", [gadget_a; gadget_b])] [("products", [gadget_t])].

(** A production price of the widget. *)
Definition price_1 : value :=
  VObj [("id", VStr "price_1"); ("product", VStr "prod_A");
        ("currency", VStr "usd"); ("unit_amount", VInt 1000)].

Definition shop : Mem.accounts :=
  Mem.holding [("products", [widget]); ("prices", [price_1])] [].

(** A test price already tagged with the id of [price_1]. *)
Definition tagged_price : value :=
  VObj [("id", VStr "price_T"); ("product", VStr "prod_T");
        ("currency", VStr "usd"); ("unit_amount", VInt 1000);
        ("metadata", VObj [("prod_id", VStr "price_1")])].

(** A mapper that knows the test product of the widget. *)
Definition mapped : IDMapper :=
  {| mappings := <["products" := {[ "prod_A" := "prod_T" ]}]>
                   (mappings IDMapper_init);
     stats := stats IDMapper_init |}.

(** Two test prices of that product: one with no [currency] attribute, one
    whose [currency] is [None]. *)
Definition price_without_currency : value :=
  VObj [("id", VStr "price_T"); ("product", VStr "prod_T");
        ("unit_amount", VInt 1000)].

Definition price_null_currency : value :=
  VObj [("id", VStr "price_T"); ("product", VStr "prod_T");
        ("currency", VNone); ("unit_amount", VInt 1000)].

(** A coupon restricted to the widget and to a product never copied. *)
Definition restriction : value :=
  VObj [("products", VList [VStr "prod_A"; VStr "prod_X"])].

Definition coupon_1 : value :=
  VObj [("id", VStr "SAVE20"); ("percent_off", VInt 20);
        ("duration", VStr "once"); ("applies_to", restriction)].

(** A mapper whose product counters are not zero. *)
Definition busy : IDMapper :=
  increment_stat "products" "created"
    (increment_stat "products" "errors" IDMapper_init).

End Scenario.

(** * The rest of the program *)

(** ** [src/mapper.py]: the reverse lookup and the shape of the counters *)

(** [get_prod_id]: the reverse lookup, a scan of the table.  Python scans
    in insertion order, which the table does not keep; when several
    production ids map to the test id, which of them comes out is left
    open here as in the documentation of the method. *)
Definition get_prod_id (resource_type test_id : string) (m : IDMapper)
    : option string :=
  fst <$> List.find (fun entry => String.eqb entry.2 test_id)
            (map_to_list (default ∅ (mappings m !! resource_type))).

(** The counter [stat_type] of [resource_type], if there is one. *)
Definition counter (m : IDMapper) (resource_type stat_type : string) : option Z :=
  stats m !! resource_type ≫= (fun st => st !! stat_type).

(** A record of three counters: created, updated, errors. *)
Definition record_of (n : Z * Z * Z) : gmap string Z :=
  {[ "created" := n.1.1; "updated" := n.1.2; "errors" := n.2 ]}.

(** The statistics as [IDMapper.__init__] lays them out: one record for
    each of the four resource types. *)
Definition four_records (tax_rates products prices coupons : Z * Z * Z)
    : gmap string (gmap string Z) :=
  {[ "tax_rates" := record_of tax_rates; "products" := record_of products;
     "prices" := record_of prices; "coupons" := record_of coupons ]}.

Definition shaped (m : IDMapper) : Prop :=
  exists tax_rates products prices coupons,
    stats m = four_records tax_rates products prices coupons.

(** ** [src/config.py] *)

(** The two keys of a validated configuration. *)
Record Config : Type := mkConfig {
  stripe_prod_key : string;
  stripe_test_key : string;
}.

(** [s[:n]] *)
Definition first_chars (n : nat) (s : string) : string := String.substring 0 n s.

(** [Config._validate] on the two values read from the environment
    ([os.getenv] gives [None] for a variable that is not set).  The result
    is the message of the [ConfigError] raised, if any.  The check of the
    production key's prefix is commented out in the source and is absent
    here. *)
Definition _validate (prod_key test_key : option string) : option string :=
  match nonempty prod_key with
  | None => Some "STRIPE_SECRET_KEY missing in .env file"
  | Some prod_key =>
      match nonempty test_key with
      | None => Some "STRIPE_SECRET_KEY_TEST missing in .env file"
      | Some test_key =>
          if negb (String.prefix "sk_test_" test_key) then
            Some ("STRIPE_SECRET_KEY_TEST must be a TEST key (sk_test_*). "
                  +:+ "Found: " +:+ first_chars 10 test_key +:+ "...")
          else if String.eqb prod_key test_key then
            Some "Production and test keys cannot be identical"
          else None
      end
  end.

(** [Config.__init__], the environment being what [load_dotenv] left:
    [inl msg] is a raised [ConfigError]. *)
Definition Config_init (getenv : string -> option string) : string + Config :=
  let prod_key := getenv "STRIPE_SECRET_KEY" in
  let test_key := getenv "STRIPE_SECRET_KEY_TEST" in
  match _validate prod_key test_key with
  | Some msg => inl msg
  | None => inr (mkConfig (default "" prod_key) (default "" test_key))
  end.

Section FromEnv.
Context `{api : StripeAPI}.

(** [main] from its first line, the keys being read from the environment:
    a [ConfigError] ends the run with exit code 1 before anything is
    requested. *)
Definition main_from_env (getenv : string -> option string) (args : Args)
    (confirmed : bool) (r : remote) : World * Z :=
  match Config_init getenv with
  | inl _ => (mkWorld IDMapper_init r [] [], 1)
  | inr config =>
      main (stripe_prod_key config) (stripe_test_key config) args confirmed r
  end.

End FromEnv.

(** ** [src/stripe_client.py]: the page loop of [list_all] *)

Section Pages.
Context {R : Type}.

(** [list_method(api_key=api_key, **list_params)] on a remote state:
    [response.data] and [response.has_more], or a [StripeError]. *)
Variable list_method :
  string -> dict -> R -> R * (string + (list value * bool)).

(** The parameters of one request: [{**params, 'limit': 100}], with the
    cursor when it is truthy. *)
Definition page_params (params : dict) (starting_after : value) : dict :=
  let list_params := dict_update params [("limit", VInt 100)] in
  if truthy starting_after
  then dict_set "starting_after" starting_after list_params
  else list_params.

(** [while has_more: ...], entered with [has_more] true.  [fuel] bounds the
    number of passes; [None] means the loop is still running after them. *)
Fixpoint list_pages (fuel : nat) (resource api_key : string) (params : dict)
    (starting_after : value) (all_items : list value) (r : R)
    : option (R * result (list value)) :=
  match fuel with
  | O => None
  | S fuel =>
      match list_method api_key (page_params params starting_after) r with
      | (r, inl e) =>
          Some (r, Raise (StripeClientError
                            ("Error listing " +:+ resource +:+ ": " +:+ e)))
      | (r, inr (data, has_more)) =>
          let all_items := (all_items ++ data)%list in
          if has_more then
            match last data with
            | Some item =>
                match getattr item "id" with
                | Ok id =>
                    list_pages fuel resource api_key params id all_items r
                | Raise e => Some (r, Raise e)
                end
            | None =>
                list_pages fuel resource api_key params starting_after
                  all_items r
            end
          else Some (r, Ok all_items)
      end
  end.

(** [list_all] with its loop unfolded. *)
Definition list_all_paged (fuel : nat) (resource api_key : string)
    (params : dict) (r : R) : option (R * result (list value)) :=
  if bool_decide (resource ∈ resource_map)
  then list_pages fuel resource api_key params VNone [] r
  else Some (r, Raise (StripeClientError ("Unknown resource: " +:+ resource))).

End Pages.

(** *** A listing served by cursor *)

(** [x.id == c] *)
Definition id_is (c x : value) : bool :=
  match getattr x "id" with
  | Ok v => py_eq v c
  | Raise _ => false
  end.

(** The records that follow the one named by the cursor. *)
Fixpoint after_cursor (c : value) (items : list value) : list value :=
  match items with
  | [] => []
  | x :: rest => if id_is c x then rest else after_cursor c rest
  end.

(** The answer of a service that holds [items] and serves them [size] at a
    time, from the start or from after the cursor. *)
Definition served (size : nat) (items : list value) (list_params : dict)
    : list value * bool :=
  let rest :=
    match dict_get "starting_after" list_params with
    | Some c => after_cursor c items
    | None => items
    end in
  (take size rest, (size <? length rest)%nat).

(** ** What reaches the remote service *)

(** A request that does not write. *)
Definition is_listing (c : api_call) : Prop :=
  match c with
  | ApiList _ _ _ => True
  | _ => False
  end.

(** A request that changes an existing record. *)
Definition is_modification (c : api_call) : Prop :=
  match c with
  | ApiModify _ _ _ _ => True
  | _ => False
  end.

(** What the wrapper lets through: listings, and, when dry-run is off,
    writes made with the test key. *)
Definition permitted (client : StripeClient) (c : api_call) : Prop :=
  match c with
  | ApiList _ _ _ => True
  | ApiCreate _ api_key _ | ApiModify _ _ api_key _ =>
      dry_run client = false /\ api_key = test_key client
  end.

Section Traces.
Context `{api : StripeAPI}.

(** The trace only grew, and by requests satisfying [P]. *)
Definition only_sends (P : api_call -> Prop) : relation World := fun w w' =>
  exists new, calls w' = (calls w ++ new)%list /\ Forall P new.

Definition same_calls : relation World := fun w w' => calls w' = calls w.

(** The counters keep their shape. *)
Definition shape_kept : relation World := fun w w' =>
  shaped (mapper w) -> shaped (mapper w').

End Traces.

(** ** Two runs *)

(** The [prod_id] a creation request carries in its metadata. *)
Definition request_tag (params : dict) : option value :=
  match dict_get "metadata" params with
  | Some (VDict kvs | VObj kvs) => dict_get "prod_id" kvs
  | _ => None
  end.


(** ** More scenarios *)

(** A service that rejects every request. *)
Module Outage.

Definition refused : string := "Invalid API Key provided".

Definition api : StripeAPI :=
  {| remote := unit;
     stripe_list := fun _ _ _ r => (r, inl refused);
     stripe_create := fun _ _ _ r => (r, inl refused);
     stripe_modify := fun _ _ _ _ r => (r, inl refused) |}.

End Outage.

Module Cases.

(** An environment holding the two keys of the in-memory accounts. *)
Definition getenv (name : string) : option string :=
  if String.eqb name "STRIPE_SECRET_KEY" then Some Mem.live_key
  else if String.eqb name "STRIPE_SECRET_KEY_TEST" then Some "sk_test_1"
  else None.

(** Three records served two at a time. *)
Definition three : list value :=
  [ VObj [("id", VStr "a")]; VObj [("id", VStr "b")]; VObj [("id", VStr "c")] ].

Definition pager (api_key : string) (list_params : dict) (r : unit)
    : unit * (string + (list value * bool)) :=
  (r, inr (served 2 three list_params)).

(** A service whose pages are empty and never the last. *)
Definition stuck (api_key : string) (list_params : dict) (r : unit)
    : unit * (string + (list value * bool)) :=
  (r, inr ([], true)).

(** U+00A0, a space that is not ASCII, as it is encoded. *)
Definition nbsp : string :=
  String (Ascii.ascii_of_nat 194) (String (Ascii.ascii_of_nat 160) "").

(** A test coupon that carries the prefixed id of [Scenario.coupon_1] and
    no tag. *)
Definition coupon_t : value :=
  VObj [("id", VStr "test_SAVE20"); ("percent_off", VInt 20)].

End Cases.

(** * Properties *)

(** ** Dictionaries and the mapper *)

Lemma dict_get_set_eq (k : string) (v : value) (d : dict) :
  dict_get k (dict_set k v d) = Some v.
Proof.
  induction d as [|[k' v'] d IH]; simpl.
  - by rewrite String.eqb_refl.
  - destruct (String.eqb k k') eqn:E; simpl; rewrite ?String.eqb_refl, ?E; done.
Qed.

Lemma dict_get_set_ne (k k' : string) (v : value) (d : dict) :
  k ≠ k' -> dict_get k (dict_set k' v d) = dict_get k d.
Proof.
  intros Hne. induction d as [|[k0 v0] d IH]; simpl.
  - destruct (String.eqb k k') eqn:E; [|done].
    apply String.eqb_eq in E. done.
  - destruct (String.eqb k' k0) eqn:E; simpl.
    + apply String.eqb_eq in E. subst k0.
      destruct (String.eqb k k') eqn:E'; [|done].
      apply String.eqb_eq in E'. done.
    + by rewrite IH.
Qed.

Lemma counters_increment_created (m : IDMapper) (name : string) (c u e : Z) :
  counters m name = Some (c, u, e) ->
  counters (increment_stat name "created" m) name = Some (c + 1, u, e).
Proof.
  unfold counters, increment_stat. intros H.
  destruct (stats m !! name) as [st|] eqn:Hst; simplify_option_eq.
  by simplify_map_eq.
Qed.
Lemma counters_increment_updated (m : IDMapper) (name : string) (c u e : Z) :
  counters m name = Some (c, u, e) ->
  counters (increment_stat name "updated" m) name = Some (c, u + 1, e).
Proof.
  unfold counters, increment_stat. intros H.
  destruct (stats m !! name) as [st|] eqn:Hst; simplify_option_eq.
  by simplify_map_eq.
Qed.

Lemma counters_increment_errors (m : IDMapper) (name : string) (c u e : Z) :
  counters m name = Some (c, u, e) ->
  counters (increment_stat name "errors" m) name = Some (c, u, e + 1).
Proof.
  unfold counters, increment_stat. intros H.
  destruct (stats m !! name) as [st|] eqn:Hst; simplify_option_eq.
  by simplify_map_eq.
Qed.

Lemma counters_same_stats (m m' : IDMapper) (name : string) :
  stats m' = stats m -> counters m' name = counters m name.
Proof. unfold counters. by intros ->. Qed.

Lemma increment_stat_same_stats (m m' : IDMapper) (name stat : string) :
  stats m' = stats m ->
  stats (increment_stat name stat m') = stats (increment_stat name stat m).
Proof.
  unfold increment_stat. intros H. rewrite H.
  destruct (stats m !! name) as [st|]; [|done].
  by destruct (st !! stat).
Qed.

Lemma add_mapping_stats (name prod_id test_id : string) (m m' : IDMapper) :
  add_mapping name prod_id test_id m = Ok m' -> stats m' = stats m.
Proof.
  unfold add_mapping. destruct (mappings m !! name); [|done].
  by intros [= <-].
Qed.

Section EffectFacts.
Context `{api : StripeAPI}.
Implicit Types (w : World) (R : relation World).

Lemma wp_bind {A B} (c : M A) (k : A -> M B) (Q : World -> result B -> Prop) w :
  wp c (fun w' r => match r with
                    | Ok a => wp (k a) Q w'
                    | Raise e => Q w' (Raise e)
                    end) w ->
  wp (c ≫= k) Q w.
Proof.
  unfold wp, mbind, M_bind. destruct (c w) as [w' [a|e]]; simpl; done.
Qed.

Lemma wp_keeps {A} R (c : M A) (Q : World -> result A -> Prop) w :
  keeps R c -> (forall w' r, R w w' -> Q w' r) -> wp c Q w.
Proof. unfold wp, keeps. auto. Qed.

Lemma wp_mono {A} (c : M A) (Q Q' : World -> result A -> Prop) w :
  wp c Q w -> (forall w' r, Q w' r -> Q' w' r) -> wp c Q' w.
Proof. unfold wp. auto. Qed.

Lemma keeps_bind {A B} R `{!Transitive R} (c : M A) (k : A -> M B) :
  keeps R c -> (forall a, keeps R (k a)) -> keeps R (c ≫= k).
Proof.
  intros Hc Hk w. specialize (Hc w). unfold mbind, M_bind.
  destruct (c w) as [w' [a|e]]; simpl in *; [|done].
  etrans; [exact Hc | apply Hk].
Qed.

Lemma keeps_ret {A} R `{!Reflexive R} (a : A) : keeps R (mret a).
Proof. intros w. simpl. reflexivity. Qed.

Lemma keeps_raise {A} R `{!Reflexive R} (e : exn) : keeps R (@raise _ A e).
Proof. intros w. simpl. reflexivity. Qed.

Lemma keeps_lift {A} R `{!Reflexive R} (r : result A) : keeps R (lift r).
Proof. intros w. simpl. reflexivity. Qed.

Lemma keeps_get_mapper R `{!Reflexive R} : keeps R get_mapper.
Proof. intros w. simpl. reflexivity. Qed.

Lemma keeps_try_except {A} R `{!Transitive R} (c : M A) (h : exn -> M A) :
  keeps R c -> (forall e, keeps R (h e)) -> keeps R (try_except c h).
Proof.
  intros Hc Hh w. specialize (Hc w). unfold try_except.
  destruct (c w) as [w' [a|e]]; simpl in *; [done|].
  etrans; [exact Hc | apply Hh].
Qed.

Lemma keeps_weaken {A} R R' (c : M A) :
  (forall w w', R w w' -> R' w w') -> keeps R c -> keeps R' c.
Proof. unfold keeps. auto. Qed.

#[global] Instance same_mapper_preorder : PreOrder same_mapper.
Proof. split; unfold same_mapper; [done | congruence]. Qed.

#[global] Instance same_stats_preorder : PreOrder same_stats.
Proof. split; unfold same_stats; [done | congruence]. Qed.

Lemma same_mapper_stats w w' : same_mapper w w' -> same_stats w w'.
Proof. unfold same_mapper, same_stats. by intros ->. Qed.

Lemma keeps_run_logged {A} (c : logged A) : keeps same_mapper (run_logged c).
Proof. done. Qed.

Lemma keeps_log_warning (msg : string) : keeps same_mapper (log_warning msg).
Proof. done. Qed.

Lemma keeps_request {A} (c : api_call) (f : remote -> remote * (string + A)) :
  keeps same_mapper (request c f).
Proof. intros w. unfold request. by destruct (f (account w)). Qed.

End EffectFacts.

(** ** The template method and the counters *)

Section Template.
Context `{api : StripeAPI}.
Variable client : StripeClient.
Implicit Types (w : World) (self : Copier).

Lemma keeps_list_all (resource : string) (env : Environment) (params : dict) :
  keeps same_mapper (list_all client resource env params).
Proof.
  unfold list_all. case_bool_decide; [|by apply keeps_raise].
  apply keeps_bind; [apply _ | apply keeps_request |].
  intros [e|items]; [by apply keeps_raise | by apply keeps_ret].
Qed.

Lemma keeps_create (resource : string) (env : Environment) (params : dict) :
  keeps same_mapper (create client resource env params).
Proof.
  unfold create. case_decide; [by apply keeps_raise|].
  destruct (dry_run client); [by apply keeps_ret|].
  case_bool_decide; [|by apply keeps_raise].
  apply keeps_bind; [apply _ | apply keeps_request |].
  intros [e|x]; [by apply keeps_raise | by apply keeps_ret].
Qed.

Lemma keeps_update (resource : string) (resource_id : value) (env : Environment)
    (params : dict) :
  keeps same_mapper (update client resource resource_id env params).
Proof.
  unfold update. case_decide; [by apply keeps_raise|].
  destruct (dry_run client); [by apply keeps_ret|].
  case_bool_decide; [|by apply keeps_raise].
  apply keeps_bind; [apply _ | apply keeps_request |].
  intros [e|x]; [by apply keeps_raise | by apply keeps_ret].
Qed.

Lemma keeps_mapper_add_mapping (name : string) (prod_entity test_entity : value) :
  keeps same_stats (mapper_add_mapping name prod_entity test_entity).
Proof.
  intros w. unfold mapper_add_mapping, mbind, M_bind, lift, get_mapper, set_mapper.
  destruct (str_id prod_entity); [|done].
  destruct (str_id test_entity); [|done].
  destruct (add_mapping _ _ _ _) as [m'|] eqn:E; [|done].
  apply add_mapping_stats in E. done.
Qed.

(** Everything a copier does, short of counting, leaves the counters. *)
Ltac keeps_stats :=
  first
    [ apply keeps_get_mapper; apply _
    | apply keeps_lift; apply _
    | apply keeps_ret; apply _
    | apply keeps_raise; apply _
    | apply keeps_mapper_add_mapping
    | eapply keeps_weaken;
      [ apply same_mapper_stats
      | first [ apply keeps_run_logged | apply keeps_log_warning
              | apply keeps_create | apply keeps_update
              | apply keeps_list_all | apply keeps_request ] ] ].

Ltac chain_stats := unfold same_stats in *; congruence.

Ltac wp_keep :=
  apply wp_bind; eapply (wp_keeps same_stats);
  [ keeps_stats | intros ? [?|?] ?; [| try chain_stats] ].

Lemma wp_increment_stat {A} (name stat : string) (k : M A)
    (Q : World -> result A -> Prop) w :
  wp k Q (mkWorld (increment_stat name stat (mapper w)) (account w) (calls w)
            (warnings w)) ->
  wp (mapper_increment_stat name stat;; k) Q w.
Proof. done. Qed.

Lemma create_in_test_stats self (prod_entity : value) w :
  wp (create_in_test client self prod_entity)
     (fun w' r =>
        match r with
        | Ok _ => stats (mapper w') =
                  stats (increment_stat (resource_name self) "created" (mapper w))
        | Raise _ => stats (mapper w') = stats (mapper w)
        end) w.
Proof.
  unfold create_in_test. do 6 wp_keep.
  apply wp_increment_stat. unfold wp; simpl.
  apply increment_stat_same_stats. chain_stats.
Qed.

Lemma update_in_test_stats self (test_entity prod_entity : value) w :
  wp (update_in_test client self test_entity prod_entity)
     (fun w' r =>
        match r with
        | Ok _ =>
            stats (mapper w') =
            stats (if can_update self
                   then increment_stat (resource_name self) "updated" (mapper w)
                   else mapper w)
        | Raise _ => stats (mapper w') = stats (mapper w)
        end) w.
Proof.
  unfold update_in_test. destruct (can_update self); simpl.
  - do 4 wp_keep.
    apply wp_increment_stat. unfold wp; simpl.
    apply increment_stat_same_stats. chain_stats.
  - wp_keep. unfold wp; simpl. chain_stats.
Qed.

Lemma copy_one_stats self (prod_entity : value) (test_entities : list value) w :
  wp (copy_one client self prod_entity test_entities)
     (fun w' r =>
        match r with
        | Ok _ =>
            exists existing,
              find_existing self (mapper w) prod_entity test_entities = Ok existing
              /\ stats (mapper w') = stats (counted self existing (mapper w))
        | Raise _ => stats (mapper w') = stats (mapper w)
        end) w.
Proof.
  unfold copy_one.
  apply wp_bind. unfold wp at 1; simpl.
  apply wp_bind. unfold wp at 1; simpl.
  destruct (find_existing self (mapper w) prod_entity test_entities)
    as [existing|e] eqn:Hfind; [|done].
  destruct (truthy existing) eqn:Htruthy.
  - do 2 wp_keep.
    apply wp_bind.
    eapply wp_mono; [apply update_in_test_stats|].
    intros wz [rz|ez] Hz; simpl in *.
    + unfold wp; simpl. exists existing. split; [done|].
      unfold counted. rewrite Htruthy, Hz.
      destruct (can_update self); [|chain_stats].
      apply increment_stat_same_stats. chain_stats.
    + chain_stats.
  - wp_keep.
    apply wp_bind.
    eapply wp_mono; [apply create_in_test_stats|].
    intros wz [rz|ez] Hz; simpl in *.
    + unfold wp; simpl. exists existing. split; [done|].
      unfold counted. rewrite Htruthy, Hz.
      apply increment_stat_same_stats. chain_stats.
    + chain_stats.
Qed.

Lemma hasattr_getattr (v : value) (a : string) :
  hasattr v a = true -> exists x, getattr v a = Ok x.
Proof.
  unfold hasattr, getattr. destruct v; try done.
  destruct (dict_get a kvs); [eauto | done].
Qed.

Lemma copy_step_outcome self (test_entities : list value) (prod_entity : value) w :
  hasattr prod_entity "id" = true ->
  exists w',
    copy_step client self test_entities prod_entity w = (w', Ok tt)
    /\ (stats (mapper w') =
        stats (increment_stat (resource_name self) "errors" (mapper w))
        \/ exists existing,
             find_existing self (mapper w) prod_entity test_entities = Ok existing
             /\ stats (mapper w') = stats (counted self existing (mapper w))).
Proof.
  intros [id Hid]%hasattr_getattr.
  pose proof (copy_one_stats self prod_entity test_entities w) as Hone.
  unfold wp in Hone. unfold copy_step, try_except, mbind at 1, M_bind.
  destruct (copy_one client self prod_entity test_entities w) as [w1 [r|e]];
    simpl in *.
  - eauto.
  - unfold mbind, M_bind, lift. rewrite Hid. simpl.
    eexists; split; [done|]. left. simpl.
    by apply increment_stat_same_stats.
Qed.

(** C4, as amended.  Processing one source record (one turn of the loop of
    [copy], for a record that has an [id], on a mapper holding the three
    counters of the kind) always completes and moves the counters of the
    kind in exactly one of four ways: created alone is incremented, updated
    alone is, errors alone is, or none is.  The last happens only for a
    kind that cannot be updated, on a record for which a match was found. *)
Theorem copy_step_counts_at_most_once self (test_entities : list value)
    (prod_entity : value) w (c u e : Z) :
  hasattr prod_entity "id" = true ->
  counters (mapper w) (resource_name self) = Some (c, u, e) ->
  exists w',
    copy_step client self test_entities prod_entity w = (w', Ok tt)
    /\ let now := counters (mapper w') (resource_name self) in
       now = Some (c + 1, u, e)
       \/ now = Some (c, u + 1, e)
       \/ now = Some (c, u, e + 1)
       \/ (now = Some (c, u, e)
           /\ can_update self = false
           /\ exists existing,
                find_existing self (mapper w) prod_entity test_entities
                  = Ok existing
                /\ truthy existing = true).
Proof.
  intros Hid Hc.
  destruct (copy_step_outcome self test_entities prod_entity w Hid)
    as (w' & Hstep & Hout).
  exists w'. split; [done|]. simpl.
  destruct Hout as [Herr | (existing & Hfind & Hst)].
  - right; right; left.
    rewrite (counters_same_stats _ _ _ Herr).
    by apply counters_increment_errors.
  - rewrite (counters_same_stats _ _ _ Hst). unfold counted.
    destruct (truthy existing) eqn:Ht.
    + destruct (can_update self) eqn:Hu.
      * right; left. by apply counters_increment_updated.
      * right; right; right. eauto.
    + left. by apply counters_increment_created.
Qed.

(** ** The loop of [copy] *)

(** A property of the state that every turn of the loop re-establishes holds
    when the loop is over, and the loop does get there. *)
Lemma copy_loop_invariant self (I : World -> Prop)
    (prod_entities test_entities : list value) :
  (forall prod_entity w, prod_entity ∈ prod_entities -> I w ->
     exists w', copy_step client self test_entities prod_entity w = (w', Ok tt)
                /\ I w') ->
  forall w, I w ->
    exists w', copy_loop client self prod_entities test_entities w = (w', Ok tt)
               /\ I w'.
Proof.
  induction prod_entities as [|p ps IH]; intros Hstep w HI; simpl.
  - by exists w.
  - destruct (Hstep p w) as (w1 & Hp & HI1); [by left | done |].
    destruct IH with (w := w1) as (w2 & Hps & HI2); [|done|].
    { intros q wq Hq. apply Hstep. by right. }
    exists w2. split; [|done].
    unfold mbind, M_bind. by rewrite Hp.
Qed.

Lemma copy_step_grows self (test_entities : list value) (prod_entity : value)
    w (c u e : Z) :
  hasattr prod_entity "id" = true ->
  grown (resource_name self) c u e w ->
  exists w',
    copy_step client self test_entities prod_entity w = (w', Ok tt)
    /\ grown (resource_name self) c u e w'.
Proof.
  intros Hid (c' & u' & e' & Hc & ? & ? & ?).
  destruct (copy_step_outcome self test_entities prod_entity w Hid)
    as (w' & Hstep & Hout).
  exists w'. split; [done|]. unfold grown.
  destruct Hout as [Herr | (existing & _ & Hst)].
  - rewrite (counters_same_stats _ _ _ Herr).
    rewrite (counters_increment_errors _ _ _ _ _ Hc).
    exists c', u', (e' + 1). split; [done | lia].
  - rewrite (counters_same_stats _ _ _ Hst). unfold counted.
    destruct (truthy existing); [destruct (can_update self)|].
    + rewrite (counters_increment_updated _ _ _ _ _ Hc).
      exists c', (u' + 1), e'. split; [done | lia].
    + exists c', u', e'. split; [exact Hc | lia].
    + rewrite (counters_increment_created _ _ _ _ _ Hc).
      exists (c' + 1), u', e'. split; [done | lia].
Qed.

Lemma list_all_returns (resource : string) (env : Environment) (params : dict)
    w (r : remote) (items : list value) :
  resource ∈ resource_map ->
  stripe_list resource (_get_client client env)
    (dict_set "limit" (VInt 100) params) (account w) = (r, inr items) ->
  list_all client resource env params w
  = (mkWorld (mapper w) r
       (calls w ++ [ApiList resource (_get_client client env)
                      (dict_set "limit" (VInt 100) params)])
       (warnings w),
     Ok items).
Proof.
  intros Hin Hlist. unfold list_all. rewrite bool_decide_eq_true_2 by done.
  unfold mbind, M_bind, request. simpl. rewrite Hlist. done.
Qed.

Lemma copiers_are_listed self :
  self ∈ copiers -> resource_name self ∈ resource_map.
Proof.
  unfold copiers. set_unfold.
  intros [->|[->|[->|[->|[]]]]]; simpl; set_solver.
Qed.

(** The state in which the loop of [copy] starts: the two listings are in
    the trace, nothing else has moved. *)
Lemma copy_after_listings self (filters : dict) w (r1 r2 : remote)
    (prod_entities test_entities : list value) :
  self ∈ copiers ->
  stripe_list (resource_name self) (prod_key client)
    (dict_set "limit" (VInt 100) filters) (account w) = (r1, inr prod_entities) ->
  stripe_list (resource_name self) (test_key client)
    [("limit", VInt 100)] r1 = (r2, inr test_entities) ->
  forall k : list value -> list value -> M (gmap string Z),
    (prod_entities ← list_from_prod client self filters;
     test_entities ← list_from_test client self [];
     k prod_entities test_entities) w
    = k prod_entities test_entities
        (mkWorld (mapper w) r2
           (calls w ++ [ApiList (resource_name self) (prod_key client)
                          (dict_set "limit" (VInt 100) filters);
                        ApiList (resource_name self) (test_key client)
                          [("limit", VInt 100)]])
           (warnings w)).
Proof.
  intros Hself%copiers_are_listed Hprod Htest k.
  unfold list_from_prod, list_from_test, mbind at 1, M_bind.
  rewrite (list_all_returns _ PRODUCTION _ _ r1 prod_entities) by done.
  unfold mbind at 1, M_bind.
  rewrite (list_all_returns _ TEST _ _ r2 test_entities) by done.
  simpl. by rewrite <- app_assoc.
Qed.

(** What [copy] returns once its loop is over. *)
Lemma copy_returns_record self w (c u e : Z) :
  counters (mapper w) (resource_name self) = Some (c, u, e) ->
  exists st,
    (m ← get_mapper;
     match stats m !! resource_name self with
     | None => raise (KeyError (resource_name self))
     | Some stats =>
         stat_item stats "created";;
         stat_item stats "updated";;
         stat_item stats "errors";;
         mret stats
     end) w = (w, Ok st)
    /\ stats (mapper w) !! resource_name self = Some st
    /\ st !! "created" = Some c.
Proof.
  unfold counters. intros Hc.
  destruct (stats (mapper w) !! resource_name self) as [st|] eqn:Hst; [|done].
  simpl in Hc.
  destruct (st !! "created") eqn:H1; [|done]. simpl in Hc.
  destruct (st !! "updated") eqn:H2; [|done]. simpl in Hc.
  destruct (st !! "errors") eqn:H3; [|done]. simpl in Hc.
  exists st. split; [|split; [done | congruence]].
  unfold mbind, M_bind, get_mapper, stat_item. simpl.
  by rewrite Hst, H1, H2, H3.
Qed.

(** C10.  Let the two listings of [copy] succeed, the production one with
    [prod_entities], the test one with [test_entities].  If [prod_entities]
    is empty, [copy] returns the new record of three zeros whatever the
    mapper holds, the mapper is what it was, and the trace of API calls
    grew by the two listings only: nothing was created or updated.
    Otherwise (for records that have an [id] and a mapper that holds the
    counters of the kind) [copy] returns the record the mapper holds for the
    kind when the loop is over, whose counters are at least the ones the
    mapper held before. *)
Theorem copy_empty_listing_returns_zeros self (filters : dict) w
    (r1 r2 : remote) (prod_entities test_entities : list value) :
  self ∈ copiers ->
  stripe_list (resource_name self) (prod_key client)
    (dict_set "limit" (VInt 100) filters) (account w) = (r1, inr prod_entities) ->
  stripe_list (resource_name self) (test_key client)
    [("limit", VInt 100)] r1 = (r2, inr test_entities) ->
  let listed :=
    mkWorld (mapper w) r2
      (calls w ++ [ApiList (resource_name self) (prod_key client)
                     (dict_set "limit" (VInt 100) filters);
                   ApiList (resource_name self) (test_key client)
                     [("limit", VInt 100)]])
      (warnings w) in
  (prod_entities = [] -> copy client self filters w = (listed, Ok zero_stats))
  /\ (prod_entities <> [] ->
      Forall (fun p => hasattr p "id" = true) prod_entities ->
      forall c u e, counters (mapper w) (resource_name self) = Some (c, u, e) ->
      exists w' st,
        copy client self filters w = (w', Ok st)
        /\ copy_loop client self prod_entities test_entities listed = (w', Ok tt)
        /\ stats (mapper w') !! resource_name self = Some st
        /\ grown (resource_name self) c u e w').
Proof.
  intros Hself Hprod Htest listed.
  unfold copy.
  rewrite (copy_after_listings self filters w r1 r2 prod_entities test_entities)
    by done.
  fold listed. split.
  - by intros ->.
  - intros Hne Hids c u e Hc.
    destruct (copy_loop_invariant self (grown (resource_name self) c u e)
                prod_entities test_entities) with (w := listed)
      as (w' & Hloop & Hgrown).
    { intros p wp Hp Hg. apply copy_step_grows; [|done].
      rewrite Forall_forall in Hids. by apply Hids. }
    { exists c, u, e. simpl. split; [done | lia]. }
    destruct prod_entities as [|p ps]; [done|].
    pose proof Hgrown as (c' & u' & e' & Hc' & _).
    destruct (copy_returns_record self w' c' u' e' Hc') as (st & Hret & Hst & _).
    exists w', st. split; [|done].
    unfold mbind at 1, M_bind. rewrite Hloop. exact Hret.
Qed.

(** ** Prices whose product was not copied *)

(** C6.  Take a production price that has an [id], whose product reference
    has no test id in the products table of the mapper, and for which the
    search finds no existing test price.  Processing it counts exactly one
    error for prices and changes nothing else (no mapping, no API call, no
    warning); the failure stays inside the turn of the loop: the loop goes
    on with the remaining production prices from that state. *)
Theorem price_without_product_counts_one_error
    (test_entities rest : list value) (prod_entity prod_product_id : value) w
    (c u e : Z) :
  hasattr prod_entity "id" = true ->
  Price.product_ref prod_entity = Ok prod_product_id ->
  get_test_id "products" prod_product_id (mapper w) = Ok None ->
  (exists existing,
     Price.find_existing (mapper w) prod_entity test_entities = Ok existing
     /\ truthy existing = false) ->
  counters (mapper w) "prices" = Some (c, u, e) ->
  let counted_error :=
    mkWorld (increment_stat "prices" "errors" (mapper w))
      (account w) (calls w) (warnings w) in
  counters (mapper counted_error) "prices" = Some (c, u, e + 1)
  /\ mappings (mapper counted_error) = mappings (mapper w)
  /\ copy_step client PriceCopier test_entities prod_entity w
     = (counted_error, Ok tt)
  /\ copy_loop client PriceCopier (prod_entity :: rest) test_entities w
     = copy_loop client PriceCopier rest test_entities counted_error.
Proof.
  intros [id Hid]%hasattr_getattr Href Hget (existing & Hfind & Hfalse) Hc
    counted_error.
  assert (copy_step client PriceCopier test_entities prod_entity w
          = (counted_error, Ok tt)) as Hstep.
  { unfold copy_step, try_except, copy_one, create_in_test.
    unfold mbind, M_bind, lift, get_mapper, run_logged. simpl.
    rewrite Hfind, Hfalse, Hid. simpl.
    unfold Price.get_create_params, quiet, mbind, result_bind.
    rewrite Href, Hget. simpl.
    destruct (getattr prod_entity "currency"); simpl;
      unfold counted_error, mapper_increment_stat,
        mbind, M_bind, get_mapper, set_mapper; simpl;
      by rewrite app_nil_r. }
  split; [by apply counters_increment_errors|].
  split.
  { simpl. unfold increment_stat.
    destruct (stats (mapper w) !! "prices") as [st|]; [|done].
    by destruct (st !! "errors"). }
  split; [done|].
  simpl. unfold mbind at 1, M_bind. by rewrite Hstep.
Qed.

(** ** Strategy 1: the tag written at creation *)

Lemma find_first_decided (p : value -> result bool) (b : value -> bool)
    (xs : list value) :
  Forall (fun x => p x = Ok (b x)) xs ->
  find_first p xs = Ok (List.find b xs).
Proof.
  induction 1 as [|x xs Hx _ IH]; simpl; [done|].
  rewrite Hx. simpl. by destruct (b x).
Qed.

Lemma tagged_with_decided (prod_entity test_entity : value) (id : string) :
  getattr prod_entity "id" = Ok (VStr id) ->
  metadata_is_mapping test_entity = true ->
  tagged_with prod_entity test_entity = Ok (tagged id test_entity).
Proof.
  unfold tagged_with, tagged, metadata_is_mapping. intros Hid Hmap.
  destruct (getattr_or test_entity "metadata" (VDict [])) as [| | | | | |kvs|kvs];
    simpl in *; try (by rewrite (negb_true_iff _) in Hmap; rewrite Hmap).
  - done.
  - destruct kvs; simpl; [done|]. by rewrite Hid.
  - destruct kvs; simpl; [done|]. by rewrite Hid.
Qed.

Lemma tagged_truthy (id : string) (test_entity : value) :
  tagged id test_entity = true -> truthy test_entity = true.
Proof.
  unfold tagged, getattr_or, getattr.
  destruct test_entity as [| | | | | | |kvs]; try done.
  by destruct kvs.
Qed.

(** Among records whose metadata are mappings, strategy 1 returns the first
    record tagged with the id of the production entity, if there is one. *)
Lemma find_first_tagged (prod_entity : value) (id : string)
    (test_entities : list value) :
  getattr prod_entity "id" = Ok (VStr id) ->
  Forall (fun t => metadata_is_mapping t = true) test_entities ->
  (exists t, t ∈ test_entities /\ tagged id t = true) ->
  exists t,
    find_first (tagged_with prod_entity) test_entities = Ok (Some t)
    /\ t ∈ test_entities /\ tagged id t = true.
Proof.
  intros Hid Hmap (t & Hin & Htag).
  rewrite (find_first_decided _ (tagged id)).
  - destruct (List.find (tagged id) test_entities) as [t'|] eqn:Hfind.
    + apply find_some in Hfind as [Hin' Htag'].
      exists t'. by rewrite list_elem_of_In.
    + apply find_none with (x := t) in Hfind; [congruence|].
      by apply list_elem_of_In.
  - eapply Forall_impl; [exact Hmap|]. simpl.
    intros x Hx. by apply tagged_with_decided.
Qed.

Lemma find_existing_tagged self (m : IDMapper) (prod_entity : value)
    (id : string) (test_entities : list value) :
  self ∈ copiers ->
  getattr prod_entity "id" = Ok (VStr id) ->
  Forall (fun t => metadata_is_mapping t = true) test_entities ->
  (exists t, t ∈ test_entities /\ tagged id t = true) ->
  exists t,
    find_first (tagged_with prod_entity) test_entities = Ok (Some t)
    /\ find_existing self m prod_entity test_entities = Ok t
    /\ t ∈ test_entities /\ tagged id t = true.
Proof.
  intros Hself Hid Hmap Hex.
  destruct (find_first_tagged prod_entity id test_entities)
    as (t & Hfirst & Hin & Htag); [done..|].
  exists t. split; [done|]. split; [|done].
  unfold copiers in Hself. set_unfold.
  destruct Hself as [->|[->|[->|[->|[]]]]]; simpl;
    unfold TaxRate.find_existing, Product.find_existing, Price.find_existing,
      Coupon.find_existing; simpl; by rewrite Hfirst.
Qed.

(** ** A run over tagged records *)

Lemma getattr_hasattr (v x : value) (a : string) :
  getattr v a = Ok x -> hasattr v a = true.
Proof.
  unfold hasattr, getattr. destruct v; try done.
  by destruct (dict_get a kvs).
Qed.

(** A run over tagged records.  Let a run of [copy] start with a created
    counter of zero (as every run does, on its new mapper), let both
    listings
    succeed, and let every production record have a string [id] under which
    some listed test record is tagged in its metadata (the tag every
    creation of an earlier run leaves behind), the metadata of the test
    records being mappings.  Then every production record is matched by the
    metadata [prod_id] strategy, whatever the mapper holds, and [copy]
    returns a record whose created counter is zero, as is the mapper's. *)
Theorem tagged_run_creates_nothing self (filters : dict) w (r1 r2 : remote)
    (prod_entities test_entities : list value) (u e : Z) :
  self ∈ copiers ->
  stripe_list (resource_name self) (prod_key client)
    (dict_set "limit" (VInt 100) filters) (account w) = (r1, inr prod_entities) ->
  stripe_list (resource_name self) (test_key client)
    [("limit", VInt 100)] r1 = (r2, inr test_entities) ->
  Forall (fun p => exists id,
            getattr p "id" = Ok (VStr id)
            /\ exists t, t ∈ test_entities /\ tagged id t = true)
    prod_entities ->
  Forall (fun t => metadata_is_mapping t = true) test_entities ->
  counters (mapper w) (resource_name self) = Some (0, u, e) ->
  (forall p m, p ∈ prod_entities ->
     exists t,
       find_first (tagged_with p) test_entities = Ok (Some t)
       /\ find_existing self m p test_entities = Ok t)
  /\ exists w' st u' e',
       copy client self filters w = (w', Ok st)
       /\ st !! "created" = Some 0
       /\ counters (mapper w') (resource_name self) = Some (0, u', e').
Proof.
  intros Hself Hprod Htest Htagged Hmap Hc.
  rewrite Forall_forall in Htagged.
  assert (forall p m, p ∈ prod_entities ->
            exists t,
              find_first (tagged_with p) test_entities = Ok (Some t)
              /\ find_existing self m p test_entities = Ok t
              /\ truthy t = true) as Hmatch.
  { intros p m (id & Hid & Hex)%Htagged.
    destruct (find_existing_tagged self m p id test_entities)
      as (t & Hfirst & Hfind & _ & Htag); [done..|].
    exists t. eauto using tagged_truthy. }
  split.
  { intros p m Hp. destruct (Hmatch p m Hp) as (t & ? & ? & _). eauto. }
  unfold copy.
  rewrite (copy_after_listings self filters w r1 r2 prod_entities test_entities)
    by done.
  set (listed := mkWorld _ _ _ _).
  destruct (decide (prod_entities = [])) as [->|Hne].
  { exists listed, zero_stats, u, e. done. }
  destruct (copy_loop_invariant self
              (fun w' => exists u' e',
                 counters (mapper w') (resource_name self) = Some (0, u', e'))
              prod_entities test_entities) with (w := listed)
    as (w' & Hloop & u' & e' & Hc').
  { intros p wp Hp (u1 & e1 & Hc1).
    destruct (Htagged p Hp) as (id & Hid%getattr_hasattr & _).
    destruct (copy_step_outcome self test_entities p wp Hid)
      as (w2 & Hstep & Hout).
    exists w2. split; [done|].
    destruct Hout as [Herr | (existing & Hfind & Hst)].
    - rewrite (counters_same_stats _ _ _ Herr).
      rewrite (counters_increment_errors _ _ _ _ _ Hc1). eauto.
    - destruct (Hmatch p (mapper wp) Hp) as (t & _ & Hfind' & Ht).
      assert (existing = t) as -> by congruence.
      rewrite (counters_same_stats _ _ _ Hst). unfold counted. rewrite Ht.
      destruct (can_update self); [|eauto].
      rewrite (counters_increment_updated _ _ _ _ _ Hc1). eauto. }
  { by exists u, e. }
  destruct (copy_returns_record self w' 0 u' e' Hc') as (st & Hret & _ & Hst).
  exists w', st, u', e'. split; [|done].
  destruct prod_entities; [done|].
  unfold mbind at 1, M_bind. rewrite Hloop. exact Hret.
Qed.

(** ** The example of the specification *)

(** C5.  The production listing is the single product
    [{id: "prod_A", name: "Widget"}], the test listing is empty, dry-run is
    off, the mapper is new, and the remote service answers the creation
    with an object whose id is [new_id].  Then [copy] makes exactly one
    creation call, whose parameters are the name and a metadata holding
    [prod_id = "prod_A"] (the product itself has no metadata); the only
    mapping recorded is [products["prod_A"] = new_id]; and the counters of
    products, which are also the record returned, are
    [{created: 1, updated: 0, errors: 0}]. *)
Theorem widget_is_created_once w (r1 r2 r3 : remote) (created : value)
    (new_id : string) :
  dry_run client = false ->
  mapper w = IDMapper_init ->
  stripe_list "products" (prod_key client) [("limit", VInt 100)] (account w)
    = (r1, inr [Scenario.widget]) ->
  stripe_list "products" (test_key client) [("limit", VInt 100)] r1
    = (r2, inr []) ->
  stripe_create "products" (test_key client)
    [("name", VStr "Widget"); ("metadata", VDict [("prod_id", VStr "prod_A")])]
    r2 = (r3, inr created) ->
  str_id created = Ok new_id ->
  exists w',
    copy client ProductCopier [] w
    = (w', Ok {[ "created" := 1; "updated" := 0; "errors" := 0 ]})
    /\ calls w' =
       (calls w ++
        [ ApiList "products" (prod_key client) [("limit", VInt 100)];
          ApiList "products" (test_key client) [("limit", VInt 100)];
          ApiCreate "products" (test_key client)
            [("name", VStr "Widget");
             ("metadata", VDict [("prod_id", VStr "prod_A")])] ])%list
    /\ mappings (mapper w')
       = <["products" := {[ "prod_A" := new_id ]}]> (mappings IDMapper_init)
    /\ counters (mapper w') "products" = Some (1, 0, 0).
Proof.
  intros Hdry Hm Hprod Htest Hcreate Hid.
  unfold copy.
  rewrite (copy_after_listings ProductCopier [] w r1 r2 [Scenario.widget] [])
    by (done || set_solver).
  simpl.
  unfold copy_step, try_except, copy_one, create_in_test, create.
  unfold mbind, M_bind, lift, get_mapper, run_logged, request. simpl.
  rewrite Hdry. simpl.
  change (_get_client client TEST) with (test_key client).
  rewrite Hcreate. simpl.
  unfold mapper_add_mapping, mapper_increment_stat.
  unfold mbind, M_bind, lift, get_mapper, set_mapper. simpl.
  rewrite Hid. simpl. rewrite Hm.
  rewrite <- app_assoc, app_nil_r. simpl app.
  eexists. split; [vm_compute; reflexivity|].
  repeat split; vm_compute; reflexivity.
Qed.

(** ** Dry-run *)

(** In dry-run mode the wrapper answers a creation with a plain [dict];
    [create_in_test] then reads [test_entity.id], which a [dict] does not
    have.  So no creation ever completes: nothing is recorded and nothing
    is counted as created. *)
(** X16.  In dry-run mode [create_in_test] never returns a record: for
    every copier and every entity it raises, and it leaves the mapper, the
    trace of API calls and the remote accounts as they were.  (When the
    parameters can be built and the entity has an [id], the simulated
    record is a plain dictionary, and reading its [id] as an attribute is
    what fails.) *)
Lemma dry_run_create_in_test_raises self (prod_entity : value) w :
  dry_run client = true ->
  exists w' x,
    create_in_test client self prod_entity w = (w', Raise x)
    /\ mapper w' = mapper w /\ calls w' = calls w /\ account w' = account w.
Proof.
  intros Hdry. unfold create_in_test, create.
  unfold mbind, M_bind, lift, get_mapper, run_logged. simpl. rewrite Hdry.
  destruct (get_create_params self (mapper w) prod_entity) as [l [params|x]];
    simpl; [|eauto 10].
  destruct (getattr prod_entity "id") as [id|x]; simpl; [|eauto 10].
  destruct (setitem _ "prod_id" id) as [metadata|x]; simpl; [|eauto 10].
  unfold mapper_add_mapping, mbind, M_bind, lift. simpl.
  destruct (str_id prod_entity) as [pid|x]; simpl; eauto 10.
Qed.

(** ** The tag of the origin *)

Lemma setitem_get (d metadata : value) (k : string) (v : value) :
  setitem d k v = Ok metadata -> method_get metadata k = Ok v.
Proof.
  destruct d; simpl; try done; intros [= <-]; simpl;
    by rewrite dict_get_set_eq.
Qed.

(** X15.  The tag of the origin: every creation request that
    [create_in_test] sends carries, in its metadata, the id of the
    production entity under [prod_id]; and it sends at most one request. *)
Lemma create_in_test_sends_tag self (prod_entity : value) w :
  let w' := (create_in_test client self prod_entity w).1 in
  calls w' = calls w
  \/ exists params metadata id,
       calls w' = (calls w ++ [ApiCreate (resource_name self) (test_key client)
                                params])%list
       /\ getattr prod_entity "id" = Ok id
       /\ dict_get "metadata" params = Some metadata
       /\ method_get metadata "prod_id" = Ok id.
Proof.
  unfold create_in_test, create.
  unfold mbind, M_bind, lift, get_mapper, run_logged. simpl.
  destruct (get_create_params self (mapper w) prod_entity) as [l [params|x]];
    simpl; [|by left].
  destruct (getattr prod_entity "id") as [id|x]; simpl; [|by left].
  destruct (setitem _ "prod_id" id) as [metadata|x] eqn:Hset; simpl;
    [|by left].
  destruct (dry_run client); simpl.
  { unfold mapper_add_mapping, mapper_increment_stat, mbind, M_bind, lift,
      get_mapper, set_mapper. simpl.
    destruct (str_id prod_entity); simpl; by left. }
  case_bool_decide; simpl; [|by left].
  unfold request. simpl.
  change (_get_client client TEST) with (test_key client).
  destruct (stripe_create _ _ _ _) as [r [e|created]]; simpl.
  { right. eexists _, metadata, id. split; [done|]. split; [done|].
    rewrite dict_get_set_eq. eauto using setitem_get. }
  unfold mapper_add_mapping, mapper_increment_stat, mbind, M_bind, lift,
    get_mapper, set_mapper. simpl.
  assert (forall cs : list api_call,
            cs = (calls w ++ [ApiCreate (resource_name self) (test_key client)
                    (dict_set "metadata" metadata
                       match dict_get "metadata" params with
                       | Some _ => params
                       | None => dict_set "metadata" (VDict []) params
                       end)])%list ->
            cs = calls w
            \/ exists params0 metadata0 id0,
                 cs = (calls w ++ [ApiCreate (resource_name self)
                                     (test_key client) params0])%list
                 /\ Ok id = Ok id0
                 /\ dict_get "metadata" params0 = Some metadata0
                 /\ method_get metadata0 "prod_id" = Ok id0) as Hsent.
  { intros cs ->. right. eexists _, metadata, id. split; [done|].
    split; [done|]. rewrite dict_get_set_eq. eauto using setitem_get. }
  destruct (str_id prod_entity); simpl; [|by apply Hsent].
  destruct (str_id created); simpl; [|by apply Hsent].
  destruct (add_mapping _ _ _ _); simpl; by apply Hsent.
Qed.

End Template.

(** ** The production guard *)

Section Guard.
Context `{api : StripeAPI}.

(** C2.  Whatever the keys, the dry-run flag, the resource name, the
    identifier and the parameters, [create] and [update] aimed at the
    production environment raise the FORBIDDEN error and leave the state as
    it was: the remote accounts and the trace of API calls are untouched,
    so no request was made.  With the dry-run flag set the error is the
    same; no simulated record is returned. *)
Theorem production_writes_are_forbidden (prod test : string) (dry : bool)
    (resource : string) (resource_id : value) (params : dict) (w : World) :
  let client := mkStripeClient prod test dry in
  create client resource PRODUCTION params w
  = (w, Raise (StripeClientError
                 "FORBIDDEN: Attempt to write in PRODUCTION. Only read access is allowed in production."))
  /\ update client resource resource_id PRODUCTION params w
     = (w, Raise (StripeClientError "FORBIDDEN: Attempt to modify in PRODUCTION")).
Proof. split; reflexivity. Qed.

End Guard.

(** ** Coupons restricted to products *)

Lemma dict_get_copy_truthy (k a : string) (e : value) (params : dict) :
  k ≠ a -> dict_get k (copy_truthy e a params) = dict_get k params.
Proof.
  intros. unfold copy_truthy. destruct (has_truthy e a); [|done].
  by apply dict_get_set_ne.
Qed.

Lemma dict_get_copy_present (k a : string) (e : value) (params : dict) :
  k ≠ a -> dict_get k (copy_present e a params) = dict_get k params.
Proof.
  intros. unfold copy_present. destruct (getattr e a); [|done].
  by apply dict_get_set_ne.
Qed.

Lemma dict_get_copy_not_none (k a : string) (e : value) (params : dict) :
  k ≠ a -> dict_get k (copy_not_none e a params) = dict_get k params.
Proof.
  intros. unfold copy_not_none. destruct (has_not_none e a); [|done].
  by apply dict_get_set_ne.
Qed.

Lemma dict_get_copy_metadata (k : string) (e : value) (params params' : dict) :
  k ≠ "metadata" -> copy_metadata e params = Ok params' ->
  dict_get k params' = dict_get k params.
Proof.
  intros Hk. unfold copy_metadata. destruct (has_truthy e "metadata").
  - destruct (py_dict _); simpl; [|done]. intros [= <-].
    by apply dict_get_set_ne.
  - by intros [= <-].
Qed.

Lemma copy_metadata_succeeds (e : value) (params : dict) :
  metadata_is_mapping e = true -> exists params', copy_metadata e params = Ok params'.
Proof.
  unfold metadata_is_mapping, copy_metadata, has_truthy, getattr_or.
  destruct (getattr e "metadata") as [metadata|]; simpl; [|eauto].
  destruct metadata; simpl; intros H; try (rewrite negb_true_iff in H; rewrite H);
    eauto; match goal with |- context [if ?b then _ else _] => destruct b end;
    simpl; eauto.
Qed.

(** The loop over the product ids of a coupon: the test ids of the products
    that resolve, in order, and one warning for each that does not. *)
Lemma map_product_ids_resolves (m : IDMapper) (pids : list string) :
  Coupon.map_product_ids m (VStr <$> pids)
  = (unresolved_warning <$> filter (fun pid => resolve m pid = None) pids,
     Ok (VStr <$> omap (resolve m) pids)).
Proof.
  induction pids as [|pid pids IH]; [done|].
  rewrite fmap_cons. simpl Coupon.map_product_ids.
  unfold mbind at 1, logged_bind, quiet. simpl get_test_id.
  fold (resolve m pid).
  rewrite filter_cons. simpl omap.
  destruct (resolve m pid) as [t|] eqn:Hres.
  - case_decide; [done|]. rewrite IH. simpl. by rewrite app_nil_r.
  - case_decide; [|done]. rewrite IH. done.
Qed.

Lemma getattr_truthy (v x : value) (a : string) :
  getattr v a = Ok x -> truthy v = true.
Proof.
  unfold getattr. destruct v as [| | | | | | |kvs]; try done.
  by destruct kvs.
Qed.

(** The parameters.  Take a coupon whose [applies_to.products] is a list
    of product ids of which at least one does not resolve in the mapper
    (no entry in the products table), and whose metadata, if any, is a
    mapping.
    Building its creation parameters succeeds: the coupon is not skipped.
    Each id that does not resolve is left out with one warning, in order;
    each id that resolves is replaced by its test id, in order; and when
    none resolves the parameters have no [applies_to] key at all. *)
Theorem coupon_drops_unmapped_products (m : IDMapper)
    (prod_entity applies_to : value) (pids : list string) :
  getattr prod_entity "applies_to" = Ok applies_to ->
  getattr applies_to "products" = Ok (VList (VStr <$> pids)) ->
  Exists (fun pid => resolve m pid = None) pids ->
  metadata_is_mapping prod_entity = true ->
  exists params,
    Coupon.get_create_params m prod_entity
    = (unresolved_warning <$> filter (fun pid => resolve m pid = None) pids,
       Ok params)
    /\ dict_get "applies_to" params
       = match omap (resolve m) pids with
         | [] => None
         | test_ids => Some (VDict [("products", VList (VStr <$> test_ids))])
         end.
Proof.
  intros Happlies Hproducts Hsome Hmeta.
  unfold Coupon.get_create_params.
  set (params0 := copy_truthy prod_entity "redeem_by" _).
  assert (dict_get "applies_to" params0 = None) as Hfresh.
  { unfold params0, Coupon.copy_discount.
    rewrite !dict_get_copy_truthy, dict_get_copy_present by done.
    repeat match goal with
           | |- context [if ?b then _ else _] => destruct b
           end;
      rewrite ?dict_get_copy_present, ?dict_get_set_ne by done; done. }
  unfold Coupon.copy_applies_to, has_truthy, getattr_or.
  rewrite Happlies, (getattr_truthy _ _ _ Hproducts), Hproducts.
  assert (truthy (VList (VStr <$> pids)) = true) as ->.
  { destruct pids; [by apply Exists_nil in Hsome | done]. }
  unfold mbind at 1, logged_bind. simpl py_iter. unfold quiet at 1.
  unfold mbind at 1, logged_bind.
  rewrite map_product_ids_resolves.
  set (warnings := unresolved_warning <$> _).
  destruct (omap (resolve m) pids) as [|t ts] eqn:Hids; simpl.
  - destruct (copy_metadata_succeeds prod_entity params0 Hmeta) as [p Hp].
    rewrite Hp. unfold quiet. exists p. rewrite !app_nil_r. split; [done|].
    by rewrite (dict_get_copy_metadata "applies_to" _ _ _ ltac:(done) Hp).
  - set (params1 := dict_set "applies_to" _ params0).
    destruct (copy_metadata_succeeds prod_entity params1 Hmeta) as [p Hp].
    rewrite Hp. unfold quiet. exists p. rewrite !app_nil_r. split; [done|].
    rewrite (dict_get_copy_metadata "applies_to" _ _ _ ltac:(done) Hp).
    unfold params1. by rewrite dict_get_set_eq.
Qed.

(** ** Prices compared by their characteristics *)

Lemma py_eq_none_l (x : value) : x ≠ VNone -> py_eq VNone x = false.
Proof. by destruct x. Qed.

Lemma py_eq_none_r (x : value) : x ≠ VNone -> py_eq x VNone = false.
Proof. by destruct x. Qed.

Lemma has_not_none_getattr (e : value) (a : string) :
  has_not_none e a = true -> exists x, getattr e a = Ok x /\ x ≠ VNone.
Proof.
  unfold has_not_none. destruct (getattr e a) as [x|]; [|done].
  destruct x; try done; eauto.
Qed.

Lemma attr_is_none_getattr (e : value) (a : string) :
  attr_is_none e a = true -> getattr e a = Ok VNone.
Proof.
  unfold attr_is_none. destruct (getattr e a) as [x|]; [|done].
  by destruct x.
Qed.

(** C8.  In the structural strategy of the price matcher, take a
    production price and a candidate test price as the API returns them:
    on both, the attributes the strategy reads are present (product,
    currency, unit_amount, and interval and interval_count inside a
    recurring block), an attribute without a value being [None].
    If the candidate has [None] where it is compared with a value of the
    production price (its product; its currency or its unit_amount against
    one that is not [None]; its recurring block, [None] or absent, against a
    recurring production price; the interval or the interval count of its
    recurring block against one that is not [None]), the comparison
    answers "different" without raising, and the loop passes over the
    candidate: the search goes on with the candidates that follow. *)
Theorem null_attribute_fails_its_check (prod_entity test_entity : value)
    (test_product_id : string) (rest : list value) :
  complete_price prod_entity = true ->
  complete_price test_entity = true ->
  null_where_compared prod_entity test_entity = true ->
  Price.same_characteristics prod_entity test_product_id test_entity = Ok false
  /\ find_first (Price.same_characteristics prod_entity test_product_id)
       (test_entity :: rest)
     = find_first (Price.same_characteristics prod_entity test_product_id) rest.
Proof.
  unfold complete_price.
  intros Hprod Htest Hnull.
  assert (Price.same_characteristics prod_entity test_product_id test_entity
          = Ok false) as Hskip; [|by simpl; rewrite Hskip].
  apply andb_true_iff in Hprod as [Hprod Hpr].
  apply andb_true_iff in Hprod as [Hprod [pa Hpa]%hasattr_getattr].
  apply andb_true_iff in Hprod as [_ [pc Hpc]%hasattr_getattr].
  apply andb_true_iff in Htest as [Htest Htr].
  apply andb_true_iff in Htest as [Htest [ta Hta]%hasattr_getattr].
  apply andb_true_iff in Htest as [[tp Htp]%hasattr_getattr
                                     [tc Htc]%hasattr_getattr].
  unfold null_where_compared, attr_is_none, has_not_none in Hnull.
  unfold Price.same_characteristics, Price.product_ref, has_not_none.
  rewrite Htp, Htc, Hta, Hpc, Hpa in *. simpl.
  set (prod_recurring := getattr_or prod_entity "recurring" VNone) in *.
  set (test_recurring := getattr_or test_entity "recurring" VNone) in *.
  clearbody prod_recurring test_recurring.
  (* Same product *)
  assert (exists test_prod,
            (if hasattr tp "id" then getattr tp "id" else Ok tp) = Ok test_prod
            /\ (py_eq test_prod (VStr test_product_id) = true ->
                match tp with VNone => true | _ => false end = false))
    as (test_prod & -> & Hproduct).
  { destruct (hasattr tp "id") eqn:Hid.
    - apply hasattr_getattr in Hid as [x Hx]. exists x. split; [done|].
      by destruct tp.
    - exists tp. split; [done|]. by destruct tp. }
  simpl. destruct (py_eq test_prod (VStr test_product_id)); simpl; [|done].
  rewrite Hproduct in Hnull by done.
  (* Same currency and amount *)
  destruct (py_eq tc pc) eqn:Hcurrency; simpl; [|done].
  assert (match tc with VNone => true | _ => false end
          && match pc with VNone => false | _ => true end = false) as Hn.
  { destruct tc; try done. by destruct pc. }
  rewrite Hn in Hnull. clear Hn.
  assert (exists amount_differs,
            (if match pa with VNone => false | _ => true end
             then Ok (negb (py_eq ta pa)) else Ok false) = Ok amount_differs
            /\ (amount_differs = false ->
                match ta with VNone => true | _ => false end
                && match pa with VNone => false | _ => true end = false))
    as (amount_differs & -> & Hamount).
  { destruct pa; eexists; (split; [done|]); try by rewrite andb_false_r.
    all: destruct ta; done. }
  simpl. destruct amount_differs; [done|].
  rewrite Hamount in Hnull by done.
  (* Same recurrence *)
  destruct (truthy prod_recurring) eqn:Hp, (truthy test_recurring) eqn:Ht;
    simpl in *; try done.
  apply andb_true_iff in Hpr as [[pi Hpi]%hasattr_getattr Hpn].
  apply andb_true_iff in Htr as [[ti Hti]%hasattr_getattr
                                   [tn Htn]%hasattr_getattr].
  unfold Price.recurrence_differs. rewrite Hpn.
  apply hasattr_getattr in Hpn as [pn Hpn].
  rewrite Hpi, Hti, Hpn, Htn in *. simpl.
  destruct (py_eq pi ti) eqn:Hinterval; simpl; [|done].
  destruct (py_eq pn tn) eqn:Hcount; simpl; [|done].
  destruct ti; try done; destruct pi; try done;
    destruct tn; try done; destruct pn; done.
Qed.

(** * The scenarios, run *)

Import Scenario.

(** Closed equations between evaluated scenarios are settled by running
    them. *)
Ltac evaluated :=
  cbv zeta; repeat apply conj;
  match goal with
  | |- ?a = ?b => vm_cast_no_check (@eq_refl _ b)
  | |- ?a <> ?b => vm_compute; discriminate
  end.

(** ** Idempotence *)


Lemma tagged_run_creates_nothing_witness :
  let r := account (run "products" false widget_accounts).1 in
  (ProductCopier ∈ copiers
   /\ @stripe_list Mem.api "products" Mem.live_key
        [("limit", VInt 100)] r = (r, inr [widget])
   /\ @stripe_list Mem.api "products" Mem.sandbox_key
        [("limit", VInt 100)] r = (r, inr [widget_copy])
   /\ counters (mapper (world r)) "products" = Some (0, 0, 0))
  /\ exists w' st u' e',
       copy (api := Mem.api) (Mem.client false) ProductCopier [] (world r)
       = (w', Ok st)
       /\ st !! "created" = Some 0
       /\ counters (mapper w') "products" = Some (0, u', e').
Proof.
  intros r.
  assert (ProductCopier ∈ copiers) as H1 by (unfold copiers; set_solver).
  assert (@stripe_list Mem.api "products" Mem.live_key
            [("limit", VInt 100)] r = (r, inr [widget])) as H2
    by (vm_compute; reflexivity).
  assert (@stripe_list Mem.api "products" Mem.sandbox_key
            [("limit", VInt 100)] r = (r, inr [widget_copy])) as H3
    by (vm_compute; reflexivity).
  assert (counters (mapper (world r)) "products" = Some (0, 0, 0)) as H4
    by (vm_compute; reflexivity).
  split; [repeat split; assumption|].
  refine (proj2 (tagged_run_creates_nothing (api := Mem.api) (Mem.client false)
           ProductCopier [] (world r) r r [widget] [widget_copy] 0 0
           H1 H2 H3 _ _ H4)).
  - apply Forall_cons_2; [|apply Forall_nil_2].
    exists "prod_A". split; [reflexivity|].
    exists widget_copy. split; [apply list_elem_of_here | reflexivity].
  - apply Forall_cons_2; [reflexivity | apply Forall_nil_2].
Defined.

(** ** Counting *)

(** A production price that an existing test price already stands for is
    processed without any of the three counters moving. *)
Lemma matched_price_moves_no_counter :
  let w := world shop in
  let out :=
    copy_step (api := Mem.api) (Mem.client false) PriceCopier [tagged_price]
      price_1 w in
  out.2 = Ok tt
  /\ counters (mapper w) "prices" = Some (0, 0, 0)
  /\ counters (mapper out.1) "prices" = Some (0, 0, 0).
Proof. evaluated. Qed.

Lemma copy_step_counts_at_most_once_witness :
  (hasattr widget "id" = true
   /\ counters (mapper (world widget_accounts)) "products" = Some (0, 0, 0))
  /\ exists w',
       copy_step (api := Mem.api) (Mem.client false) ProductCopier [] widget
         (world widget_accounts) = (w', Ok tt)
       /\ let now := counters (mapper w') "products" in
          now = Some (0 + 1, 0, 0)
          \/ now = Some (0, 0 + 1, 0)
          \/ now = Some (0, 0, 0 + 1)
          \/ (now = Some (0, 0, 0)
              /\ can_update ProductCopier = false
              /\ exists existing,
                   find_existing ProductCopier (mapper (world widget_accounts))
                     widget [] = Ok existing
                   /\ truthy existing = true).
Proof.
  assert (hasattr widget "id" = true) as H1 by reflexivity.
  assert (counters (mapper (world widget_accounts)) "products"
          = Some (0, 0, 0)) as H2 by (vm_compute; reflexivity).
  split; [done|].
  exact (copy_step_counts_at_most_once (api := Mem.api) (Mem.client false)
           ProductCopier [] widget (world widget_accounts) 0 0 0 H1 H2).
Defined.

(** ** The example of the specification *)

Lemma widget_is_created_once_witness :
  (dry_run (Mem.client false) = false
   /\ mapper (world widget_accounts) = IDMapper_init
   /\ str_id widget_copy = Ok "products_0")
  /\ exists w',
       copy (api := Mem.api) (Mem.client false) ProductCopier []
         (world widget_accounts)
       = (w', Ok {[ "created" := 1; "updated" := 0; "errors" := 0 ]})
       /\ calls w' =
          ([] ++
           [ ApiList "products" Mem.live_key [("limit", VInt 100)];
             ApiList "products" Mem.sandbox_key [("limit", VInt 100)];
             ApiCreate "products" Mem.sandbox_key
               [("name", VStr "Widget");
                ("metadata", VDict [("prod_id", VStr "prod_A")])] ])%list
       /\ mappings (mapper w')
          = <["products" := {[ "prod_A" := "products_0" ]}]>
              (mappings IDMapper_init)
       /\ counters (mapper w') "products" = Some (1, 0, 0).
Proof.
  split; [done|].
  apply (widget_is_created_once (api := Mem.api) (Mem.client false)
           (world widget_accounts) widget_accounts widget_accounts
           widget_copied widget_copy "products_0");
    vm_compute; reflexivity.
Defined.

(** C3, on the code.  In dry-run mode the same example (one production
    product, no test product) does not end as the claim says: the wrapper
    answers the creation with a plain [dict], [create_in_test] fails on
    reading its [id], and the record is counted as an error.  The run
    returns [{created: 0, updated: 0, errors: 1}], records no mapping, and
    (this much of the claim holds) sends nothing but the two listings to
    the remote service. *)
Theorem dry_run_widget_is_counted_as_error :
  let out :=
    copy (api := Mem.api) (Mem.client true) ProductCopier []
      (world widget_accounts) in
  out.2 = Ok {[ "created" := 0; "updated" := 0; "errors" := 1 ]}
  /\ mappings (mapper out.1) = mappings IDMapper_init
  /\ calls out.1 =
     [ ApiList "products" Mem.live_key [("limit", VInt 100)];
       ApiList "products" Mem.sandbox_key [("limit", VInt 100)] ]
  /\ account out.1 = widget_accounts.
Proof. evaluated. Qed.

(** ** Prices *)

Lemma price_without_product_counts_one_error_witness :
  (hasattr price_1 "id" = true
   /\ Price.product_ref price_1 = Ok (VStr "prod_A")
   /\ get_test_id "products" (VStr "prod_A") (mapper (world shop)) = Ok None
   /\ Price.find_existing (mapper (world shop)) price_1 [] = Ok VNone
   /\ counters (mapper (world shop)) "prices" = Some (0, 0, 0))
  /\ let counted_error :=
       @mkWorld Mem.api
         (increment_stat "prices" "errors" (mapper (world shop)))
         (account (world shop)) (calls (world shop)) (warnings (world shop)) in
     counters (mapper counted_error) "prices" = Some (0, 0, 0 + 1)
     /\ mappings (mapper counted_error) = mappings (mapper (world shop))
     /\ copy_step (Mem.client false) PriceCopier [] price_1 (world shop)
        = (counted_error, Ok tt)
     /\ copy_loop (Mem.client false) PriceCopier [price_1; price_1] []
          (world shop)
        = copy_loop (Mem.client false) PriceCopier [price_1] [] counted_error.
Proof.
  assert (hasattr price_1 "id" = true) as H1 by reflexivity.
  assert (Price.product_ref price_1 = Ok (VStr "prod_A")) as H2 by reflexivity.
  assert (get_test_id "products" (VStr "prod_A") (mapper (world shop))
          = Ok None) as H3 by (vm_compute; reflexivity).
  assert (Price.find_existing (mapper (world shop)) price_1 [] = Ok VNone)
    as H4 by (vm_compute; reflexivity).
  assert (counters (mapper (world shop)) "prices" = Some (0, 0, 0)) as H5
    by (vm_compute; reflexivity).
  split; [done|].
  apply (price_without_product_counts_one_error (api := Mem.api)
           (Mem.client false) [] [price_1] price_1 (VStr "prod_A")
           (world shop) 0 0 0 H1 H2 H3); [|exact H5].
  exists VNone. split; [exact H4 | reflexivity].
Defined.

(** An object with no [currency] attribute at all, which is not what a
    listing returns, is not passed over: reading the attribute raises, and
    the search fails. *)
Lemma price_without_currency_raises :
  Price.find_existing mapped price_1 [price_without_currency]
  = Raise (AttributeError "currency").
Proof. evaluated. Qed.

Lemma null_attribute_fails_its_check_witness :
  (complete_price price_1 = true
   /\ complete_price price_null_currency = true
   /\ null_where_compared price_1 price_null_currency = true)
  /\ Price.same_characteristics price_1 "prod_T" price_null_currency = Ok false
  /\ find_first (Price.same_characteristics price_1 "prod_T")
       [price_null_currency; tagged_price]
     = find_first (Price.same_characteristics price_1 "prod_T") [tagged_price].
Proof.
  split; [done|].
  apply (null_attribute_fails_its_check price_1 price_null_currency "prod_T"
           [tagged_price]); reflexivity.
Defined.

(** ** Coupons *)

Lemma coupon_drops_unmapped_products_witness :
  (getattr coupon_1 "applies_to" = Ok restriction
   /\ getattr restriction "products" = Ok (VList (VStr <$> ["prod_A"; "prod_X"]))
   /\ resolve mapped "prod_X" = None
   /\ metadata_is_mapping coupon_1 = true)
  /\ exists params,
       Coupon.get_create_params mapped coupon_1
       = (unresolved_warning <$>
            filter (fun pid => resolve mapped pid = None) ["prod_A"; "prod_X"],
          Ok params)
       /\ dict_get "applies_to" params
          = match omap (resolve mapped) ["prod_A"; "prod_X"] with
            | [] => None
            | test_ids => Some (VDict [("products", VList (VStr <$> test_ids))])
            end.
Proof.
  assert (resolve mapped "prod_X" = None) as H3 by (vm_compute; reflexivity).
  split; [done|].
  apply (coupon_drops_unmapped_products mapped coupon_1 restriction
           ["prod_A"; "prod_X"]); [reflexivity | reflexivity | | reflexivity].
  apply Exists_cons_tl, Exists_cons_hd. exact H3.
Defined.

(** ** Empty listings *)

Lemma copy_empty_listing_returns_zeros_witness :
  let w := @mkWorld Mem.api busy (Mem.holding [] []) [] [] in
  (ProductCopier ∈ copiers
   /\ counters busy "products" = Some (1, 0, 1)
   /\ @stripe_list Mem.api "products" Mem.live_key [("limit", VInt 100)]
        (account w) = (account w, inr []))
  /\ copy (Mem.client false) ProductCopier [] w
     = (@mkWorld Mem.api busy (Mem.holding [] [])
          [ ApiList "products" Mem.live_key [("limit", VInt 100)];
            ApiList "products" Mem.sandbox_key [("limit", VInt 100)] ] [],
        Ok zero_stats).
Proof.
  intros w.
  assert (ProductCopier ∈ copiers) as H1 by (unfold copiers; set_solver).
  assert (@stripe_list Mem.api "products" Mem.live_key [("limit", VInt 100)]
            (account w) = (account w, inr [])) as H2
    by (vm_compute; reflexivity).
  assert (@stripe_list Mem.api "products" Mem.sandbox_key
            [("limit", VInt 100)] (account w) = (account w, inr [])) as H3
    by (vm_compute; reflexivity).
  split; [split; [done | split; [vm_compute; reflexivity | exact H2]]|].
  exact (proj1 (copy_empty_listing_returns_zeros (api := Mem.api)
                  (Mem.client false) ProductCopier [] w (account w) (account w)
                  [] [] H1 H2 H3) eq_refl).
Defined.

(** ** The order of the kinds *)

(** The names kept are the known ones, in the order they were requested. *)
Lemma select_entities_keeps_order (requested_entities : list string) :
  (select_entities requested_entities).2
  = Ok (List.filter
          (fun entity => bool_decide (is_Some (copier_named entity copiers_map)))
          requested_entities).
Proof.
  induction requested_entities as [|entity rest IH]; [done|].
  cbn [select_entities List.filter].
  destruct (copier_named entity copiers_map) as [c|].
  - rewrite bool_decide_eq_true_2 by eauto.
    unfold mbind, logged_bind. destruct (select_entities rest) as [l r].
    cbn [snd] in IH. subst r. done.
  - rewrite bool_decide_eq_false_2 by (by intros [? ?]).
    unfold mbind, logged_bind, warn. destruct (select_entities rest) as [l r].
    cbn [snd] in IH. subst r. done.
Qed.

(** C7, on the code.  Requested as [prices,products], the two kinds are run
    in that order: the listings of prices reach the remote service before
    anything about products does.  The one production price then fails for
    want of its product, which is copied only afterwards, and the run ends
    with exit code 1.  Requested in the default order, the same accounts
    are copied without error. *)
Theorem prices_requested_first_run_first :
  entities_to_copy "prices,products" = ([], Ok ["prices"; "products"])
  /\ (let out := run "prices,products" false shop in
      calls out.1 =
      [ ApiList "prices" Mem.live_key [("limit", VInt 100)];
        ApiList "prices" Mem.sandbox_key [("limit", VInt 100)];
        ApiList "products" Mem.live_key [("limit", VInt 100)];
        ApiList "products" Mem.sandbox_key [("limit", VInt 100)];
        ApiCreate "products" Mem.sandbox_key
          [("name", VStr "Widget");
           ("metadata", VDict [("prod_id", VStr "prod_A")])] ]
      /\ counters (mapper out.1) "prices" = Some (0, 0, 1)
      /\ counters (mapper out.1) "products" = Some (1, 0, 0)
      /\ out.2 = 1)
  /\ (let out := run "tax_rates,products,prices,coupons" false shop in
      counters (mapper out.1) "prices" = Some (1, 0, 0)
      /\ counters (mapper out.1) "products" = Some (1, 0, 0)
      /\ out.2 = 0).
Proof. evaluated. Qed.

(** * Further properties *)

Ltac by_vm :=
  match goal with |- ?a = ?b => vm_cast_no_check (@eq_refl _ b) end.

(** ** The mapper *)

(** X1.  Insert, then look up: once [add_mapping] has accepted a pair,
    [get_test_id] for that resource type and production id returns the
    test id just given (an earlier entry for the id is overwritten), every
    other lookup returns what it returned before, and the statistics are
    untouched. *)
Theorem add_mapping_then_get_test_id (resource_type prod_id test_id : string)
    (m m' : IDMapper) :
  add_mapping resource_type prod_id test_id m = Ok m' ->
  get_test_id resource_type (VStr prod_id) m' = Ok (Some test_id)
  /\ (forall other_type other_id,
        (other_type, other_id) <> (resource_type, prod_id) ->
        get_test_id other_type (VStr other_id) m'
        = get_test_id other_type (VStr other_id) m)
  /\ stats m' = stats m.
Proof.
  unfold add_mapping.
  destruct (mappings m !! resource_type) as [tbl|] eqn:Htbl; [|done].
  intros [= <-]. unfold get_test_id. cbn [mappings stats].
  split; [|split; [|done]].
  - rewrite lookup_insert_eq. unfold default; cbn [from_option id].
    by rewrite lookup_insert_eq.
  - intros other_type other_id Hne. f_equal.
    destruct (decide (other_type = resource_type)) as [->|Hk].
    + rewrite lookup_insert_eq, Htbl. unfold default; cbn [from_option id].
      rewrite lookup_insert_ne; [done|]. congruence.
    + by rewrite lookup_insert_ne.
Qed.

Lemma add_mapping_then_get_test_id_witness :
  add_mapping "products" "prod_A" "prod_T" IDMapper_init = Ok Scenario.mapped
  /\ get_test_id "products" (VStr "prod_A") Scenario.mapped = Ok (Some "prod_T")
  /\ (forall other_type other_id,
        (other_type, other_id) <> ("products", "prod_A") ->
        get_test_id other_type (VStr other_id) Scenario.mapped
        = get_test_id other_type (VStr other_id) IDMapper_init)
  /\ stats Scenario.mapped = stats IDMapper_init.
Proof.
  assert (add_mapping "products" "prod_A" "prod_T" IDMapper_init
          = Ok Scenario.mapped) as H by reflexivity.
  exact (conj H (add_mapping_then_get_test_id _ _ _ _ _ H)).
Defined.

(** X2.  The mapper of a new run knows exactly the four resource types of
    [IDMapper.__init__]: [add_mapping] accepts a pair for each of them, and
    for any other name it raises [ValueError] with the message
    "Unknown resource type: <name>", whereas [get_test_id] for such a name
    does not raise and returns [None]. *)
Theorem add_mapping_knows_four_kinds (resource_type prod_id test_id : string) :
  (resource_type ∈ ["tax_rates"; "products"; "prices"; "coupons"] ->
   exists m', add_mapping resource_type prod_id test_id IDMapper_init = Ok m')
  /\ (resource_type ∉ ["tax_rates"; "products"; "prices"; "coupons"] ->
      add_mapping resource_type prod_id test_id IDMapper_init
      = Raise (ValueError ("Unknown resource type: " +:+ resource_type))
      /\ get_test_id resource_type (VStr prod_id) IDMapper_init = Ok None).
Proof.
  split.
  - intros Hin. set_unfold.
    destruct Hin as [->|[->|[->|[->|[]]]]]; eexists; reflexivity.
  - intros Hout. unfold add_mapping, get_test_id.
    assert (mappings IDMapper_init !! resource_type = None) as ->; [|done].
    unfold IDMapper_init. cbn [mappings].
    repeat (rewrite lookup_insert_ne by (intros <-; apply Hout; set_solver)).
    apply lookup_singleton_ne. intros <-. apply Hout. set_solver.
Qed.

(** X3.  [increment_stat] leaves the mappings alone and moves at most one
    counter: the counter it names goes up by one when it exists, and every
    other counter of every resource type reads as before.  Naming a
    resource type or a counter that does not exist changes nothing. *)
Theorem increment_stat_touches_one_counter (resource_type stat_type : string)
    (m : IDMapper) (other_type other_stat : string) :
  mappings (increment_stat resource_type stat_type m) = mappings m
  /\ counter (increment_stat resource_type stat_type m) other_type other_stat
     = if decide (other_type = resource_type /\ other_stat = stat_type)
       then Z.succ <$> counter m resource_type stat_type
       else counter m other_type other_stat.
Proof.
  unfold increment_stat, counter.
  destruct (stats m !! resource_type) as [st|] eqn:Hst; simpl.
  - destruct (st !! stat_type) as [n|] eqn:Hn; simpl.
    + split; [done|]. case_decide as Hd.
      * destruct Hd as [-> ->]. rewrite lookup_insert_eq. simpl.
        rewrite lookup_insert_eq. simpl. f_equal; lia.
      * destruct (decide (other_type = resource_type)) as [->|Hk].
        -- rewrite lookup_insert_eq, Hst. simpl.
           rewrite lookup_insert_ne; [done|]. naive_solver.
        -- by rewrite lookup_insert_ne.
    + split; [done|]. case_decide as Hd; [|done].
      destruct Hd as [-> ->]. by rewrite Hst; simpl; rewrite Hn.
  - split; [done|]. case_decide as Hd; [|done].
    destruct Hd as [-> ->]. by rewrite Hst.
Qed.

(** X4.  [get_prod_id] is a reverse lookup: a production id it returns is
    one that [get_test_id] maps to the test id asked for, and it returns
    [None] only when no production id of that resource type is mapped to
    it. *)
Theorem get_prod_id_is_a_reverse_lookup (resource_type test_id : string)
    (m : IDMapper) :
  match get_prod_id resource_type test_id m with
  | Some prod_id =>
      get_test_id resource_type (VStr prod_id) m = Ok (Some test_id)
  | None =>
      forall prod_id,
        get_test_id resource_type (VStr prod_id) m <> Ok (Some test_id)
  end.
Proof.
  unfold get_prod_id, get_test_id.
  set (tbl := default ∅ (mappings m !! resource_type)).
  destruct (List.find _ (map_to_list tbl)) as [[p t]|] eqn:Hfind; simpl.
  - apply find_some in Hfind as [Hin Heq]. simpl in Heq.
    apply String.eqb_eq in Heq as ->.
    apply list_elem_of_In, elem_of_map_to_list in Hin. by rewrite Hin.
  - intros prod_id [= Hp].
    apply elem_of_map_to_list, list_elem_of_In in Hp.
    apply (find_none _ _ Hfind) in Hp. simpl in Hp.
    by rewrite String.eqb_refl in Hp.
Qed.

Lemma get_summary_four_records (m : IDMapper)
    (tax_rates products prices coupons : Z * Z * Z) :
  stats m = four_records tax_rates products prices coupons ->
  get_summary m
  = Ok (record_of
          (tax_rates.1.1 + products.1.1 + prices.1.1 + coupons.1.1,
           tax_rates.1.2 + products.1.2 + prices.1.2 + coupons.1.2,
           tax_rates.2 + products.2 + prices.2 + coupons.2)).
Proof.
  intros Hm. unfold get_summary, add_stats. rewrite Hm.
  destruct tax_rates as [[c1 u1] e1], products as [[c2 u2] e2],
    prices as [[c3 u3] e3], coupons as [[c4 u4] e4].
  transitivity
    (Ok (A := gmap string Z)
       (record_of (0 + c3 + c2 + c1 + c4, 0 + u3 + u2 + u1 + u4,
                   0 + e3 + e2 + e1 + e4))).
  - generalize Z.add. intros plus. vm_compute. reflexivity.
  - cbn [fst snd]. do 2 f_equal. f_equal; [f_equal|]; lia.
Qed.

(** X5.  On statistics laid out as [IDMapper.__init__] lays them out (one
    record of three counters for each of the four resource types),
    [get_summary] does not raise and returns the record whose created,
    updated and errors entries are the sums of those counters over the
    four types. *)
Theorem get_summary_adds_up (m : IDMapper)
    (tax_rates products prices coupons : Z * Z * Z) :
  stats m = four_records tax_rates products prices coupons ->
  get_summary m
  = Ok (record_of
          (tax_rates.1.1 + products.1.1 + prices.1.1 + coupons.1.1,
           tax_rates.1.2 + products.1.2 + prices.1.2 + coupons.1.2,
           tax_rates.2 + products.2 + prices.2 + coupons.2)).
Proof. apply get_summary_four_records. Qed.

Lemma get_summary_adds_up_witness :
  stats Scenario.busy = four_records (0, 0, 0) (1, 0, 1) (0, 0, 0) (0, 0, 0)
  /\ get_summary Scenario.busy = Ok (record_of (1, 0, 1)).
Proof.
  assert (stats Scenario.busy
          = four_records (0, 0, 0) (1, 0, 1) (0, 0, 0) (0, 0, 0)) as H
    by by_vm.
  exact (conj H (get_summary_adds_up Scenario.busy _ _ _ _ H)).
Defined.

(** ** The configuration *)

Lemma nonempty_Some (o : option string) (s : string) :
  nonempty o = Some s <-> o = Some s /\ s <> "".
Proof.
  destruct o as [[|c t]|]; simpl; split; try done.
  - by intros [[= <-] ?].
  - by intros [= <-].
  - by intros [[= <-] _].
  - by intros [? ?].
Qed.

Lemma Config_init_accepted (getenv : string -> option string) (config : Config) :
  Config_init getenv = inr config ->
  getenv "STRIPE_SECRET_KEY" = Some (stripe_prod_key config)
  /\ getenv "STRIPE_SECRET_KEY_TEST" = Some (stripe_test_key config)
  /\ stripe_prod_key config <> ""
  /\ String.prefix "sk_test_" (stripe_test_key config) = true
  /\ stripe_prod_key config <> stripe_test_key config.
Proof.
  unfold Config_init, _validate. destruct config as [p t].
  cbn [stripe_prod_key stripe_test_key].
  destruct (nonempty (getenv "STRIPE_SECRET_KEY")) as [p'|] eqn:Hp; [|done].
  destruct (nonempty (getenv "STRIPE_SECRET_KEY_TEST")) as [t'|] eqn:Ht;
    [|done].
  apply nonempty_Some in Hp as [Hp ?], Ht as [Ht ?].
  destruct (String.prefix "sk_test_" t') eqn:Hpre; [|done]. simpl.
  destruct (String.eqb p' t') eqn:Heq; [done|].
  rewrite Hp, Ht. simpl. intros [= <- <-].
  apply String.eqb_neq in Heq. done.
Qed.

(** X6.  A configuration is accepted exactly when both variables are set,
    the production key is not empty, the test key starts with [sk_test_]
    and the two keys differ; the accepted configuration holds the two
    values as they were read.  Nothing is asked of the form of the
    production key. *)
Theorem config_is_accepted_iff (getenv : string -> option string)
    (config : Config) :
  Config_init getenv = inr config
  <-> getenv "STRIPE_SECRET_KEY" = Some (stripe_prod_key config)
      /\ getenv "STRIPE_SECRET_KEY_TEST" = Some (stripe_test_key config)
      /\ stripe_prod_key config <> ""
      /\ String.prefix "sk_test_" (stripe_test_key config) = true
      /\ stripe_prod_key config <> stripe_test_key config.
Proof.
  split; [apply Config_init_accepted|].
  unfold Config_init, _validate. destruct config as [p t].
  cbn [stripe_prod_key stripe_test_key].
  intros (Hp & Ht & Hne & Hpre & Hdiff).
  assert (t <> "") as Hnt by (by intros ->).
  rewrite (proj2 (nonempty_Some _ p)), (proj2 (nonempty_Some _ t)) by done.
  rewrite Hpre. simpl.
  rewrite (proj2 (String.eqb_neq p t)) by done.
  by rewrite Hp, Ht.
Qed.

(** ** The page loop *)

Section PageFacts.
Context {R : Type}.
Variable list_method :
  string -> dict -> R -> R * (string + (list value * bool)).

(** X7.  If the service answers the request of the current cursor with an
    empty page that is not the last one, and is left as it was, the page
    loop never ends: the cursor is not moved, the same request is made
    again, and whatever the number of passes allowed the loop has not
    returned. *)
Theorem empty_page_with_more_never_ends (resource api_key : string)
    (params : dict) (starting_after : value) (all_items : list value) (r : R) :
  list_method api_key (page_params params starting_after) r
    = (r, inr ([], true)) ->
  forall fuel,
    list_pages list_method fuel resource api_key params starting_after
      all_items r = None.
Proof.
  intros Hpage fuel. revert all_items.
  induction fuel as [|fuel IH]; intros all_items; [done|].
  cbn [list_pages]. rewrite Hpage. cbn [last]. apply IH.
Qed.

Lemma after_cursor_app (pre rest : list value) (ipre : list string)
    (x : value) (i : string) :
  Forall2 (fun x i => getattr x "id" = Ok (VStr i)) pre ipre ->
  i ∉ ipre ->
  getattr x "id" = Ok (VStr i) ->
  after_cursor (VStr i) (pre ++ x :: rest) = rest.
Proof.
  intros Hpre. revert i. induction Hpre as [|y j pre ipre Hy _ IH];
    intros i Hi Hx; cbn [app after_cursor]; unfold id_is.
  - rewrite Hx. cbn [py_eq]. by rewrite String.eqb_refl.
  - rewrite Hy. cbn [py_eq].
    apply not_elem_of_cons in Hi as [Hne Hi].
    rewrite (proj2 (String.eqb_neq j i)) by done.
    by apply IH.
Qed.

Lemma page_params_cursor (params : dict) (starting_after : value) :
  dict_get "starting_after" params = None ->
  dict_get "starting_after" (page_params params starting_after)
  = if truthy starting_after then Some starting_after else None.
Proof.
  intros Hno. unfold page_params, dict_update. cbn [fold_left fst snd].
  destruct (truthy starting_after).
  - apply dict_get_set_eq.
  - by rewrite dict_get_set_ne.
Qed.

(** The state of the loop between two passes: [done] has been collected,
    [rem] is still to come, and the cursor names the last record of
    [done]. *)
Lemma list_pages_collects (resource api_key : string) (params : dict)
    (size : nat) (items : list value) (ids : list string) :
  (0 < size)%nat ->
  dict_get "starting_after" params = None ->
  Forall2 (fun x i => getattr x "id" = Ok (VStr i)) items ids ->
  NoDup ids ->
  "" ∉ ids ->
  (forall list_params r,
     (list_method api_key list_params r).2
     = inr (served size items list_params)) ->
  forall fuel done rem cursor all_items r,
    items = (done ++ rem)%list ->
    (length rem < fuel)%nat ->
    match last done with
    | None => cursor = VNone
    | Some x => getattr x "id" = Ok cursor
    end ->
    exists r',
      list_pages list_method fuel resource api_key params cursor all_items r
      = Some (r', Ok (all_items ++ rem)%list).
Proof.
  intros Hsize Hno Hids Hnodup Hempty Hserve.
  induction fuel as [|fuel IH]; intros done rem cursor all_items r Hitems Hlen
    Hcursor; [lia|].
  cbn [list_pages].
  pose proof (Hserve (page_params params cursor) r) as Hreq.
  destruct (list_method api_key (page_params params cursor) r)
    as [r1 out]. cbn [snd] in Hreq. subst out.
  assert (served size items (page_params params cursor)
          = (take size rem, (size <? length rem)%nat)) as ->.
  { unfold served. rewrite page_params_cursor by done.
    destruct (last done) as [x|] eqn:Hlast.
    - apply last_Some in Hlast as [pre ->].
      rewrite Hitems in Hids.
      apply Forall2_app_inv_l in Hids as (ids1 & ids2 & Hd & Hrem & ->).
      apply Forall2_app_inv_l in Hd as (ipre & ix & Hpre & Hx & ->).
      apply Forall2_cons_inv_l in Hx as (i & ? & Hx & Hnil & ->).
      apply Forall2_nil_inv_l in Hnil as ->.
      rewrite Hx in Hcursor. injection Hcursor as <-.
      assert (i ≠ "") as Hi.
      { intros ->. apply Hempty. set_solver. }
      cbn [truthy]. rewrite (proj2 (String.eqb_neq i "")) by done.
      cbn [negb]. rewrite Hitems, <- app_assoc. cbn [app].
      rewrite (after_cursor_app pre rem ipre x i); [done|done| |done].
      rewrite <- app_assoc in Hnodup.
      apply NoDup_app in Hnodup as (_ & Hdisj & _).
      intros Hin. apply (Hdisj i Hin). set_solver.
    - apply last_None in Hlast. subst done cursor. cbn [truthy].
      by rewrite Hitems. }
  destruct (size <? length rem)%nat eqn:Hmore.
  - apply Nat.ltb_lt in Hmore.
    destruct (last (take size rem)) as [x|] eqn:Hlast.
    + assert (x ∈ items) as Hx.
      { rewrite Hitems. apply elem_of_app. right.
        apply last_Some in Hlast as [pre Hpre].
        rewrite <- (take_drop size rem), Hpre. set_solver. }
      destruct (proj1 (list_elem_of_lookup _ _) Hx) as [k Hk].
      destruct (Forall2_lookup_l _ _ _ _ _ Hids Hk) as (i & _ & Hid).
      rewrite Hid.
      destruct (IH (done ++ take size rem)%list (drop size rem) (VStr i)
                  (all_items ++ take size rem)%list r1) as [r' Hr'].
      * by rewrite <- app_assoc, take_drop.
      * rewrite length_drop. lia.
      * rewrite last_app, Hlast. done.
      * exists r'. rewrite Hr'. by rewrite <- app_assoc, take_drop.
    + apply last_None in Hlast.
      apply (f_equal length) in Hlast. rewrite length_take in Hlast.
      cbn [length] in Hlast. lia.
  - apply Nat.ltb_ge in Hmore. exists r1. by rewrite take_ge.
Qed.

(** X8.  Against a service that holds a list of records with distinct,
    non-empty string ids and serves it by cursor, at least one record a
    page, the page loop of [list_all] ends and returns every record once,
    in the order of the service: as many passes as there are records, plus
    one, are always enough.  The caller's filters must not themselves set
    [starting_after]. *)
Theorem paged_listing_is_complete (resource api_key : string) (params : dict)
    (size : nat) (items : list value) (ids : list string) (fuel : nat) (r : R) :
  resource ∈ resource_map ->
  (0 < size)%nat ->
  dict_get "starting_after" params = None ->
  Forall2 (fun x i => getattr x "id" = Ok (VStr i)) items ids ->
  NoDup ids ->
  "" ∉ ids ->
  (forall list_params r,
     (list_method api_key list_params r).2
     = inr (served size items list_params)) ->
  (length items < fuel)%nat ->
  exists r',
    list_all_paged list_method fuel resource api_key params r
    = Some (r', Ok items).
Proof.
  intros Hres Hsize Hno Hids Hnodup Hempty Hserve Hfuel.
  unfold list_all_paged. rewrite bool_decide_eq_true_2 by done.
  by apply (list_pages_collects resource api_key params size items ids
              Hsize Hno Hids Hnodup Hempty Hserve fuel [] items VNone [] r).
Qed.

End PageFacts.

Lemma empty_page_with_more_never_ends_witness :
  Cases.stuck "sk_live" (page_params [] VNone) tt = (tt, inr ([], true))
  /\ list_pages Cases.stuck 1000 "products" "sk_live" [] VNone [] tt = None.
Proof.
  split; [reflexivity|].
  apply (empty_page_with_more_never_ends Cases.stuck). reflexivity.
Defined.

Lemma paged_listing_is_complete_witness :
  served 2 Cases.three [("limit", VInt 100)]
    = ([VObj [("id", VStr "a")]; VObj [("id", VStr "b")]], true)
  /\ exists r',
       list_all_paged Cases.pager 4 "products" "sk_live" [] tt
       = Some (r', Ok Cases.three).
Proof.
  split; [reflexivity|].
  apply (paged_listing_is_complete Cases.pager "products" "sk_live" [] 2
           Cases.three ["a"; "b"; "c"] 4 tt).
  - unfold resource_map. apply list_elem_of_here.
  - lia.
  - reflexivity.
  - unfold Cases.three. repeat constructor.
  - apply (bool_decide_unpack _). reflexivity.
  - apply (bool_decide_unpack _). reflexivity.
  - reflexivity.
  - simpl. lia.
Defined.

(** ** What the copiers find *)

Lemma bind_Ok {A B} (r : result A) (k : A -> result B) (b : B) :
  r ≫= k = Ok b -> exists a, r = Ok a /\ k a = Ok b.
Proof. destruct r as [a|e]; [|done]. intros H. by exists a. Qed.

Lemma py_eq_str (v : value) (s : string) :
  py_eq v (VStr s) = true -> v = VStr s.
Proof.
  destruct v; simpl; try done.
  by intros ->%String.eqb_eq.
Qed.

Lemma find_first_Some (p : value -> result bool) (xs : list value) (x : value) :
  find_first p xs = Ok (Some x) -> x ∈ xs /\ p x = Ok true.
Proof.
  induction xs as [|y xs IH]; simpl; [done|].
  destruct (p y) as [[|]|] eqn:Hy; simpl; [| |done].
  - intros [= ->]. split; [constructor|done].
  - intros H. destruct (IH H). split; [by constructor|done].
Qed.

Lemma first_strategy_Ok (strategies : list (result (option value)))
    (t : value) :
  first_strategy strategies = Ok t ->
  t = VNone \/ exists s, s ∈ strategies /\ s = Ok (Some t).
Proof.
  induction strategies as [|s rest IH]; simpl.
  - intros [= <-]. by left.
  - destruct s as [[x|]|]; simpl; [| |done].
    + intros [= ->]. right. exists (Ok (Some t)). split; [constructor|done].
    + intros H. destruct (IH H) as [->|(s & Hs & ->)]; [by left|].
      right. exists (Ok (Some t)). split; [by constructor|done].
Qed.

(** X9.  For each of the four copiers, whatever [find_existing] returns is
    [None] or one of the test records it was given: a match is never made
    up, so what is then updated is a record of the test listing. *)
Theorem find_existing_returns_a_listed_record self (m : IDMapper)
    (prod_entity : value) (test_entities : list value) (t : value) :
  self ∈ copiers ->
  find_existing self m prod_entity test_entities = Ok t ->
  t = VNone \/ t ∈ test_entities.
Proof.
  intros Hself Hfind.
  assert (forall p, find_first p test_entities = Ok (Some t) ->
                    t ∈ test_entities) as Hin.
  { intros p Hp. by apply find_first_Some in Hp as [? _]. }
  unfold copiers in Hself. set_unfold.
  destruct Hself as [->|[->|[->|[->|[]]]]];
    apply first_strategy_Ok in Hfind as [->|(s & Hs & ->)]; try (by left);
    right; set_unfold.
  - destruct Hs as [Hs|[Hs|[]]]; symmetry in Hs; eauto.
  - destruct Hs as [Hs|[Hs|[]]]; symmetry in Hs; eauto.
  - destruct Hs as [Hs|[Hs|[Hs|[]]]]; symmetry in Hs; eauto.
    + destruct (has_truthy prod_entity "lookup_key"); [eauto|done].
    + unfold Price.by_characteristics in Hs.
      apply bind_Ok in Hs as (ref & _ & Hs).
      apply bind_Ok in Hs as (tid & _ & Hs).
      destruct (nonempty tid); [eauto|done].
  - destruct Hs as [Hs|[Hs|[Hs|[]]]]; symmetry in Hs; eauto.
    + apply bind_Ok in Hs as (id & _ & Hs). eauto.
    + destruct (has_truthy prod_entity "name"); [eauto|done].
Qed.

Lemma find_existing_returns_a_listed_record_witness :
  (ProductCopier ∈ copiers
   /\ find_existing ProductCopier IDMapper_init Scenario.gadget_a
        [Scenario.gadget_t] = Ok Scenario.gadget_t)
  /\ (Scenario.gadget_t = VNone \/ Scenario.gadget_t ∈ [Scenario.gadget_t]).
Proof.
  assert (ProductCopier ∈ copiers) as H1
    by (unfold copiers; apply list_elem_of_further, list_elem_of_here).
  assert (find_existing ProductCopier IDMapper_init Scenario.gadget_a
            [Scenario.gadget_t] = Ok Scenario.gadget_t) as H2 by reflexivity.
  exact (conj (conj H1 H2)
           (find_existing_returns_a_listed_record ProductCopier IDMapper_init
              Scenario.gadget_a [Scenario.gadget_t] Scenario.gadget_t H1 H2)).
Defined.

Lemma tagged_with_true (prod_entity t : value) (id other : string) :
  getattr prod_entity "id" = Ok (VStr id) ->
  tagged_with prod_entity t = Ok true ->
  other ≠ id -> tagged other t = false.
Proof.
  unfold tagged_with, tagged. intros Hid H Hother.
  destruct (getattr_or t "metadata" (VDict [])) as [| | | | | |kvs|kvs];
    try done.
  - destruct (truthy (VDict kvs)); [|done]. simpl in *. rewrite Hid in H.
    simpl in H. injection H as H. apply py_eq_str in H. rewrite H. simpl.
    by apply String.eqb_neq.
  - destruct (truthy (VObj kvs)); [|done]. simpl in *. rewrite Hid in H.
    simpl in H. injection H as H. apply py_eq_str in H. rewrite H. simpl.
    by apply String.eqb_neq.
Qed.

Lemma falsy_is_no_id (v : value) (other : string) :
  truthy v = false -> other ≠ "" -> py_eq v (VStr other) = false.
Proof.
  intros Hv Hother. destruct (py_eq v (VStr other)) eqn:H; [|done].
  apply py_eq_str in H. subst v. simpl in Hv.
  apply negb_false_iff, String.eqb_eq in Hv. done.
Qed.

Lemma not_claimed_by_other_true (prod_entity t : value) (id other : string) :
  getattr prod_entity "id" = Ok (VStr id) ->
  not_claimed_by_other prod_entity t = Ok true ->
  other ≠ "" -> other ≠ id -> tagged other t = false.
Proof.
  unfold not_claimed_by_other, tagged. intros Hid H Hne Hother.
  destruct (getattr_or t "metadata" (VDict [])) as [| | | | | |kvs|kvs];
    try done;
    (destruct (truthy _) eqn:Hmd; [|done]); cbn [andb];
    simpl in H;
    (destruct (truthy (default VNone (dict_get "prod_id" kvs))) eqn:Htag;
     simpl in H;
     [ rewrite Hid in H; simpl in H; injection H as H; apply py_eq_str in H;
       rewrite H; simpl; by apply String.eqb_neq
     | by apply falsy_is_no_id ]).
Qed.

(** X10.  A test product returned by [ProductCopier.find_existing] for a
    production product with a string id never carries, as the [prod_id] of
    its metadata, the non-empty id of another production product: the
    first strategy returns records tagged with this very id, and the name
    strategy skips a namesake that another id has claimed. *)
Theorem product_match_is_not_claimed_by_another (m : IDMapper)
    (prod_entity : value) (test_entities : list value) (t : value)
    (id other : string) :
  getattr prod_entity "id" = Ok (VStr id) ->
  Product.find_existing m prod_entity test_entities = Ok t ->
  other ≠ "" -> other ≠ id ->
  tagged other t = false.
Proof.
  intros Hid Hfind Hne Hother.
  apply first_strategy_Ok in Hfind as [->|(s & Hs & ->)]; [done|].
  set_unfold. destruct Hs as [Hs|[Hs|[]]]; symmetry in Hs;
    apply find_first_Some in Hs as [_ Hhit].
  - by apply (tagged_with_true prod_entity t id).
  - unfold Product.same_name in Hhit.
    apply bind_Ok in Hhit as (tn & _ & Hhit).
    apply bind_Ok in Hhit as (pn & _ & Hhit).
    destruct (py_eq tn pn); [|done].
    by apply (not_claimed_by_other_true prod_entity t id).
Qed.

Lemma product_match_is_not_claimed_by_another_witness :
  (getattr Scenario.gadget_a "id" = Ok (VStr "prod_A")
   /\ Product.find_existing IDMapper_init Scenario.gadget_a
        [Scenario.gadget_t] = Ok Scenario.gadget_t)
  /\ tagged "prod_B" Scenario.gadget_t = false.
Proof.
  split; [split; reflexivity|].
  apply (product_match_is_not_claimed_by_another IDMapper_init
           Scenario.gadget_a [Scenario.gadget_t] Scenario.gadget_t
           "prod_A" "prod_B"); (reflexivity || discriminate).
Defined.

(** ** What the copiers build *)

Lemma dict_get_tagged_metadata (k : string) (e : value) (params params' : dict) :
  k ≠ "metadata" -> tagged_metadata e params = Ok params' ->
  dict_get k params' = dict_get k params.
Proof.
  intros Hk. unfold tagged_metadata. destruct (has_truthy e "metadata").
  - destruct (py_dict _); simpl; [|done].
    destruct (getattr e "id"); simpl; [|done]. intros [= <-].
    by apply dict_get_set_ne.
  - by intros [= <-].
Qed.

Lemma tagged_metadata_tags (e : value) (params params' : dict) :
  dict_get "metadata" params = None ->
  tagged_metadata e params = Ok params' ->
  match dict_get "metadata" params' with
  | Some metadata =>
      has_truthy e "metadata" = true
      /\ exists kvs id,
           metadata = VDict kvs /\ getattr e "id" = Ok id
           /\ dict_get "prod_id" kvs = Some id
  | None => has_truthy e "metadata" = false
  end.
Proof.
  intros Hnone. unfold tagged_metadata.
  destruct (has_truthy e "metadata").
  - destruct (py_dict _) as [md|]; simpl; [|done].
    destruct (getattr e "id") as [id|]; simpl; [|done]. intros [= <-].
    rewrite dict_get_set_eq. split; [done|].
    exists (dict_set "prod_id" id md), id.
    by rewrite dict_get_set_eq.
  - intros [= <-]. by rewrite Hnone.
Qed.

Lemma dict_get_copy_images (k : string) (e : value) (params params' : dict) :
  k ≠ "images" -> Product.copy_images e params = Ok params' ->
  dict_get k params' = dict_get k params.
Proof.
  intros Hk. unfold Product.copy_images. destruct (has_truthy e "images").
  - destruct (py_iter _); simpl; [|done]. intros [= <-].
    by apply dict_get_set_ne.
  - by intros [= <-].
Qed.

Lemma dict_get_copy_features (k : string) (e : value) (params params' : dict) :
  k ≠ "features" -> Product.copy_features e params = Ok params' ->
  dict_get k params' = dict_get k params.
Proof.
  intros Hk. unfold Product.copy_features. destruct (has_truthy e "features").
  - destruct (Product.feature_names _); simpl; [|done]. intros [= <-].
    by apply dict_get_set_ne.
  - by intros [= <-].
Qed.

(** X11.  For each of the four copiers, the update parameters carry a
    [metadata] entry exactly when the production entity has metadata that
    is truthy; the entry is then a plain dictionary holding the entity's
    [id] under [prod_id].  An entity without metadata is therefore updated
    without being tagged. *)
Theorem update_tags_only_with_metadata self (prod_entity : value)
    (params : dict) :
  self ∈ copiers ->
  get_update_params self prod_entity = Ok params ->
  match dict_get "metadata" params with
  | Some metadata =>
      has_truthy prod_entity "metadata" = true
      /\ exists kvs id,
           metadata = VDict kvs /\ getattr prod_entity "id" = Ok id
           /\ dict_get "prod_id" kvs = Some id
  | None => has_truthy prod_entity "metadata" = false
  end.
Proof.
  intros Hself. unfold copiers in Hself. set_unfold.
  destruct Hself as [->|[->|[->|[->|[]]]]]; cbn [get_update_params
    TaxRateCopier ProductCopier PriceCopier CouponCopier];
    unfold TaxRate.get_update_params, Product.get_update_params,
      Price.get_update_params, Coupon.get_update_params.
  - apply tagged_metadata_tags. by rewrite !dict_get_copy_present.
  - intros H. apply bind_Ok in H as (p1 & H1 & H).
    apply bind_Ok in H as (p2 & H2 & H).
    revert H. apply tagged_metadata_tags.
    rewrite (dict_get_copy_features "metadata" _ _ _ ltac:(done) H2).
    rewrite !dict_get_copy_present by done.
    rewrite (dict_get_copy_images "metadata" _ _ _ ltac:(done) H1).
    by rewrite !dict_get_copy_present.
  - apply tagged_metadata_tags. by rewrite !dict_get_copy_present.
  - apply tagged_metadata_tags. by rewrite !dict_get_copy_present.
Qed.

Lemma update_tags_only_with_metadata_witness :
  let params :=
    [("name", VStr "Gadget");
     ("metadata", VDict [("tier", VStr "gold"); ("prod_id", VStr "prod_A")])] in
  (ProductCopier ∈ copiers
   /\ get_update_params ProductCopier Scenario.gadget_a = Ok params)
  /\ match dict_get "metadata" params with
     | Some metadata =>
         has_truthy Scenario.gadget_a "metadata" = true
         /\ exists kvs id,
              metadata = VDict kvs /\ getattr Scenario.gadget_a "id" = Ok id
              /\ dict_get "prod_id" kvs = Some id
     | None => has_truthy Scenario.gadget_a "metadata" = false
     end.
Proof.
  intros params.
  assert (ProductCopier ∈ copiers) as H1
    by (unfold copiers; apply list_elem_of_further, list_elem_of_here).
  assert (get_update_params ProductCopier Scenario.gadget_a = Ok params) as H2
    by reflexivity.
  exact (conj (conj H1 H2)
           (update_tags_only_with_metadata ProductCopier Scenario.gadget_a
              params H1 H2)).
Defined.

Lemma dict_get_copy_recurring (k : string) (e : value) (params params' : dict) :
  k ≠ "recurring" -> Price.copy_recurring e params = Ok params' ->
  dict_get k params' = dict_get k params.
Proof.
  intros Hk. unfold Price.copy_recurring. destruct (has_truthy e "recurring").
  - destruct (Price.recurring_params _); simpl; [|done]. intros [= <-].
    by apply dict_get_set_ne.
  - by intros [= <-].
Qed.

Lemma dict_get_copy_tiers (k : string) (e : value) (params params' : dict) :
  k ≠ "tiers" -> k ≠ "tiers_mode" -> Price.copy_tiers e params = Ok params' ->
  dict_get k params' = dict_get k params.
Proof.
  intros Hk Hk'. unfold Price.copy_tiers. destruct (has_truthy e "tiers").
  - destruct (py_iter _); simpl; [|done]. intros [= <-].
    rewrite dict_get_copy_present by done. by apply dict_get_set_ne.
  - by intros [= <-].
Qed.

Lemma dict_get_copy_transform_quantity (k : string) (e : value)
    (params params' : dict) :
  k ≠ "transform_quantity" ->
  Price.copy_transform_quantity e params = Ok params' ->
  dict_get k params' = dict_get k params.
Proof.
  intros Hk. unfold Price.copy_transform_quantity.
  destruct (has_truthy e "transform_quantity"); [|by intros [= <-]].
  destruct (getattr _ "divide_by"); simpl; [|done].
  destruct (getattr _ "round"); simpl; [|done]. intros [= <-].
  by apply dict_get_set_ne.
Qed.

(** What the tail of [Price.get_create_params] leaves alone. *)
Lemma price_params_frame (k : string) (m : IDMapper) (e : value)
    (l : list string) (params : dict) :
  In k ["currency"; "product"; "unit_amount_decimal"; "unit_amount"] ->
  Price.get_create_params m e = (l, Ok params) ->
  exists currency pid tid,
    getattr e "currency" = Ok currency
    /\ Price.product_ref e = Ok (VStr pid)
    /\ resolve m pid = Some tid
    /\ dict_get k params
       = dict_get k (Price.copy_amount e
                       (dict_set "product" (VStr tid) [("currency", currency)])).
Proof.
  intros Hk. unfold Price.get_create_params, quiet. intros [= _ H].
  apply bind_Ok in H as (currency & Hcur & H).
  apply bind_Ok in H as (ref & Href & H).
  apply bind_Ok in H as (otid & Hget & H).
  destruct (nonempty otid) as [tid|] eqn:Htid; [|done].
  apply bind_Ok in H as (p1 & H1 & H).
  apply bind_Ok in H as (p2 & H2 & H).
  apply bind_Ok in H as (p3 & H3 & H).
  assert (exists pid, ref = VStr pid) as [pid ->].
  { destruct ref; simpl in Hget; try done; try (by injection Hget as <-).
    by eexists. }
  exists currency, pid, tid. split; [done|]. split; [done|].
  split. { unfold resolve. simpl in Hget. by injection Hget as ->. }
  assert (k ≠ "recurring" /\ k ≠ "billing_scheme" /\ k ≠ "tiers"
          /\ k ≠ "tiers_mode" /\ k ≠ "transform_quantity" /\ k ≠ "active"
          /\ k ≠ "nickname" /\ k ≠ "lookup_key" /\ k ≠ "tax_behavior"
          /\ k ≠ "metadata") as (?&?&?&?&?&?&?&?&?&?).
  { cbn [In] in Hk. destruct Hk as [<-|[<-|[<-|[<-|[]]]]]; repeat split; done. }
  rewrite (dict_get_copy_metadata k _ _ _ ltac:(done) H).
  rewrite dict_get_copy_present, !dict_get_copy_truthy, dict_get_copy_present
    by done.
  rewrite (dict_get_copy_transform_quantity k _ _ _ ltac:(done) H3).
  rewrite (dict_get_copy_tiers k _ _ _ ltac:(done) ltac:(done) H2).
  rewrite dict_get_copy_present by done.
  by rewrite (dict_get_copy_recurring k _ _ _ ltac:(done) H1).
Qed.

(** X12.  Whenever the creation parameters of a price are built, the price
    has a currency, which the parameters repeat; its product reference is
    a string that the mapper resolves to a non-empty test id, which is the
    [product] of the parameters; and of [unit_amount_decimal] and
    [unit_amount] at most one is among the parameters. *)
Theorem price_params_use_the_mapped_product (m : IDMapper)
    (prod_entity : value) (l : list string) (params : dict) :
  Price.get_create_params m prod_entity = (l, Ok params) ->
  exists currency pid tid,
    getattr prod_entity "currency" = Ok currency
    /\ Price.product_ref prod_entity = Ok (VStr pid)
    /\ resolve m pid = Some tid
    /\ dict_get "currency" params = Some currency
    /\ dict_get "product" params = Some (VStr tid)
    /\ (dict_get "unit_amount_decimal" params = None
        \/ dict_get "unit_amount" params = None).
Proof.
  intros H.
  destruct (price_params_frame "currency" m prod_entity l params
              ltac:(cbn [In]; tauto) H) as (currency & pid & tid & Hc & Hp & Hr & Hcur).
  destruct (price_params_frame "product" m prod_entity l params
              ltac:(cbn [In]; tauto) H) as (? & pid' & tid' & _ & Hp' & Hr' & Hprod).
  destruct (price_params_frame "unit_amount_decimal" m prod_entity l params
              ltac:(cbn [In]; tauto) H) as (? & ? & ? & _ & _ & _ & Hdec).
  destruct (price_params_frame "unit_amount" m prod_entity l params
              ltac:(cbn [In]; tauto) H) as (? & ? & ? & _ & _ & _ & Hamt).
  assert (pid' = pid) as -> by congruence.
  assert (tid' = tid) as -> by congruence.
  exists currency, pid, tid. repeat (split; [done|]).
  rewrite Hcur, Hprod, Hdec, Hamt. unfold Price.copy_amount, copy_not_none.
  destruct (has_truthy prod_entity "unit_amount_decimal");
    [|destruct (has_not_none prod_entity "unit_amount")];
    rewrite ?dict_get_set_ne by done; simpl; auto.
Qed.

Lemma price_params_use_the_mapped_product_witness :
  let params :=
    [("currency", VStr "usd"); ("product", VStr "prod_T");
     ("unit_amount", VInt 1000)] in
  Price.get_create_params Scenario.mapped Scenario.price_1 = ([], Ok params)
  /\ exists currency pid tid,
       getattr Scenario.price_1 "currency" = Ok currency
       /\ Price.product_ref Scenario.price_1 = Ok (VStr pid)
       /\ resolve Scenario.mapped pid = Some tid
       /\ dict_get "currency" params = Some currency
       /\ dict_get "product" params = Some (VStr tid)
       /\ (dict_get "unit_amount_decimal" params = None
           \/ dict_get "unit_amount" params = None).
Proof.
  intros params.
  assert (Price.get_create_params Scenario.mapped Scenario.price_1
          = ([], Ok params)) as H by reflexivity.
  exact (conj H (price_params_use_the_mapped_product Scenario.mapped
                   Scenario.price_1 [] params H)).
Defined.

Lemma dict_get_copy_applies_to (k : string) (m : IDMapper) (e : value)
    (params params' : dict) (l : list string) :
  k ≠ "applies_to" ->
  Coupon.copy_applies_to m e params = (l, Ok params') ->
  dict_get k params' = dict_get k params.
Proof.
  intros Hk. unfold Coupon.copy_applies_to.
  destruct (has_truthy e "applies_to"); [|by intros [= _ <-]].
  destruct (has_truthy _ "products"); [|by intros [= _ <-]].
  unfold quiet, mbind, logged_bind.
  destruct (py_iter _) as [products|]; [|done].
  destruct (Coupon.map_product_ids m products) as [l' [[|t ts]|]];
    [by intros [= _ <-]| |done].
  intros [= _ <-]. by apply dict_get_set_ne.
Qed.

(** X13.  Whenever the creation parameters of a coupon are built, the
    discount among them is decided by the coupon alone, the percentage
    first.  A coupon whose [percent_off] is there and not [None] gives
    [percent_off] with that value, and neither [amount_off] nor
    [currency]; failing that, a coupon whose [amount_off] is there and not
    [None] gives [amount_off] with that value, and [currency] when the
    coupon has the attribute; a coupon with neither gives none of the
    three.  So the parameters never carry both discounts, and a currency
    only beside an [amount_off]. *)
Theorem coupon_params_carry_one_discount (m : IDMapper) (prod_entity : value)
    (l : list string) (params : dict) :
  Coupon.get_create_params m prod_entity = (l, Ok params) ->
  dict_get "percent_off" params
  = (if has_not_none prod_entity "percent_off"
     then Some (getattr_or prod_entity "percent_off" VNone)
     else None)
  /\ dict_get "amount_off" params
     = (if has_not_none prod_entity "percent_off" then None
        else if has_not_none prod_entity "amount_off"
             then Some (getattr_or prod_entity "amount_off" VNone)
             else None)
  /\ dict_get "currency" params
     = (if has_not_none prod_entity "percent_off" then None
        else if has_not_none prod_entity "amount_off"
             then match getattr prod_entity "currency" with
                  | Ok currency => Some currency
                  | Raise _ => None
                  end
             else None)
  /\ (dict_get "percent_off" params = None \/ dict_get "amount_off" params = None)
  /\ (dict_get "amount_off" params = None -> dict_get "currency" params = None).
Proof.
  unfold Coupon.get_create_params.
  set (params0 := if has_truthy prod_entity "id" then _ else _).
  unfold mbind, logged_bind.
  destruct (Coupon.copy_applies_to _ _ _) as [l1 [p1|]] eqn:H1; [|done].
  unfold quiet.
  destruct (copy_metadata prod_entity p1) as [p2|] eqn:H2; [|done].
  intros [= _ <-].
  assert (forall k, In k ["percent_off"; "amount_off"; "currency"] ->
            dict_get k p2
            = dict_get k (Coupon.copy_discount prod_entity params0)) as Hframe.
  { intros k Hk.
    assert (k ≠ "duration" /\ k ≠ "duration_in_months" /\ k ≠ "name"
            /\ k ≠ "max_redemptions" /\ k ≠ "redeem_by" /\ k ≠ "applies_to"
            /\ k ≠ "metadata") as (?&?&?&?&?&?&?).
    { cbn [In] in Hk. destruct Hk as [<-|[<-|[<-|[]]]]; repeat split; done. }
    rewrite (dict_get_copy_metadata k _ _ _ ltac:(done) H2).
    rewrite (dict_get_copy_applies_to k _ _ _ _ _ ltac:(done) H1).
    by rewrite !dict_get_copy_truthy, dict_get_copy_present by done. }
  rewrite !Hframe by (cbn [In]; tauto).
  assert (forall k, k ≠ "id" -> dict_get k params0 = None) as Hnew.
  { intros k Hk. unfold params0. destruct (has_truthy prod_entity "id"); [|done].
    simpl. by rewrite (proj2 (String.eqb_neq k "id")). }
  unfold Coupon.copy_discount, copy_present.
  destruct (has_not_none prod_entity "percent_off");
    [|destruct (has_not_none prod_entity "amount_off");
      [destruct (getattr prod_entity "currency")|]];
    repeat first [ rewrite dict_get_set_eq | rewrite dict_get_set_ne by done
                 | rewrite Hnew by done ];
    repeat split; auto; done.
Qed.

Lemma coupon_params_carry_one_discount_witness :
  let params :=
    [("id", VStr "test_SAVE20"); ("percent_off", VInt 20);
     ("duration", VStr "once");
     ("applies_to", VDict [("products", VList [VStr "prod_T"])])] in
  Coupon.get_create_params Scenario.mapped Scenario.coupon_1
    = (["Product prod_X not found in mapping"], Ok params)
  /\ dict_get "percent_off" params = Some (VInt 20)
  /\ dict_get "amount_off" params = None
  /\ dict_get "currency" params = None
  /\ (dict_get "percent_off" params = None
      \/ dict_get "amount_off" params = None)
  /\ (dict_get "amount_off" params = None
      -> dict_get "currency" params = None).
Proof.
  intros params.
  assert (Coupon.get_create_params Scenario.mapped Scenario.coupon_1
          = (["Product prod_X not found in mapping"], Ok params)) as H
    by reflexivity.
  exact (conj H (coupon_params_carry_one_discount Scenario.mapped
                   Scenario.coupon_1 _ params H)).
Defined.

Lemma has_expected_id_decided (expected : string) (t : value) :
  hasattr t "id" = true ->
  Coupon.has_expected_id expected t = Ok (id_is (VStr expected) t).
Proof.
  intros [v Hv]%hasattr_getattr. unfold Coupon.has_expected_id, id_is.
  by rewrite Hv.
Qed.

Lemma id_is_true (expected : string) (t : value) :
  id_is (VStr expected) t = true <-> getattr t "id" = Ok (VStr expected).
Proof.
  unfold id_is. split.
  - destruct (getattr t "id") as [v|]; [|done]. by intros ->%py_eq_str.
  - intros ->. simpl. apply String.eqb_refl.
Qed.

(** X14.  A coupon is created under its production id prefixed with
    [test_], and that is how a later run recognises it.  For a production
    coupon with a non-empty string id whose creation parameters are built,
    the parameters carry the id [test_<id>]; and among test coupons that
    all have an [id] and mapping metadata, one of which carries that
    prefixed id, [find_existing] returns a listed coupon that is tagged
    with the production id or carries the prefixed id, whatever the mapper
    holds.  So the coupon is not created a second time. *)
Theorem coupon_is_found_under_its_prefixed_id (m m' : IDMapper)
    (prod_entity : value) (id : string) (l : list string) (params : dict)
    (test_entities : list value) :
  getattr prod_entity "id" = Ok (VStr id) ->
  id ≠ "" ->
  Coupon.get_create_params m prod_entity = (l, Ok params) ->
  Forall (fun t => metadata_is_mapping t = true) test_entities ->
  Forall (fun t => hasattr t "id" = true) test_entities ->
  (exists t, t ∈ test_entities
             /\ getattr t "id" = Ok (VStr ("test_" +:+ id))) ->
  dict_get "id" params = Some (VStr ("test_" +:+ id))
  /\ exists t,
       Coupon.find_existing m' prod_entity test_entities = Ok t
       /\ t ∈ test_entities
       /\ (tagged id t = true
           \/ getattr t "id" = Ok (VStr ("test_" +:+ id))).
Proof.
  intros Hid Hne Hparams Hmeta Hids (t0 & Hin0 & Hid0).
  assert (dict_get "id" params = Some (VStr ("test_" +:+ id))) as Hkey.
  { revert Hparams. unfold Coupon.get_create_params.
    unfold has_truthy, getattr_or. rewrite Hid. cbn [truthy].
    rewrite (proj2 (String.eqb_neq id "")) by done. cbn [negb].
    set (params0 := [("id", _)]).
    unfold mbind, logged_bind.
    destruct (Coupon.copy_applies_to _ _ _) as [l1 [p1|]] eqn:H1; [|done].
    unfold quiet.
    destruct (copy_metadata prod_entity p1) as [p2|] eqn:H2; [|done].
    intros [= _ <-].
    rewrite (dict_get_copy_metadata "id" _ _ _ ltac:(done) H2).
    rewrite (dict_get_copy_applies_to "id" _ _ _ _ _ ltac:(done) H1).
    rewrite !dict_get_copy_truthy, dict_get_copy_present by done.
    unfold Coupon.copy_discount, copy_present.
    repeat match goal with
           | |- context [if ?b then _ else _] => destruct b
           | |- context [match getattr ?e ?a with _ => _ end] =>
               destruct (getattr e a)
           end;
      rewrite ?dict_get_set_ne by done; done. }
  split; [done|].
  unfold Coupon.find_existing.
  rewrite (find_first_decided (tagged_with prod_entity) (tagged id));
    [|eapply Forall_impl; [exact Hmeta|]; cbn beta; intros x Hx;
      by apply tagged_with_decided].
  destruct (List.find (tagged id) test_entities) as [t|] eqn:Hfind.
  - apply find_some in Hfind as [Hin Htag]. apply list_elem_of_In in Hin.
    exists t. cbn [first_strategy mbind result_bind]. auto.
  - cbn [first_strategy mbind result_bind]. rewrite Hid.
    cbn [mbind result_bind].
    change (Coupon.test_prefixed (VStr id)) with ("test_" +:+ id).
    rewrite (find_first_decided (Coupon.has_expected_id ("test_" +:+ id))
               (id_is (VStr ("test_" +:+ id))));
      [|eapply Forall_impl; [exact Hids|]; cbn beta; intros x Hx;
        by apply has_expected_id_decided].
    destruct (List.find (id_is (VStr ("test_" +:+ id))) test_entities)
      as [t|] eqn:Hfind2.
    + apply find_some in Hfind2 as [Hin Hhit]. apply list_elem_of_In in Hin.
      apply id_is_true in Hhit. exists t. auto.
    + apply find_none with (x := t0) in Hfind2; [|by apply list_elem_of_In].
      apply (proj2 (id_is_true _ _)) in Hid0. congruence.
Qed.

Lemma coupon_is_found_under_its_prefixed_id_witness :
  let params :=
    [("id", VStr "test_SAVE20"); ("percent_off", VInt 20);
     ("duration", VStr "once");
     ("applies_to", VDict [("products", VList [VStr "prod_T"])])] in
  (getattr Scenario.coupon_1 "id" = Ok (VStr "SAVE20")
   /\ Coupon.get_create_params Scenario.mapped Scenario.coupon_1
      = (["Product prod_X not found in mapping"], Ok params)
   /\ getattr Cases.coupon_t "id" = Ok (VStr "test_SAVE20"))
  /\ dict_get "id" params = Some (VStr "test_SAVE20")
  /\ exists t,
       Coupon.find_existing IDMapper_init Scenario.coupon_1 [Cases.coupon_t]
       = Ok t
       /\ t ∈ [Cases.coupon_t]
       /\ (tagged "SAVE20" t = true
           \/ getattr t "id" = Ok (VStr "test_SAVE20")).
Proof.
  intros params. split; [repeat split; reflexivity|].
  apply (coupon_is_found_under_its_prefixed_id Scenario.mapped IDMapper_init
           Scenario.coupon_1 "SAVE20" ["Product prod_X not found in mapping"]
           params [Cases.coupon_t]).
  - reflexivity.
  - discriminate.
  - reflexivity.
  - apply Forall_cons_2; [reflexivity | apply Forall_nil_2].
  - apply Forall_cons_2; [reflexivity | apply Forall_nil_2].
  - exists Cases.coupon_t. split; [apply list_elem_of_here | reflexivity].
Defined.

(** ** The template method: what is recorded, counted and sent *)
Section Mapping.
Context `{api : StripeAPI}.
Variable client : StripeClient.

Lemma add_mapping_get (name prod_id test_id : string) (m m' : IDMapper) :
  add_mapping name prod_id test_id m = Ok m' ->
  get_test_id name (VStr prod_id) m' = Ok (Some test_id).
Proof.
  unfold add_mapping. destruct (mappings m !! name) as [tbl|]; [|done].
  intros [= <-]. cbn [get_test_id mappings].
  rewrite lookup_insert_eq. cbn [default from_option id].
  by rewrite lookup_insert_eq.
Qed.

Lemma mapper_add_mapping_Ok (name : string) (prod_entity test_entity : value)
    (w w' : World) :
  mapper_add_mapping name prod_entity test_entity w = (w', Ok tt) ->
  exists prod_id test_id,
    str_id prod_entity = Ok prod_id /\ str_id test_entity = Ok test_id
    /\ get_test_id name (VStr prod_id) (mapper w') = Ok (Some test_id).
Proof.
  unfold mapper_add_mapping, mbind, M_bind, lift, get_mapper, set_mapper.
  destruct (str_id prod_entity) as [pid|]; [|done].
  destruct (str_id test_entity) as [tid|]; [|done].
  destruct (add_mapping _ _ _ _) as [m'|] eqn:E; [|done].
  intros [= <-]. exists pid, tid. cbn [mapper].
  by rewrite (add_mapping_get _ _ _ _ _ E).
Qed.

End Mapping.

Section Recorded.
Context `{api : StripeAPI}.
Variable client : StripeClient.
Implicit Types (w : World) (self : Copier).

Lemma get_test_id_increment_stat (name : string) (key : value)
    (resource_type stat_type : string) (m : IDMapper) :
  get_test_id name key (increment_stat resource_type stat_type m)
  = get_test_id name key m.
Proof.
  unfold increment_stat.
  destruct (stats m !! resource_type) as [st|]; [|done].
  by destruct (st !! stat_type).
Qed.

Lemma counted_mapping (name : string) (prod_entity test_entity : value)
    (stat_type : string) {A} (a : A) w w' (b : A) :
  (mapper_add_mapping name prod_entity test_entity;;
   mapper_increment_stat name stat_type;;
   mret a) w = (w', Ok b) ->
  a = b
  /\ exists prod_id test_id,
       str_id prod_entity = Ok prod_id /\ str_id test_entity = Ok test_id
       /\ get_test_id name (VStr prod_id) (mapper w') = Ok (Some test_id).
Proof.
  unfold mbind at 1, M_bind.
  destruct (mapper_add_mapping name prod_entity test_entity w)
    as [w1 [[]|]] eqn:Hadd; [|done].
  apply mapper_add_mapping_Ok in Hadd as (pid & tid & Hp & Ht & Hget).
  unfold mapper_increment_stat, mbind, M_bind, get_mapper, set_mapper.
  cbn [fst snd mret M_ret]. intros [= <- <-]. split; [done|].
  exists pid, tid. cbn [mapper]. by rewrite get_test_id_increment_stat.
Qed.

Lemma create_in_test_maps self (prod_entity : value) w w' (t : value) :
  create_in_test client self prod_entity w = (w', Ok t) ->
  exists prod_id test_id,
    str_id prod_entity = Ok prod_id /\ str_id t = Ok test_id
    /\ get_test_id (resource_name self) (VStr prod_id) (mapper w')
       = Ok (Some test_id).
Proof.
  unfold create_in_test.
  unfold mbind at 1, M_bind, get_mapper.
  unfold mbind at 1, M_bind, run_logged.
  destruct (get_create_params self (mapper w) prod_entity) as [l [params|]];
    cbn [fst snd]; [|done].
  unfold mbind at 1, M_bind, lift.
  destruct (getattr prod_entity "id") as [prod_id|]; [|done].
  unfold mbind at 1, M_bind.
  destruct (setitem _ "prod_id" prod_id) as [metadata|]; [|done].
  unfold mbind at 1, M_bind.
  destruct (create client (resource_name self) TEST _ _) as [w1 [t1|]];
    [|done].
  intros H. apply counted_mapping in H as [-> H]. exact H.
Qed.

Lemma update_in_test_maps self (existing prod_entity : value) w w'
    (t : value) :
  update_in_test client self existing prod_entity w = (w', Ok t) ->
  if can_update self then
    exists prod_id test_id,
      str_id prod_entity = Ok prod_id /\ str_id existing = Ok test_id
      /\ get_test_id (resource_name self) (VStr prod_id) (mapper w')
         = Ok (Some test_id)
  else mapper w' = mapper w /\ t = existing.
Proof.
  unfold update_in_test. destruct (can_update self); cbn [negb].
  - unfold mbind at 1, M_bind, lift.
    destruct (get_update_params self prod_entity) as [params|]; [|done].
    unfold mbind at 1, M_bind.
    destruct (getattr existing "id") as [resource_id|]; [|done].
    unfold mbind at 1, M_bind.
    destruct (update client (resource_name self) resource_id TEST params w)
      as [w1 [t1|]]; [|done].
    intros H. apply counted_mapping in H as [_ H]. exact H.
  - unfold mbind, M_bind, log_warning. cbn [mret M_ret].
    by intros [= <- <-].
Qed.

(** X17.  When [copy_one] returns, it returns the action its search
    decided: "updated" when [find_existing] gave a record, "created"
    otherwise.  Unless the record was matched for a kind that cannot be
    updated, the mapper then maps the production id to the id of the test
    record (the matched one, or the one just created); for such a kind the
    matched record is returned as it is and the mapper is unchanged, so a
    matched price never enters the mapping. *)
Theorem copy_one_records_what_it_writes self (prod_entity : value)
    (test_entities : list value) w w' (t : value) (action : string) :
  copy_one client self prod_entity test_entities w = (w', Ok (t, action)) ->
  exists existing,
    find_existing self (mapper w) prod_entity test_entities = Ok existing
    /\ action = (if truthy existing then "updated" else "created")
    /\ if truthy existing && negb (can_update self)
       then mapper w' = mapper w /\ t = existing
       else
         exists prod_id test_id,
           str_id prod_entity = Ok prod_id
           /\ str_id (if truthy existing then existing else t) = Ok test_id
           /\ get_test_id (resource_name self) (VStr prod_id) (mapper w')
              = Ok (Some test_id).
Proof.
  unfold copy_one.
  unfold mbind at 1, M_bind, get_mapper.
  unfold mbind at 1, M_bind, lift.
  destruct (find_existing self (mapper w) prod_entity test_entities)
    as [existing|]; [|done].
  intros H. exists existing. split; [done|]. revert H.
  destruct (truthy existing); cbn [andb].
  - unfold mbind at 1, M_bind.
    destruct (getattr prod_entity "id"); [|done].
    unfold mbind at 1, M_bind.
    destruct (getattr existing "id"); [|done].
    unfold mbind at 1, M_bind.
    destruct (update_in_test client self existing prod_entity w)
      as [w1 [t1|]] eqn:Hupd; [|done].
    intros [= <- <- <-]. split; [done|].
    apply update_in_test_maps in Hupd. by destruct (can_update self).
  - unfold mbind at 1, M_bind.
    destruct (getattr prod_entity "id"); [|done].
    unfold mbind at 1, M_bind.
    destruct (create_in_test client self prod_entity w)
      as [w1 [t1|]] eqn:Hcr; [|done].
    intros [= <- <- <-]. split; [done|].
    by apply create_in_test_maps in Hcr.
Qed.

End Recorded.

Lemma copy_one_records_what_it_writes_witness :
  let w := Scenario.world Scenario.widget_accounts in
  let out := copy_one (Mem.client false) ProductCopier Scenario.widget [] w in
  out.2 = Ok (Scenario.widget_copy, "created")
  /\ exists existing,
       find_existing ProductCopier (mapper w) Scenario.widget [] = Ok existing
       /\ "created" = (if truthy existing then "updated" else "created")
       /\ if truthy existing && negb (can_update ProductCopier)
          then mapper out.1 = mapper w /\ Scenario.widget_copy = existing
          else
            exists prod_id test_id,
              str_id Scenario.widget = Ok prod_id
              /\ str_id (if truthy existing then existing
                         else Scenario.widget_copy) = Ok test_id
              /\ get_test_id (resource_name ProductCopier) (VStr prod_id)
                   (mapper out.1) = Ok (Some test_id).
Proof.
  intros w out.
  assert (out.2 = Ok (Scenario.widget_copy, "created")) as H2 by by_vm.
  split; [exact H2|].
  apply (copy_one_records_what_it_writes (api := Mem.api) (Mem.client false)
           ProductCopier Scenario.widget [] w out.1 Scenario.widget_copy
           "created").
  rewrite <- H2. apply surjective_pairing.
Defined.


Section Accounting.
Context `{api : StripeAPI}.
Variable client : StripeClient.
Implicit Types (w : World) (self : Copier).

Lemma copy_loop_counts self (prod_entities test_entities : list value) :
  Forall (fun p => hasattr p "id" = true) prod_entities ->
  forall w (c u e : Z),
    counters (mapper w) (resource_name self) = Some (c, u, e) ->
    exists w' c' u' e',
      copy_loop client self prod_entities test_entities w = (w', Ok tt)
      /\ counters (mapper w') (resource_name self) = Some (c', u', e')
      /\ c <= c' /\ u <= u' /\ e <= e'
      /\ c' + u' + e' <= c + u + e + Z.of_nat (length prod_entities)
      /\ (can_update self = true ->
          c' + u' + e' = c + u + e + Z.of_nat (length prod_entities)).
Proof.
  induction 1 as [|p ps Hp _ IH]; intros w c u e Hc; cbn [copy_loop].
  - exists w, c, u, e. cbn [length]. repeat split; (done || lia).
  - destruct (copy_step_outcome client self test_entities p w Hp)
      as (w1 & Hstep & Hout).
    unfold mbind at 1, M_bind. rewrite Hstep.
    assert (exists c1 u1 e1,
              counters (mapper w1) (resource_name self) = Some (c1, u1, e1)
              /\ c <= c1 /\ u <= u1 /\ e <= e1
              /\ c1 + u1 + e1 <= c + u + e + 1
              /\ (can_update self = true -> c1 + u1 + e1 = c + u + e + 1))
      as (c1 & u1 & e1 & Hc1 & ? & ? & ? & ? & Hup).
    { destruct Hout as [Herr | (existing & _ & Hst)].
      - rewrite (counters_same_stats _ _ _ Herr).
        rewrite (counters_increment_errors _ _ _ _ _ Hc).
        exists c, u, (e + 1). repeat split; (done || lia).
      - rewrite (counters_same_stats _ _ _ Hst). unfold counted.
        destruct (truthy existing); [destruct (can_update self)|].
        + rewrite (counters_increment_updated _ _ _ _ _ Hc).
          exists c, (u + 1), e. repeat split; (done || lia).
        + exists c, u, e. repeat split; (done || lia).
        + rewrite (counters_increment_created _ _ _ _ _ Hc).
          exists (c + 1), u, e. repeat split; (done || lia). }
    destruct (IH w1 c1 u1 e1 Hc1)
      as (w' & c' & u' & e' & Hloop & Hc' & ? & ? & ? & ? & Hup').
    exists w', c', u', e'. cbn [length]. rewrite Nat2Z.inj_succ.
    repeat split; try (done || lia).
    intros Hcan. specialize (Hup Hcan). specialize (Hup' Hcan). lia.
Qed.

(** X18.  Let the two listings of [copy] succeed, every production record
    have an [id], and the three counters of the kind be zero when [copy]
    starts.  Then [copy] returns a record of three counters that are not
    negative and add up to at most the number of production records; for
    a kind that can be updated they add up to exactly that number, every
    record being counted once as created, updated or failed.  (For prices
    a matched record is not counted, so the sum can fall short.) *)
Theorem copy_accounts_for_every_record self (filters : dict) w
    (r1 r2 : remote) (prod_entities test_entities : list value) :
  self ∈ copiers ->
  stripe_list (resource_name self) (prod_key client)
    (dict_set "limit" (VInt 100) filters) (account w) = (r1, inr prod_entities) ->
  stripe_list (resource_name self) (test_key client)
    [("limit", VInt 100)] r1 = (r2, inr test_entities) ->
  Forall (fun p => hasattr p "id" = true) prod_entities ->
  counters (mapper w) (resource_name self) = Some (0, 0, 0) ->
  exists w' st c u e,
    copy client self filters w = (w', Ok st)
    /\ st !! "created" = Some c /\ st !! "updated" = Some u
    /\ st !! "errors" = Some e
    /\ 0 <= c /\ 0 <= u /\ 0 <= e
    /\ c + u + e <= Z.of_nat (length prod_entities)
    /\ (can_update self = true ->
        c + u + e = Z.of_nat (length prod_entities)).
Proof.
  intros Hself Hprod Htest Hids Hzero. unfold copy.
  rewrite (copy_after_listings client self filters w r1 r2 prod_entities
             test_entities Hself Hprod Htest).
  destruct prod_entities as [|p ps].
  { eexists _, zero_stats, 0, 0, 0. cbn [length]. repeat split; (done || lia). }
  set (w0 := mkWorld _ _ _ _).
  destruct (copy_loop_counts self (p :: ps) test_entities Hids w0 0 0 0 Hzero)
    as (w' & c & u & e & Hloop & Hc & ? & ? & ? & ? & Hup).
  unfold mbind at 1, M_bind. rewrite Hloop.
  unfold counters in Hc.
  destruct (stats (mapper w') !! resource_name self) as [st|] eqn:Hst; [|done].
  cbn [mbind option_bind] in Hc.
  destruct (st !! "created") as [c0|] eqn:Hcr; [|done]. cbn in Hc.
  destruct (st !! "updated") as [u0|] eqn:Hup0; [|done]. cbn in Hc.
  destruct (st !! "errors") as [e0|] eqn:Her; [|done]. cbn in Hc.
  injection Hc as -> -> ->.
  exists w', st, c, u, e.
  split.
  { unfold mbind, M_bind, get_mapper, stat_item. cbn [fst snd].
    by rewrite Hst, Hcr, Hup0, Her. }
  repeat split; (done || lia).
Qed.

End Accounting.

Lemma copy_accounts_for_every_record_witness :
  let w := Scenario.world Scenario.widget_accounts in
  (ProductCopier ∈ copiers
   /\ counters (mapper w) "products" = Some (0, 0, 0))
  /\ exists w' st c u e,
       copy (Mem.client false) ProductCopier [] w = (w', Ok st)
       /\ st !! "created" = Some c /\ st !! "updated" = Some u
       /\ st !! "errors" = Some e
       /\ 0 <= c /\ 0 <= u /\ 0 <= e
       /\ c + u + e <= 1
       /\ (can_update ProductCopier = true -> c + u + e = 1).
Proof.
  intros w.
  assert (ProductCopier ∈ copiers) as H1
    by (unfold copiers; apply list_elem_of_further, list_elem_of_here).
  assert (counters (mapper w) "products" = Some (0, 0, 0)) as H2 by by_vm.
  split; [by split|].
  apply (copy_accounts_for_every_record (api := Mem.api) (Mem.client false)
           ProductCopier [] w Scenario.widget_accounts Scenario.widget_accounts
           [Scenario.widget] [] H1).
  - by_vm.
  - by_vm.
  - apply Forall_cons_2; [reflexivity | apply Forall_nil_2].
  - exact H2.
Defined.


Section Requests.
Context `{api : StripeAPI}.
Implicit Types (w : World) (P : api_call -> Prop).

#[global] Instance only_sends_preorder P : PreOrder (only_sends P).
Proof.
  split.
  - intros w. exists []. by rewrite app_nil_r.
  - intros w1 w2 w3 (n1 & H1 & F1) (n2 & H2 & F2).
    exists (n1 ++ n2)%list. split; [|by apply Forall_app].
    by rewrite H2, H1, app_assoc.
Qed.

#[global] Instance same_calls_preorder : PreOrder same_calls.
Proof. split; unfold same_calls; [done | congruence]. Qed.

Lemma same_calls_only_sends P w w' : same_calls w w' -> only_sends P w w'.
Proof. intros H. exists []. by rewrite app_nil_r. Qed.

Lemma keeps_calls_set_mapper (m : IDMapper) : keeps same_calls (set_mapper m).
Proof. done. Qed.

Lemma keeps_calls_run_logged {A} (c : logged A) : keeps same_calls (run_logged c).
Proof. done. Qed.

Lemma keeps_calls_log_warning (msg : string) : keeps same_calls (log_warning msg).
Proof. done. Qed.

Lemma keeps_sends_request {A} P (c : api_call)
    (f : remote -> remote * (string + A)) :
  P c -> keeps (only_sends P) (request c f).
Proof.
  intros Hc w. unfold request. destruct (f (account w)). simpl.
  exists [c]. split; [done|]. by apply Forall_singleton.
Qed.

(** Steps that leave the trace alone, under any [P]. *)
Ltac quiet_step P :=
  first
    [ apply keeps_ret; apply _
    | apply keeps_raise; apply _
    | apply keeps_lift; apply _
    | apply keeps_get_mapper; apply _
    | eapply keeps_weaken;
      [ apply (same_calls_only_sends P)
      | first [ apply keeps_calls_set_mapper | apply keeps_calls_run_logged
              | apply keeps_calls_log_warning ] ] ].

Ltac sends P :=
  repeat first
    [ quiet_step P
    | apply keeps_bind; [apply _ | | intros ?]
    | apply keeps_try_except; [apply _ | | intros ?]
    | match goal with
      | |- keeps _ (if ?b then _ else _) => destruct b
      | |- keeps _ (match ?x with _ => _ end) => destruct x
      end ].

Variable client : StripeClient.

Lemma sends_list_all P (resource : string) (env : Environment) (params : dict) :
  (forall c, is_listing c -> P c) ->
  keeps (only_sends P) (list_all client resource env params).
Proof.
  intros HP. unfold list_all. sends P.
  apply keeps_sends_request. by apply HP.
Qed.

Lemma sends_mapper_add_mapping P (name : string) (prod_entity test_entity : value) :
  keeps (only_sends P) (mapper_add_mapping name prod_entity test_entity).
Proof. unfold mapper_add_mapping. sends P. Qed.

Lemma sends_mapper_increment_stat P (name stat : string) :
  keeps (only_sends P) (mapper_increment_stat name stat).
Proof. unfold mapper_increment_stat. sends P. Qed.

Lemma sends_create (resource : string) (env : Environment) (params : dict) :
  keeps (only_sends (permitted client)) (create client resource env params).
Proof.
  unfold create. case_decide as Henv; [sends (permitted client)|].
  destruct (dry_run client) eqn:Hdry; [sends (permitted client)|].
  sends (permitted client).
  apply keeps_sends_request. split; [done|].
  unfold _get_client. by rewrite decide_False.
Qed.

Lemma sends_update (resource : string) (resource_id : value)
    (env : Environment) (params : dict) :
  keeps (only_sends (permitted client))
    (update client resource resource_id env params).
Proof.
  unfold update. case_decide as Henv; [sends (permitted client)|].
  destruct (dry_run client) eqn:Hdry; [sends (permitted client)|].
  sends (permitted client).
  apply keeps_sends_request. split; [done|].
  unfold _get_client. by rewrite decide_False.
Qed.

Lemma sends_copy_step (self : Copier) (test_entities : list value)
    (prod_entity : value) :
  keeps (only_sends (permitted client))
    (copy_step client self test_entities prod_entity).
Proof.
  unfold copy_step, copy_one, create_in_test, update_in_test.
  sends (permitted client);
    first [ apply sends_create | apply sends_update
          | apply sends_mapper_add_mapping | apply sends_mapper_increment_stat ].
Qed.

Lemma sends_copy (self : Copier) (filters : dict) :
  keeps (only_sends (permitted client)) (copy client self filters).
Proof.
  unfold copy, list_from_prod, list_from_test.
  apply keeps_bind; [apply _ | by apply sends_list_all; intros [] | intros ps].
  apply keeps_bind; [apply _ | by apply sends_list_all; intros [] | intros ts].
  destruct ps as [|p ps]; [apply keeps_ret; apply _|].
  apply keeps_bind; [apply _ | | intros _].
  { generalize (p :: ps). intros l.
    induction l as [|q l IH]; cbn [copy_loop]; [apply keeps_ret; apply _|].
    apply keeps_bind; [apply _ | apply sends_copy_step | done]. }
  unfold stat_item. sends (permitted client).
Qed.

Lemma sends_copy_entities (names : list string) :
  keeps (only_sends (permitted client)) (copy_entities client names).
Proof.
  induction names as [|name rest IH]; cbn [copy_entities].
  - apply keeps_ret; apply _.
  - destruct (copier_named name copiers_map); [|apply keeps_raise; apply _].
    apply keeps_bind; [apply _ | | done].
    apply keeps_try_except; [apply _ | |intros e; apply keeps_ret; apply _].
    apply keeps_bind; [apply _ | apply sends_copy | intros _].
    apply keeps_ret; apply _.
Qed.

Lemma sends_main_body (args : Args) (confirmed : bool) :
  keeps (only_sends (permitted client)) (main_body client args confirmed).
Proof.
  unfold main_body.
  apply keeps_bind; [apply _ | quiet_step (permitted client) | intros names].
  destruct names as [|name rest]; [apply keeps_ret; apply _|].
  destruct (_ && _); [apply keeps_ret; apply _|].
  apply keeps_bind; [apply _ | apply sends_copy_entities | intros _].
  unfold stat_item. sends (permitted client).
Qed.

(** A kind that cannot be updated sends no modification. *)
Lemma creates_never_modify (resource : string) (env : Environment)
    (params : dict) :
  keeps (only_sends (fun c => ~ is_modification c))
    (create client resource env params).
Proof.
  unfold create. sends (fun c => ~ is_modification c).
  apply keeps_sends_request. by intros [].
Qed.

Lemma fixed_kind_copy_step (self : Copier) (test_entities : list value)
    (prod_entity : value) :
  can_update self = false ->
  keeps (only_sends (fun c => ~ is_modification c))
    (copy_step client self test_entities prod_entity).
Proof.
  intros Hcan. unfold copy_step, copy_one, create_in_test, update_in_test.
  rewrite Hcan. cbn [negb].
  sends (fun c => ~ is_modification c);
    first [ apply creates_never_modify | apply sends_mapper_add_mapping
          | apply sends_mapper_increment_stat ].
Qed.

Lemma fixed_kind_copy (self : Copier) (filters : dict) :
  can_update self = false ->
  keeps (only_sends (fun c => ~ is_modification c)) (copy client self filters).
Proof.
  intros Hcan. unfold copy, list_from_prod, list_from_test.
  apply keeps_bind;
    [apply _ | by apply sends_list_all; intros [] ? [] | intros ps].
  apply keeps_bind;
    [apply _ | by apply sends_list_all; intros [] ? [] | intros ts].
  destruct ps as [|p ps]; [apply keeps_ret; apply _|].
  apply keeps_bind; [apply _ | | intros _].
  { generalize (p :: ps). intros l.
    induction l as [|q l IH]; cbn [copy_loop]; [apply keeps_ret; apply _|].
    apply keeps_bind; [apply _ | by apply fixed_kind_copy_step | done]. }
  unfold stat_item. sends (fun c => ~ is_modification c).
Qed.

End Requests.


Section Safety.
Context `{api : StripeAPI}.

(** X19.  Whatever the copier, the filters and the state, the requests that
    one run of [copy] adds to the trace are listings, or writes made with
    the test key while dry-run is off: nothing is written with another key,
    and in dry-run mode nothing is written at all.  The earlier requests
    stay in the trace. *)
Theorem copy_sends_only_permitted_requests (client : StripeClient)
    (self : Copier) (filters : dict) (w : World) :
  exists new,
    calls (copy client self filters w).1 = (calls w ++ new)%list
    /\ Forall (permitted client) new.
Proof. apply sends_copy. Qed.

(** X26.  A kind that cannot be updated is never modified: whatever the
    state, the listings and the matches found, the requests that [copy]
    adds to the trace for such a kind (prices) are listings and creations
    only. *)
Theorem fixed_kinds_are_never_modified (client : StripeClient)
    (self : Copier) (filters : dict) (w : World) :
  can_update self = false ->
  exists new,
    calls (copy client self filters w).1 = (calls w ++ new)%list
    /\ Forall (fun c => ~ is_modification c) new.
Proof. intros Hcan. by apply fixed_kind_copy. Qed.

Lemma main_sends_permitted (prod test : string) (args : Args)
    (confirmed : bool) (r : remote) :
  Forall (permitted (mkStripeClient prod test (args_dry_run args)))
    (calls (main prod test args confirmed r).1).
Proof.
  unfold main.
  set (client := mkStripeClient prod test (args_dry_run args)).
  set (w0 := mkWorld IDMapper_init r [] []).
  pose proof (sends_main_body client args confirmed w0) as (new & Hnew & Hall).
  destruct (main_body client args confirmed w0) as [w1 [code|e]];
    cbn [fst snd] in *; rewrite Hnew; cbn [calls w0 app]; exact Hall.
Qed.

End Safety.

Section Simulated.
Context `{api : StripeAPI}.
Variable client : StripeClient.

(** X27.  In dry-run mode a matched record of a kind that can be updated is
    updated in name only: when the update parameters can be built, both
    records have string ids and the mapper knows the kind,
    [update_in_test] returns a plain dictionary made of the id of the test
    record and the parameters, sends no request and leaves the remote
    accounts alone, and yet records the mapping and counts the record as
    updated. *)
Theorem dry_run_update_is_simulated (self : Copier)
    (test_entity prod_entity : value) (w : World) (params : dict)
    (prod_id test_id : string) (m' : IDMapper) :
  dry_run client = true ->
  can_update self = true ->
  get_update_params self prod_entity = Ok params ->
  str_id prod_entity = Ok prod_id ->
  str_id test_entity = Ok test_id ->
  add_mapping (resource_name self) prod_id test_id (mapper w) = Ok m' ->
  update_in_test client self test_entity prod_entity w
  = (mkWorld (increment_stat (resource_name self) "updated" m')
       (account w) (calls w) (warnings w),
     Ok (VDict (dict_update [("id", VStr test_id)] params))).
Proof.
  intros Hdry Hcan Hparams Hpid Htid Hadd.
  assert (getattr test_entity "id" = Ok (VStr test_id)) as Hid.
  { unfold str_id in Htid. destruct (getattr test_entity "id") as [x|];
      [|done]. cbn [mbind result_bind] in Htid. by destruct x; simplify_eq. }
  unfold update_in_test. rewrite Hcan. cbn [negb].
  unfold mbind at 1, M_bind, lift. rewrite Hparams.
  unfold mbind at 1, M_bind. rewrite Hid.
  unfold mbind at 1, M_bind, update. case_decide; [done|]. rewrite Hdry.
  cbn [mret M_ret].
  unfold mapper_add_mapping, mapper_increment_stat.
  unfold mbind, M_bind, lift, get_mapper, set_mapper.
  rewrite Hpid, Htid. cbn [mapper]. rewrite Hadd. done.
Qed.

End Simulated.

Lemma dry_run_update_is_simulated_witness :
  let w := Scenario.world Scenario.gadget_accounts in
  let params :=
    [("name", VStr "Gadget");
     ("metadata", VDict [("tier", VStr "gold"); ("prod_id", VStr "prod_A")])] in
  let m' := Scenario.mapped in
  (get_update_params ProductCopier Scenario.gadget_a = Ok params
   /\ add_mapping "products" "prod_A" "prod_T" (mapper w) = Ok m')
  /\ update_in_test (Mem.client true) ProductCopier Scenario.gadget_t
       Scenario.gadget_a w
     = (@mkWorld Mem.api (increment_stat "products" "updated" m')
          (account w) (calls w) (warnings w),
        Ok (VDict (dict_update [("id", VStr "prod_T")] params))).
Proof.
  intros w params m'. split; [split; reflexivity|].
  apply (dry_run_update_is_simulated (api := Mem.api) (Mem.client true)
           ProductCopier Scenario.gadget_t Scenario.gadget_a w params
           "prod_A" "prod_T" m'); reflexivity.
Defined.

Lemma fixed_kinds_are_never_modified_witness :
  let w :=
    Scenario.world
      (Mem.holding [("prices", [Scenario.price_1])]
         [("prices", [Scenario.tagged_price])]) in
  can_update PriceCopier = false
  /\ exists new,
       calls (copy (Mem.client false) PriceCopier [] w).1
       = (calls w ++ new)%list
       /\ Forall (fun c => ~ is_modification c) new.
Proof.
  intros w. split; [reflexivity|].
  apply (fixed_kinds_are_never_modified (api := Mem.api) (Mem.client false)
           PriceCopier [] w).
  reflexivity.
Defined.

(** ** The run as a whole *)

(** *** The shape of the statistics *)

Lemma record_of_bump (x : Z * Z * Z) (stat_type : string) (n : Z) :
  record_of x !! stat_type = Some n ->
  exists y, <[stat_type := n + 1]> (record_of x) = record_of y.
Proof.
  destruct x as [[c u] e]. unfold record_of. cbn [fst snd].
  generalize (n + 1). intros z.
  rewrite lookup_insert. case_decide as H1; [subst|].
  { intros _. exists (z, u, e). by_vm. }
  rewrite lookup_insert. case_decide as H2; [subst|].
  { intros _. exists (c, z, e). by_vm. }
  rewrite lookup_singleton. case_decide as H3; [subst|done].
  intros _. exists (c, u, z). by_vm.
Qed.

Lemma increment_stat_shaped (resource_type stat_type : string) (m : IDMapper) :
  shaped m -> shaped (increment_stat resource_type stat_type m).
Proof.
  intros (x1 & x2 & x3 & x4 & Hm).
  unfold shaped, increment_stat. rewrite Hm.
  destruct (four_records _ _ _ _ !! resource_type) as [st|] eqn:Hst;
    [|by rewrite Hm; eauto 10].
  destruct (st !! stat_type) as [n|] eqn:Hn; [|by rewrite Hm; eauto 10].
  cbn [stats]. unfold four_records in Hst.
  rewrite lookup_insert in Hst. case_decide as H1; [subst|].
  { injection Hst as <-. apply record_of_bump in Hn as [y ->].
    exists y, x2, x3, x4. by_vm. }
  rewrite lookup_insert in Hst. case_decide as H2; [subst|].
  { injection Hst as <-. apply record_of_bump in Hn as [y ->].
    exists x1, y, x3, x4. by_vm. }
  rewrite lookup_insert in Hst. case_decide as H3; [subst|].
  { injection Hst as <-. apply record_of_bump in Hn as [y ->].
    exists x1, x2, y, x4. by_vm. }
  rewrite lookup_singleton in Hst. case_decide as H4; [subst|done].
  injection Hst as <-. apply record_of_bump in Hn as [y ->].
  exists x1, x2, x3, y. by_vm.
Qed.

Section Shape.
Context `{api : StripeAPI}.
Implicit Types (w : World).

#[global] Instance shape_kept_preorder : PreOrder shape_kept.
Proof.
  split; unfold shape_kept.
  - by intros w.
  - intros w1 w2 w3 H12 H23 H1. auto.
Qed.

Lemma same_stats_shape w w' : same_stats w w' -> shape_kept w w'.
Proof.
  unfold same_stats, shape_kept, shaped. intros ->. done.
Qed.

Lemma same_mapper_shape w w' : same_mapper w w' -> shape_kept w w'.
Proof. intros H. by apply same_stats_shape, same_mapper_stats. Qed.

Lemma shaped_same_stats (m m' : IDMapper) :
  stats m' = stats m -> shaped m -> shaped m'.
Proof. unfold shaped. by intros ->. Qed.

Lemma counted_shaped (self : Copier) (existing : value) (m : IDMapper) :
  shaped m -> shaped (counted self existing m).
Proof.
  unfold counted. intros Hm.
  destruct (truthy existing); [destruct (can_update self)|];
    auto using increment_stat_shaped.
Qed.

Lemma keeps_shape_copy_step (client : StripeClient) (self : Copier)
    (test_entities : list value) (prod_entity : value) :
  keeps shape_kept (copy_step client self test_entities prod_entity).
Proof.
  intros w Hw.
  pose proof (copy_one_stats client self prod_entity test_entities w) as Hone.
  unfold wp in Hone. unfold copy_step, try_except, mbind at 1, M_bind.
  destruct (copy_one client self prod_entity test_entities w) as [w1 [r|e]];
    simpl in *.
  - destruct Hone as (existing & _ & Hst).
    eapply shaped_same_stats; [exact Hst|]. by apply counted_shaped.
  - unfold mbind, M_bind, lift.
    destruct (getattr prod_entity "id"); simpl.
    + apply increment_stat_shaped. by eapply shaped_same_stats.
    + by eapply shaped_same_stats.
Qed.

Lemma keeps_shape_copy_loop (client : StripeClient) (self : Copier)
    (prod_entities test_entities : list value) :
  keeps shape_kept (copy_loop client self prod_entities test_entities).
Proof.
  induction prod_entities as [|p ps IH]; simpl.
  - by apply keeps_ret; apply _.
  - apply keeps_bind; [apply _ | apply keeps_shape_copy_step | done].
Qed.

Lemma keeps_shape_stat_item (st : gmap string Z) (k : string) :
  keeps shape_kept (stat_item st k).
Proof.
  unfold stat_item. destruct (st !! k);
    [apply keeps_ret | apply keeps_raise]; apply _.
Qed.

Lemma keeps_shape_copy (client : StripeClient) (self : Copier) (filters : dict) :
  keeps shape_kept (copy client self filters).
Proof.
  unfold copy, list_from_prod, list_from_test.
  apply keeps_bind; [apply _ | |intros prod_entities].
  { eapply keeps_weaken; [apply same_mapper_shape | apply keeps_list_all]. }
  apply keeps_bind; [apply _ | |intros test_entities].
  { eapply keeps_weaken; [apply same_mapper_shape | apply keeps_list_all]. }
  destruct prod_entities as [|p ps]; [apply keeps_ret; apply _|].
  apply keeps_bind; [apply _ | apply keeps_shape_copy_loop | intros _].
  apply keeps_bind; [apply _ | apply keeps_get_mapper; apply _ | intros m].
  destruct (stats m !! resource_name self); [|apply keeps_raise; apply _].
  repeat (apply keeps_bind; [apply _ | apply keeps_shape_stat_item | intros _]).
  apply keeps_ret; apply _.
Qed.

Lemma keeps_shape_copy_entities (client : StripeClient) (names : list string) :
  keeps shape_kept (copy_entities client names).
Proof.
  induction names as [|name rest IH]; cbn [copy_entities].
  - apply keeps_ret; apply _.
  - destruct (copier_named name copiers_map); [|apply keeps_raise; apply _].
    apply keeps_bind; [apply _ | | done].
    apply keeps_try_except; [apply _ | |intros e; apply keeps_ret; apply _].
    apply keeps_bind; [apply _ | apply keeps_shape_copy | intros _].
    apply keeps_ret; apply _.
Qed.

End Shape.

(** *** The entities requested *)

Lemma copier_named_known (entity : string) :
  is_Some (copier_named entity copiers_map)
  <-> entity ∈ ["tax_rates"; "products"; "prices"; "coupons"].
Proof.
  unfold copiers_map. cbn [copier_named].
  destruct (String.eqb entity "tax_rates") eqn:E1.
  { apply String.eqb_eq in E1 as ->. split; [set_solver | eauto]. }
  destruct (String.eqb entity "products") eqn:E2.
  { apply String.eqb_eq in E2 as ->. split; [set_solver | eauto]. }
  destruct (String.eqb entity "prices") eqn:E3.
  { apply String.eqb_eq in E3 as ->. split; [set_solver | eauto]. }
  destruct (String.eqb entity "coupons") eqn:E4.
  { apply String.eqb_eq in E4 as ->. split; [set_solver | eauto]. }
  apply String.eqb_neq in E1, E2, E3, E4.
  split; [by intros [? ?]|]. intros Hin.
  repeat (apply elem_of_cons in Hin as [->|Hin]; [done|]).
  by apply elem_of_nil in Hin.
Qed.

(** X20.  The loop that fills [entities_to_copy] splits the request in
    two: the names kept are the requested names that are one of the four
    kinds, in the order and with the repetitions of the request; every
    other name is dropped with one warning
    ("Unknown entity ignored: <name>"), in order too.  The loop never
    raises. *)
Theorem select_entities_splits_the_request (requested_entities : list string) :
  let known entity :=
    bool_decide (entity ∈ ["tax_rates"; "products"; "prices"; "coupons"]) in
  select_entities requested_entities
  = (map (fun entity => "Unknown entity ignored: " +:+ entity)
       (List.filter (fun entity => negb (known entity)) requested_entities),
     Ok (List.filter known requested_entities)).
Proof.
  cbv zeta.
  induction requested_entities as [|entity rest IH]; [done|].
  cbn [select_entities List.filter]. rewrite IH.
  destruct (copier_named entity copiers_map) as [c|] eqn:Hc.
  - rewrite bool_decide_eq_true_2
      by (apply copier_named_known; rewrite Hc; eauto).
    cbn [negb]. unfold mbind, logged_bind. cbn [mret logged_ret].
    by rewrite app_nil_r.
  - rewrite bool_decide_eq_false_2
      by (intros [? H]%copier_named_known; rewrite Hc in H; done).
    done.
Qed.

Lemma select_entities_known (requested_entities : list string) :
  exists l names,
    select_entities requested_entities = (l, Ok names)
    /\ Forall (fun name => is_Some (copier_named name copiers_map)) names.
Proof.
  induction requested_entities as [|entity rest (l & names & IH & Hknown)].
  - by exists [], [].
  - cbn [select_entities].
    destruct (copier_named entity copiers_map) as [c|] eqn:Hc.
    + exists (l ++ [])%list, (entity :: names).
      unfold mbind, logged_bind. rewrite IH. split; [done|].
      apply Forall_cons_2; [by rewrite Hc|done].
    + exists (("Unknown entity ignored: " +:+ entity) :: l), names.
      unfold mbind, logged_bind, warn. rewrite IH. done.
Qed.

(** *** The exit code *)

Lemma record_of_errors (x : Z * Z * Z) : record_of x !! "errors" = Some x.2.
Proof.
  unfold record_of.
  rewrite lookup_insert_ne, lookup_insert_ne by done.
  apply lookup_singleton_eq.
Qed.

Lemma IDMapper_init_shaped : shaped IDMapper_init.
Proof. by exists (0, 0, 0), (0, 0, 0), (0, 0, 0), (0, 0, 0). Qed.

Section Exit.
Context `{api : StripeAPI}.

Lemma copy_entities_returns (client : StripeClient) (names : list string)
    (w : World) :
  Forall (fun name => is_Some (copier_named name copiers_map)) names ->
  exists w', copy_entities client names w = (w', Ok tt).
Proof.
  intros Hknown. revert w.
  induction Hknown as [|name rest [c Hc] _ IH]; intros w;
    cbn [copy_entities].
  - by exists w.
  - rewrite Hc. unfold mbind at 1, M_bind, try_except.
    destruct ((copy client c [] ≫= λ _, mret ()) w) as [w1 [[]|e]]; apply IH.
Qed.

(** X22.  When at least one requested entity is known and the run goes
    ahead (dry-run, [--yes], or a confirmed prompt), [main] reaches its
    final statistics whatever the copiers met: the mapper still holds one
    record of three counters for each of the four kinds, and the exit code
    is 1 exactly when the error counters of the four kinds add up to more
    than zero, 0 otherwise.  This is said of a run in which every
    request to the remote service returns: a listing is one call here, and
    the page loop behind it, which need not end (see
    [empty_page_with_more_never_ends]), is taken to have ended.  Writing
    the mapping file, which comes in between, is not part of the model
    either. *)
Theorem main_exit_code_reports_errors (prod test : string) (args : Args)
    (confirmed : bool) (r : remote) (names : list string) :
  (entities_to_copy (args_entities args)).2 = Ok names ->
  names <> [] ->
  args_dry_run args || args_yes args || confirmed = true ->
  exists tax_rates products prices coupons,
    let out := main prod test args confirmed r in
    stats (mapper out.1) = four_records tax_rates products prices coupons
    /\ out.2 = if 0 <? tax_rates.2 + products.2 + prices.2 + coupons.2
               then 1 else 0.
Proof.
  intros Hnames Hne Hgo.
  destruct (select_entities_known
              (map strip (split_on ","%char (args_entities args))))
    as (l & names' & Hsel & Hknown).
  unfold entities_to_copy in Hnames. rewrite Hsel in Hnames.
  injection Hnames as ->.
  set (client := mkStripeClient prod test (args_dry_run args)).
  set (w0 := mkWorld IDMapper_init r [] ([] ++ l)).
  destruct (copy_entities_returns client names w0 Hknown) as [w1 Hrun].
  assert (shaped (mapper w1)) as (x1 & x2 & x3 & x4 & Hshape).
  { pose proof (keeps_shape_copy_entities client names w0) as Hk.
    rewrite Hrun in Hk. apply Hk. apply IDMapper_init_shaped. }
  exists x1, x2, x3, x4.
  assert (main prod test args confirmed r
          = if 0 <? x1.2 + x2.2 + x3.2 + x4.2
            then (mkWorld (mapper w1) (account w1) (calls w1)
                    (warnings w1 ++ ["Some entities could not be copied"]), 1)
            else (w1, 0)) as ->.
  { unfold main, main_body, entities_to_copy. fold client.
    unfold mbind at 1, M_bind, run_logged. rewrite Hsel.
    cbn [fst snd mapper account calls warnings]. fold w0. destruct names as [|name rest]; [done|].
    assert (negb (args_dry_run args) && negb (args_yes args) && negb confirmed
            = false) as ->.
    { destruct (args_dry_run args), (args_yes args), confirmed; done. }
    unfold mbind at 1, M_bind. rewrite Hrun.
    unfold mbind at 1, M_bind, get_mapper.
    unfold mbind at 1, M_bind, lift.
    rewrite (get_summary_four_records _ _ _ _ _ Hshape).
    unfold mbind at 1, M_bind, stat_item. rewrite record_of_errors.
    cbn [fst snd mret M_ret].
    by destruct (0 <? x1.2 + x2.2 + x3.2 + x4.2). }
  cbv zeta. by destruct (0 <? x1.2 + x2.2 + x3.2 + x4.2).
Qed.

End Exit.

Lemma main_exit_code_reports_errors_witness :
  (entities_to_copy "products").2 = Ok ["products"]
  /\ exists tax_rates products prices coupons,
       let out := Scenario.run "products" false Scenario.widget_accounts in
       stats (mapper out.1) = four_records tax_rates products prices coupons
       /\ out.2 = if 0 <? tax_rates.2 + products.2 + prices.2 + coupons.2
                  then 1 else 0.
Proof.
  assert ((entities_to_copy "products").2 = Ok ["products"]) as H
    by reflexivity.
  split; [exact H|].
  apply (main_exit_code_reports_errors (api := Mem.api) Mem.live_key
           Mem.sandbox_key (mkArgs false "products" true) true
           Scenario.widget_accounts ["products"] H);
    [discriminate | reflexivity].
Defined.


Section Idle.
Context `{api : StripeAPI}.

(** X21.  When no requested entity is known, or when the run is neither a
    dry-run nor accepted ([--yes] or the prompt), [main] stops before any
    copier runs: no request reaches the remote service, the mapper is the
    new one, the only log lines kept are the warnings for unknown names,
    and the exit code is 1 in the first case and 0 in the second.  The
    names are those that [split] and [strip] leave, whitespace that is not
    ASCII being stripped as well. *)
Theorem main_without_work_requests_nothing (prod test : string) (args : Args)
    (confirmed : bool) (r : remote) (l names : list string) :
  entities_to_copy (args_entities args) = (l, Ok names) ->
  names = []
  \/ (args_dry_run args = false /\ args_yes args = false /\ confirmed = false) ->
  main prod test args confirmed r
  = (mkWorld IDMapper_init r [] l,
     match names with [] => 1 | _ => 0 end).
Proof.
  intros Hsel Hidle. unfold main, main_body.
  unfold mbind at 1, M_bind, run_logged. rewrite Hsel.
  cbn [fst snd mapper account calls warnings app].
  destruct names as [|name rest]; [done|].
  destruct Hidle as [|(-> & -> & ->)]; done.
Qed.

End Idle.

Lemma main_without_work_requests_nothing_witness :
  entities_to_copy "invoices" = (["Unknown entity ignored: invoices"], Ok [])
  /\ main (api := Mem.api) Mem.live_key Mem.sandbox_key
       (mkArgs false "invoices" true) true Scenario.widget_accounts
     = (@mkWorld Mem.api IDMapper_init Scenario.widget_accounts []
          ["Unknown entity ignored: invoices"], 1).
Proof.
  assert (entities_to_copy "invoices"
          = (["Unknown entity ignored: invoices"], Ok [])) as H
    by reflexivity.
  split; [exact H|].
  apply (main_without_work_requests_nothing (api := Mem.api) Mem.live_key
           Mem.sandbox_key (mkArgs false "invoices" true) true
           Scenario.widget_accounts _ [] H).
  by left.
Defined.


(** *** Listings that fail *)

Section Failures.
Context `{api : StripeAPI}.

Lemma copy_listing_fails (client : StripeClient) (self : Copier)
    (filters : dict) (w : World) (r1 : remote) (msg : string) :
  self ∈ copiers ->
  stripe_list (resource_name self) (prod_key client)
    (dict_set "limit" (VInt 100) filters) (account w) = (r1, inl msg) ->
  copy client self filters w
  = (mkWorld (mapper w) r1
       (calls w ++ [ApiList (resource_name self) (prod_key client)
                      (dict_set "limit" (VInt 100) filters)])
       (warnings w),
     Raise (StripeClientError
              ("Error listing " +:+ resource_name self +:+ ": " +:+ msg))).
Proof.
  intros Hself%copiers_are_listed Hlist.
  unfold copy, list_from_prod, list_all.
  rewrite bool_decide_eq_true_2 by done.
  unfold mbind, M_bind, request.
  change (_get_client client PRODUCTION) with (prod_key client).
  cbn [dict_update fold_left fst snd]. by rewrite Hlist.
Qed.

Lemma copier_named_listed (name : string) (c : Copier) :
  copier_named name copiers_map = Some c ->
  c ∈ copiers /\ resource_name c = name.
Proof.
  unfold copiers_map, copiers. cbn [copier_named].
  repeat (destruct (String.eqb name _) eqn:?;
          [ intros [= <-]; apply String.eqb_eq in Heqb; subst name;
            split; [set_solver|done] | clear Heqb ]).
  done.
Qed.

Lemma copy_entities_listings_fail (client : StripeClient) (names : list string) :
  Forall (fun name => is_Some (copier_named name copiers_map)) names ->
  (forall name params r0,
     exists r1 msg,
       stripe_list name (prod_key client) params r0 = (r1, inl msg)) ->
  forall w,
    exists r',
      copy_entities client names w
      = (mkWorld (mapper w) r'
           (calls w
            ++ map (fun name =>
                      ApiList name (prod_key client) [("limit", VInt 100)])
                 names)
           (warnings w),
         Ok tt).
Proof.
  intros Hknown Hdown.
  induction Hknown as [|name rest [c Hc] _ IH]; intros w; cbn [copy_entities map].
  - exists (account w). rewrite app_nil_r. by destruct w.
  - rewrite Hc. apply copier_named_listed in Hc as [Hin <-].
    destruct (Hdown (resource_name c) (dict_set "limit" (VInt 100) [])
                (account w)) as (r1 & msg & Hlist).
    unfold mbind at 1, M_bind, try_except. unfold mbind at 1, M_bind.
    rewrite (copy_listing_fails client c [] w r1 msg Hin Hlist).
    cbn [mret M_ret].
    destruct (IH (mkWorld (mapper w) r1
                    (calls w ++ [ApiList (resource_name c) (prod_key client)
                                   (dict_set "limit" (VInt 100) [])])
                    (warnings w))) as [r' ->].
    exists r'. cbn [mapper account calls warnings dict_set].
    by rewrite <- app_assoc.
Qed.

(** X23.  A kind whose production listing fails is skipped and nothing is
    counted for it.  If the service refuses every listing made with the
    production key, a run that goes ahead makes one listing request for
    each requested kind, in order, and nothing else; the mapper ends as it
    started, with every counter at zero; and the exit code is 0, although
    nothing was copied.  (Writing the mapping file is not part of the
    model.) *)
Theorem failed_listings_exit_with_zero (prod test : string) (args : Args)
    (confirmed : bool) (r : remote) (l names : list string) :
  entities_to_copy (args_entities args) = (l, Ok names) ->
  names <> [] ->
  args_dry_run args || args_yes args || confirmed = true ->
  (forall name params r0,
     exists r1 msg, stripe_list name prod params r0 = (r1, inl msg)) ->
  exists r',
    main prod test args confirmed r
    = (mkWorld IDMapper_init r'
         (map (fun name => ApiList name prod [("limit", VInt 100)]) names) l,
       0).
Proof.
  intros Hsel Hne Hgo Hdown.
  destruct (select_entities_known
              (map strip (split_on ","%char (args_entities args))))
    as (l' & names' & Hsel' & Hknown).
  unfold entities_to_copy in Hsel. rewrite Hsel in Hsel'.
  injection Hsel' as <- <-.
  set (client := mkStripeClient prod test (args_dry_run args)).
  destruct (copy_entities_listings_fail client names Hknown Hdown
              (mkWorld IDMapper_init r [] l)) as [r' Hrun].
  exists r'. unfold main, main_body, entities_to_copy. fold client.
  unfold mbind at 1, M_bind, run_logged. rewrite Hsel.
  cbn [fst snd mapper account calls warnings app].
  destruct names as [|name rest]; [done|].
  assert (negb (args_dry_run args) && negb (args_yes args) && negb confirmed
          = false) as ->.
  { destruct (args_dry_run args), (args_yes args), confirmed; done. }
  unfold mbind at 1, M_bind. rewrite Hrun.
  cbn [mapper account calls warnings app].
  unfold mbind at 1, M_bind, get_mapper. cbn [mapper].
  unfold mbind at 1, M_bind, lift.
  assert (get_summary IDMapper_init = Ok zero_stats) as -> by by_vm.
  unfold mbind at 1, M_bind, stat_item.
  assert (zero_stats !! "errors" = Some 0) as -> by by_vm.
  done.
Qed.

End Failures.

Lemma failed_listings_exit_with_zero_witness :
  entities_to_copy "products,prices" = ([], Ok ["products"; "prices"])
  /\ exists r',
       main (api := Outage.api) "sk_live" "sk_test_1"
         (mkArgs false "products,prices" true) true tt
       = (@mkWorld Outage.api IDMapper_init r'
            [ ApiList "products" "sk_live" [("limit", VInt 100)];
              ApiList "prices" "sk_live" [("limit", VInt 100)] ] [],
          0).
Proof.
  assert (entities_to_copy "products,prices"
          = ([], Ok ["products"; "prices"])) as H by reflexivity.
  split; [exact H|].
  apply (failed_listings_exit_with_zero (api := Outage.api) "sk_live"
           "sk_test_1" (mkArgs false "products,prices" true) true tt []
           ["products"; "prices"] H); [discriminate | reflexivity |].
  intros name params r0. exists r0, Outage.refused. reflexivity.
Defined.



(** *** The keys *)

Section Keys.
Context `{api : StripeAPI}.

(** X24.  Every request in the trace of a run of [main] is a listing, or a
    creation or modification made with the test key in a run that is not
    a dry-run.  So no run writes with the production key (unless the two
    keys are the same string), and a dry-run writes nothing. *)
Theorem run_never_writes_to_production (prod test : string) (args : Args)
    (confirmed : bool) (r : remote) (c : api_call) :
  c ∈ calls (main prod test args confirmed r).1 ->
  match c with
  | ApiList _ _ _ => True
  | ApiCreate _ api_key _ | ApiModify _ _ api_key _ =>
      args_dry_run args = false /\ api_key = test
  end.
Proof.
  intros Hc.
  pose proof (main_sends_permitted prod test args confirmed r) as Hall.
  apply (proj1 (Forall_forall _ _) Hall c) in Hc. by destruct c.
Qed.

(** X25.  With the keys read from the environment, a run that does not
    pass the validation of the configuration requests nothing and exits
    with code 1; in a run that passes it, every creation or modification
    in the trace is made with the value of [STRIPE_SECRET_KEY_TEST], which
    starts with [sk_test_] and is not the value of [STRIPE_SECRET_KEY]. *)
Theorem configured_run_writes_with_the_test_key
    (getenv : string -> option string) (args : Args) (confirmed : bool)
    (r : remote) (c : api_call) :
  c ∈ calls (main_from_env getenv args confirmed r).1 ->
  (exists config, Config_init getenv = inr config)
  /\ match c with
     | ApiList _ _ _ => True
     | ApiCreate _ api_key _ | ApiModify _ _ api_key _ =>
         args_dry_run args = false
         /\ getenv "STRIPE_SECRET_KEY_TEST" = Some api_key
         /\ String.prefix "sk_test_" api_key = true
         /\ getenv "STRIPE_SECRET_KEY" <> Some api_key
     end.
Proof.
  unfold main_from_env.
  destruct (Config_init getenv) as [msg|config] eqn:Hconfig.
  { cbn [fst calls]. by intros ?%elem_of_nil. }
  intros Hc. split; [eauto|].
  apply Config_init_accepted in Hconfig as (Hp & Ht & _ & Hpre & Hdiff).
  pose proof (main_sends_permitted (stripe_prod_key config)
                (stripe_test_key config) args confirmed r) as Hall.
  apply (proj1 (Forall_forall _ _) Hall c) in Hc.
  destruct c as [| ? api_key ? | ? ? api_key ?]; [done| |];
    cbn [permitted dry_run test_key] in Hc; destruct Hc as [Hdry ->];
    (split; [done|]); (split; [done|]); (split; [done|]);
    rewrite Hp; congruence.
Qed.

End Keys.

Lemma run_never_writes_to_production_witness :
  let c :=
    ApiCreate "products" Mem.sandbox_key
      [("name", VStr "Widget");
       ("metadata", VDict [("prod_id", VStr "prod_A")])] in
  c ∈ calls (Scenario.run "products" false Scenario.widget_accounts).1
  /\ (false = false /\ Mem.sandbox_key = Mem.sandbox_key).
Proof.
  intros c.
  assert (c ∈ calls (Scenario.run "products" false
                       Scenario.widget_accounts).1) as H.
  { assert (calls (Scenario.run "products" false Scenario.widget_accounts).1
            = [ ApiList "products" Mem.live_key [("limit", VInt 100)];
                ApiList "products" Mem.sandbox_key [("limit", VInt 100)];
                c ]) as -> by by_vm.
    apply list_elem_of_further, list_elem_of_further, list_elem_of_here. }
  split; [exact H|].
  exact (run_never_writes_to_production (api := Mem.api) Mem.live_key
           Mem.sandbox_key (mkArgs false "products" true) true
           Scenario.widget_accounts c H).
Defined.

Lemma configured_run_writes_with_the_test_key_witness :
  let c :=
    ApiCreate "products" "sk_test_1"
      [("name", VStr "Widget");
       ("metadata", VDict [("prod_id", VStr "prod_A")])] in
  let out :=
    main_from_env (api := Mem.api) Cases.getenv (mkArgs false "products" true)
      true Scenario.widget_accounts in
  c ∈ calls out.1
  /\ (exists config, Config_init Cases.getenv = inr config)
  /\ false = false
  /\ Cases.getenv "STRIPE_SECRET_KEY_TEST" = Some "sk_test_1"
  /\ String.prefix "sk_test_" "sk_test_1" = true
  /\ Cases.getenv "STRIPE_SECRET_KEY" <> Some "sk_test_1".
Proof.
  intros c out.
  assert (c ∈ calls out.1) as H.
  { assert (calls out.1
            = [ ApiList "products" Mem.live_key [("limit", VInt 100)];
                ApiList "products" "sk_test_1" [("limit", VInt 100)];
                c ]) as -> by by_vm.
    apply list_elem_of_further, list_elem_of_further, list_elem_of_here. }
  split; [exact H|].
  exact (configured_run_writes_with_the_test_key (api := Mem.api) Cases.getenv
           (mkArgs false "products" true) true Scenario.widget_accounts c H).
Defined.

(** ** Dry-run creation *)

Lemma dry_run_create_in_test_raises_witness :
  let w := Scenario.world Scenario.widget_accounts in
  dry_run (Mem.client true) = true
  /\ exists w' x,
       create_in_test (Mem.client true) ProductCopier Scenario.widget w
       = (w', Raise x)
       /\ mapper w' = mapper w /\ calls w' = calls w
       /\ account w' = account w.
Proof.
  intros w. split; [reflexivity|].
  apply (dry_run_create_in_test_raises (api := Mem.api) (Mem.client true)
           ProductCopier Scenario.widget w).
  reflexivity.
Defined.

(** * Two runs, and the coupon that is created *)

(** ** Two runs in succession *)

Section TwoRuns.
Context `{api : StripeAPI}.
Variable client : StripeClient.
Implicit Types (w : World) (self : Copier).







End TwoRuns.


(** ** A coupon restricted to products that were not copied *)

Section Created.
Context `{api : StripeAPI}.
Variable client : StripeClient.
Implicit Types (w : World) (self : Copier).

(** Recording a mapping and counting touch the mapper only. *)
Lemma recording_keeps_log {A} (name stat_type : string)
    (prod_entity test_entity : value) (a : A) w :
  let w' := ((mapper_add_mapping name prod_entity test_entity;;
              mapper_increment_stat name stat_type;;
              mret a) w).1 in
  calls w' = calls w /\ warnings w' = warnings w.
Proof.
  unfold mapper_add_mapping, mapper_increment_stat.
  unfold mbind, M_bind, lift, get_mapper, set_mapper.
  destruct (str_id prod_entity); [|done].
  destruct (str_id test_entity); [|done].
  by destruct (add_mapping _ _ _ _).
Qed.

Lemma recording_counts {A} (name stat_type : string)
    (prod_entity test_entity : value) (a b : A) w w' :
  (mapper_add_mapping name prod_entity test_entity;;
   mapper_increment_stat name stat_type;;
   mret a) w = (w', Ok b) ->
  stats (mapper w') = stats (increment_stat name stat_type (mapper w)).
Proof.
  unfold mapper_add_mapping, mapper_increment_stat.
  unfold mbind, M_bind, lift, get_mapper, set_mapper.
  destruct (str_id prod_entity); [|done].
  destruct (str_id test_entity); [|done].
  destruct (add_mapping _ _ _ _) as [m'|] eqn:E; [|done].
  cbn [fst snd mret M_ret mapper]. intros [= <- _]. cbn [mapper].
  apply increment_stat_same_stats. by apply add_mapping_stats in E.
Qed.

(** [create_in_test] once the parameters are built, outside dry-run: the
    request is sent with the tagged parameters, and only then is the
    answer of the remote service looked at. *)
Lemma create_in_test_request self (prod_entity prod_id metadata : value)
    (l : list string) (params : dict) w :
  dry_run client = false ->
  resource_name self ∈ resource_map ->
  get_create_params self (mapper w) prod_entity = (l, Ok params) ->
  getattr prod_entity "id" = Ok prod_id ->
  let params' :=
    match dict_get "metadata" params with
    | Some _ => params
    | None => dict_set "metadata" (VDict []) params
    end in
  setitem (default VNone (dict_get "metadata" params')) "prod_id" prod_id
    = Ok metadata ->
  let sent := dict_set "metadata" metadata params' in
  create_in_test client self prod_entity w
  = let (r, out) :=
      stripe_create (resource_name self) (test_key client) sent (account w) in
    let w_sent :=
      mkWorld (mapper w) r
        (calls w ++ [ApiCreate (resource_name self) (test_key client) sent])
        (warnings w ++ l) in
    match out with
    | inl e =>
        (w_sent,
         Raise (StripeClientError
                  ("Error creating " +:+ resource_name self +:+ ": " +:+ e)))
    | inr created =>
        (mapper_add_mapping (resource_name self) prod_entity created;;
         mapper_increment_stat (resource_name self) "created";;
         mret created) w_sent
    end.
Proof.
  intros Hdry Hres Hparams Hid params' Hset sent.
  unfold create_in_test.
  unfold mbind at 1, M_bind, get_mapper.
  unfold mbind at 1, M_bind, run_logged. rewrite Hparams. cbn [fst snd].
  unfold mbind at 1, M_bind, lift. rewrite Hid.
  unfold mbind at 1, M_bind. fold params'. rewrite Hset. fold sent.
  unfold mbind at 1, M_bind, create. rewrite decide_False by done.
  rewrite Hdry, bool_decide_eq_true_2 by done.
  unfold mbind at 1, M_bind, request.
  change (_get_client client TEST) with (test_key client).
  cbn [account mapper calls warnings].
  by destruct (stripe_create _ _ _ _) as [r [e|created]].
Qed.

(** The metadata among the creation parameters of a coupon, if any, are a
    plain dictionary. *)
Lemma coupon_params_metadata (m : IDMapper) (prod_entity : value)
    (l : list string) (params : dict) :
  Coupon.get_create_params m prod_entity = (l, Ok params) ->
  dict_get "metadata" params = None
  \/ exists kvs, dict_get "metadata" params = Some (VDict kvs).
Proof.
  unfold Coupon.get_create_params.
  set (params0 := if has_truthy prod_entity "id" then _ else _).
  unfold mbind, logged_bind.
  destruct (Coupon.copy_applies_to _ _ _) as [l1 [p1|]] eqn:H1; [|done].
  unfold quiet.
  destruct (copy_metadata prod_entity p1) as [p2|] eqn:H2; [|done].
  intros [= _ <-]. revert H2. unfold copy_metadata.
  destruct (has_truthy prod_entity "metadata").
  - destruct (py_dict _) as [kvs|]; [|done]. cbn [mbind result_bind].
    intros [= <-]. right. exists kvs. apply dict_get_set_eq.
  - intros [= <-]. left.
    rewrite (dict_get_copy_applies_to "metadata" _ _ _ _ _ ltac:(done) H1).
    rewrite !dict_get_copy_truthy, dict_get_copy_present by done.
    unfold params0, Coupon.copy_discount, copy_present.
    repeat match goal with
           | |- context [if ?b then _ else _] => destruct b
           | |- context [match getattr ?e ?a with _ => _ end] =>
               destruct (getattr e a)
           end;
      rewrite ?dict_get_set_ne by done; done.
Qed.

(** C9.  Take a coupon with a string id whose [applies_to.products] is a
    list of product ids of which at least one does not resolve in the
    mapper, whose metadata, if any, are a mapping, and for which
    [find_existing] finds no test coupon; dry-run is off.  Building the
    creation parameters succeeds: each id that does not resolve is left
    out with one warning, in order, each id that resolves is replaced by
    its test id, in order, and when none resolves the parameters have no
    [applies_to] key.  The coupon is then created, not skipped: the turn
    of the loop of [copy] for it completes, logs those warnings, and sends
    exactly one request, the creation of a coupon with the test key, whose
    parameters are the ones built (the [applies_to] entry among them)
    with the id of the coupon added to the metadata under [prod_id].
    When the remote service answers with a record that has a string id,
    the coupon is counted as created and mapped to that id. *)
Theorem coupon_with_unmapped_products_is_created
    (prod_entity applies_to existing : value) (pids : list string)
    (id : string) (test_entities : list value) w :
  dry_run client = false ->
  getattr prod_entity "id" = Ok (VStr id) ->
  getattr prod_entity "applies_to" = Ok applies_to ->
  getattr applies_to "products" = Ok (VList (VStr <$> pids)) ->
  Exists (fun pid => resolve (mapper w) pid = None) pids ->
  metadata_is_mapping prod_entity = true ->
  Coupon.find_existing (mapper w) prod_entity test_entities = Ok existing ->
  truthy existing = false ->
  let unresolved :=
    unresolved_warning <$>
      filter (fun pid => resolve (mapper w) pid = None) pids in
  exists params sent w',
    Coupon.get_create_params (mapper w) prod_entity = (unresolved, Ok params)
    /\ dict_get "applies_to" params
       = match omap (resolve (mapper w)) pids with
         | [] => None
         | test_ids => Some (VDict [("products", VList (VStr <$> test_ids))])
         end
    /\ (forall k, k <> "metadata" -> dict_get k sent = dict_get k params)
    /\ request_tag sent = Some (VStr id)
    /\ copy_step client CouponCopier test_entities prod_entity w = (w', Ok tt)
    /\ calls w' = (calls w ++ [ApiCreate "coupons" (test_key client) sent])%list
    /\ warnings w' = (warnings w ++ unresolved)%list
    /\ (forall (r : remote) (created : value) (test_id : string) (c u e : Z),
          stripe_create "coupons" (test_key client) sent (account w)
            = (r, inr created) ->
          str_id created = Ok test_id ->
          is_Some (mappings (mapper w) !! "coupons") ->
          counters (mapper w) "coupons" = Some (c, u, e) ->
          counters (mapper w') "coupons" = Some (c + 1, u, e)
          /\ get_test_id "coupons" (VStr id) (mapper w') = Ok (Some test_id)).
Proof.
  intros Hdry Hid Happlies Hproducts Hsome Hmeta Hfind Hfalse unresolved.
  destruct (coupon_drops_unmapped_products (mapper w) prod_entity applies_to
              pids Happlies Hproducts Hsome Hmeta) as (params & Hparams & Happ).
  fold unresolved in Hparams.
  set (params' := match dict_get "metadata" params with
                  | Some _ => params
                  | None => dict_set "metadata" (VDict []) params
                  end).
  assert (exists kvs, dict_get "metadata" params' = Some (VDict kvs))
    as [kvs Hkvs].
  { unfold params'.
    destruct (coupon_params_metadata _ _ _ _ Hparams) as [Hnone|[kvs Hkvs]].
    - rewrite Hnone. exists []. apply dict_get_set_eq.
    - rewrite Hkvs. by exists kvs. }
  set (metadata := VDict (dict_set "prod_id" (VStr id) kvs)).
  set (sent := dict_set "metadata" metadata params').
  assert (setitem (default VNone (dict_get "metadata" params')) "prod_id"
            (VStr id) = Ok metadata) as Hset by (by rewrite Hkvs).
  assert (forall k, k <> "metadata" -> dict_get k sent = dict_get k params)
    as Hframe.
  { intros k Hk. unfold sent, params'. rewrite dict_get_set_ne by done.
    destruct (dict_get "metadata" params); [done|].
    by rewrite dict_get_set_ne. }
  assert (request_tag sent = Some (VStr id)) as Htag.
  { unfold request_tag, sent, metadata. rewrite dict_get_set_eq.
    apply dict_get_set_eq. }
  assert (resource_name CouponCopier ∈ resource_map) as Hres
    by apply list_elem_of_further, list_elem_of_further, list_elem_of_here.
  pose proof (create_in_test_request CouponCopier prod_entity (VStr id)
                metadata unresolved params w Hdry Hres Hparams Hid Hset)
    as Hcreate.
  cbv zeta in Hcreate. fold params' sent in Hcreate.
  change (resource_name CouponCopier) with "coupons" in Hcreate.
  assert (copy_step client CouponCopier test_entities prod_entity w
          = let (w1, r) := create_in_test client CouponCopier prod_entity w in
            match r with
            | Ok _ => (w1, Ok tt)
            | Raise _ => (mapper_increment_stat "coupons" "errors") w1
            end) as Hstep.
  { unfold copy_step, try_except, copy_one.
    unfold mbind at 1, M_bind. unfold mbind at 1, M_bind, get_mapper.
    unfold mbind at 1, M_bind, lift.
    change (find_existing CouponCopier) with Coupon.find_existing.
    rewrite Hfind, Hfalse.
    unfold mbind at 1, M_bind. rewrite Hid.
    unfold mbind at 1, M_bind.
    destruct (create_in_test client CouponCopier prod_entity w)
      as [w1 [t|x]]; done. }
  rewrite Hstep, Hcreate. clear Hstep Hcreate.
  destruct (stripe_create "coupons" (test_key client) sent (account w))
    as [r out] eqn:Hout.
  set (w_sent := mkWorld (mapper w) r _ _).
  exists params, sent.
  destruct out as [msg|created].
  - eexists. split; [done|]. split; [done|]. split; [done|]. split; [done|].
    unfold mapper_increment_stat, mbind, M_bind, get_mapper, set_mapper.
    cbn [fst snd]. split; [done|]. split; [done|]. split; [done|].
    intros ? ? ? ? ? ? Heq. congruence.
  - destruct (recording_keeps_log "coupons" "created" prod_entity created
                created w_sent) as [Hcalls Hwarn].
    destruct ((mapper_add_mapping "coupons" prod_entity created;;
               mapper_increment_stat "coupons" "created";;
               mret created) w_sent) as [w1 [t|x]] eqn:Hrec;
      cbn [fst] in Hcalls, Hwarn.
    + exists w1. repeat (split; [done|]).
      intros r0 created0 test_id c u e Heq Htid Hknown Hc.
      assert (created0 = created) as -> by congruence.
      pose proof (recording_counts _ _ _ _ _ _ _ _ Hrec) as Hstats.
      apply counted_mapping in Hrec as (_ & pid & tid & Hp & Ht & Hget).
      assert (pid = id) as ->.
      { unfold str_id in Hp. rewrite Hid in Hp. by injection Hp. }
      assert (tid = test_id) as -> by congruence.
      split; [|done].
      rewrite (counters_same_stats _ _ "coupons" Hstats).
      by apply counters_increment_created.
    + eexists.
      unfold mapper_increment_stat, mbind, M_bind, get_mapper, set_mapper.
      cbn [fst snd]. split; [done|]. split; [done|]. split; [done|].
      split; [done|]. split; [done|]. cbn [calls warnings].
      split; [done|]. split; [done|].
      intros r0 created0 test_id c u e Heq Htid [tbl Hknown] Hc.
      assert (created0 = created) as -> by congruence.
      exfalso. revert Hrec.
      unfold mapper_add_mapping, mapper_increment_stat.
      unfold mbind, M_bind, lift, get_mapper, set_mapper.
      assert (str_id prod_entity = Ok id) as ->
        by (unfold str_id; by rewrite Hid).
      rewrite Htid. cbn [mapper w_sent]. unfold add_mapping. rewrite Hknown.
      done.
Qed.

End Created.

Lemma coupon_with_unmapped_products_is_created_witness :
  let w :=
    @mkWorld Mem.api Scenario.mapped (Mem.holding [] []) [] [] in
  let sent :=
    [("id", VStr "test_SAVE20"); ("percent_off", VInt 20);
     ("duration", VStr "once");
     ("applies_to", VDict [("products", VList [VStr "prod_T"])]);
     ("metadata", VDict [("prod_id", VStr "SAVE20")])] in
  (dry_run (Mem.client false) = false
   /\ getattr Scenario.coupon_1 "id" = Ok (VStr "SAVE20")
   /\ resolve Scenario.mapped "prod_X" = None
   /\ Coupon.find_existing Scenario.mapped Scenario.coupon_1 [] = Ok VNone)
  /\ exists w',
       copy_step (Mem.client false) CouponCopier [] Scenario.coupon_1 w
       = (w', Ok tt)
       /\ calls w' = [ApiCreate "coupons" Mem.sandbox_key sent]
       /\ warnings w' = ["Product prod_X not found in mapping"]
       /\ counters (mapper w') "coupons" = Some (1, 0, 0)
       /\ get_test_id "coupons" (VStr "SAVE20") (mapper w')
          = Ok (Some "test_SAVE20").
Proof.
  intros w sent.
  assert (resolve Scenario.mapped "prod_X" = None) as H3 by by_vm.
  split; [by repeat split|].
  destruct (coupon_with_unmapped_products_is_created (api := Mem.api)
              (Mem.client false) Scenario.coupon_1 Scenario.restriction VNone
              ["prod_A"; "prod_X"] "SAVE20" [] w)
    as (params & sent' & w' & _ & _ & _ & _ & Hstep & Hcalls & Hwarn & Hcount);
    [reflexivity | reflexivity | reflexivity | reflexivity
    | apply Exists_cons_tl, Exists_cons_hd; exact H3
    | reflexivity | reflexivity | reflexivity |].
  assert (sent' = sent) as ->.
  { assert (calls (copy_step (Mem.client false) CouponCopier []
                     Scenario.coupon_1 w).1
            = [ApiCreate "coupons" Mem.sandbox_key sent]) as Hc by by_vm.
    rewrite Hstep in Hc. cbn [fst] in Hc. rewrite Hcalls in Hc.
    by injection Hc. }
  exists w'. split; [exact Hstep|]. split; [exact Hcalls|].
  split; [exact Hwarn|].
  set (answer := Mem.create_record "coupons" Mem.sandbox_key sent (account w)).
  apply (Hcount answer.1
           match answer.2 with inr created => created | inl _ => VNone end
           "test_SAVE20" 0 0 0).
  - by_vm.
  - by_vm.
  - exists ∅. by_vm.
  - by_vm.
Defined.

(** ** Names with whitespace around them *)

(** The names of [--entities] are stripped of the whitespace of
    [str.strip], ASCII or not, before they are looked up. *)
Lemma entities_are_stripped :
  entities_to_copy (" products" +:+ Cases.nbsp +:+ ",prices ")
  = ([], Ok ["products"; "prices"])
  /\ entities_to_copy ("products" +:+ Cases.nbsp +:+ "x")
     = (["Unknown entity ignored: products" +:+ Cases.nbsp +:+ "x"], Ok []).
Proof. split; reflexivity. Qed.
